(** * Country labelling of earthquake coordinates

    A shallow embedding of the two coordinate classifiers of the
    repository,

    - [Advanced]: [backup/add_country_advanced.py] (class [CountryDetector]
      and [process_earthquake_database]);
    - [Comprehensive]: [backup/comprehensive_country_detector.py] (class
      [ComprehensiveCountryDetector] and [analyze_and_update_database]);

    together with the properties the specification states about them.

    Python floats are modelled by their exact value: a finite float is the
    rational it denotes, and not-a-number, the two infinities and the
    negative zero are separate constructors.  Every comparison of the
    source is between a float and an integer literal, so comparing the
    exact values is what the interpreter does.  The geocoding service, the
    [pycountry] table and the conversion [float(str)] are collaborators of
    the scripts and are taken as parameters. *)

From Stdlib Require Import QArith Qabs Lia Lqa.
From stdpp Require Import gmap strings list pretty.

Local Open Scope string_scope.

(** ** Python values *)

Inductive pyfloat :=
| FNan
| FInf (neg : bool)
| FNegZero
| FFin (q : Q).

(** A cell of the [Latitude] or [Longitude] column, as [df.loc] hands it to
    the detector: a missing value, a float ([read_csv] makes a column with
    a fraction or a gap a float column) or, in a column that did not parse
    as numbers, a string. *)
Inductive pyval :=
| VNone
| VFloat (f : pyfloat)
| VStr (s : string).

(** [a <= x] for an integer literal [a]. *)
Definition le_zf (a : Z) (x : pyfloat) : bool :=
  match x with
  | FNan => false
  | FInf neg => negb neg
  | FNegZero => (a <=? 0)%Z
  | FFin q => Qle_bool (inject_Z a) q
  end.

(** [x <= b] for an integer literal [b]. *)
Definition le_fz (x : pyfloat) (b : Z) : bool :=
  match x with
  | FNan => false
  | FInf neg => neg
  | FNegZero => (0 <=? b)%Z
  | FFin q => Qle_bool q (inject_Z b)
  end.

(** The chained comparison [a <= x <= b], that is [a <= x and x <= b]. *)
Definition between (a : Z) (x : pyfloat) (b : Z) : bool :=
  le_zf a x && le_fz x b.

(** [x >= b] is [b <= x]. *)
Definition ge_fz (x : pyfloat) (b : Z) : bool := le_zf b x.

(** [abs(x) > b]. *)
Definition abs_gt_fz (x : pyfloat) (b : Z) : bool :=
  match x with
  | FNan => false
  | FInf _ => true
  | FNegZero => (b <? 0)%Z
  | FFin q => negb (Qle_bool (Qabs q) (inject_Z b))
  end.

Notation "a '<=!' x '<=!' b" := (between a x b)
  (at level 70, x at next level, b at next level, no associativity).

(** [pd.isna] on a scalar. *)
Definition isna (v : pyval) : bool :=
  match v with
  | VNone => true
  | VFloat FNan => true
  | _ => false
  end.

(** A float literal with a numerator and a power-of-ten or power-of-two
    denominator. *)
Definition fl (n : Z) (d : positive) : pyfloat := FFin (n # d).
Definition fz (n : Z) : pyfloat := FFin (inject_Z n).

(** ** Cache keys: [f"{lat:.3f},{lon:.3f}"]

    The format specification [.Nf] prints the exact value of the float
    rounded to [N] decimals, ties to even, and keeps the sign of a negative
    value that rounds to zero. *)

Definition round_half_even (q : Q) : Z :=
  let n := Qnum q in
  let d := Zpos (Qden q) in
  let fl := (n / d)%Z in
  let r := (n mod d)%Z in
  match (2 * r ?= d)%Z with
  | Lt => fl
  | Gt => (fl + 1)%Z
  | Eq => if Z.even fl then fl else (fl + 1)%Z
  end.

Definition digit_char (n : Z) : string :=
  pretty (Z.to_N (n mod 10)).

(** The last [d] decimal digits of [n], zero padded. *)
Fixpoint fixed_digits (d : nat) (n : Z) : string :=
  match d with
  | O => ""
  | S d' => fixed_digits d' (n / 10)%Z ++ digit_char n
  end.

Definition format_fixed (d : nat) (x : pyfloat) : string :=
  match x with
  | FNan => "nan"
  | FInf false => "inf"
  | FInf true => "-inf"
  | FNegZero => "-0." ++ fixed_digits d 0
  | FFin q =>
      let n := round_half_even (Qabs q * inject_Z (10 ^ Z.of_nat d)) in
      (if Qle_bool 0 q then "" else "-")
        ++ pretty (Z.to_N (n / 10 ^ Z.of_nat d)) ++ "."
        ++ fixed_digits d n
  end.

Definition cache_key (d : nat) (lat lon : pyfloat) : string :=
  format_fixed d lat ++ "," ++ format_fixed d lon.

(** ** The table and the world around the detector *)

(** A row of the data frame: the two coordinate cells and the [Country]
    cell, [None] being a missing value (NaN). *)
Record row := Row {
  Latitude : pyval;
  Longitude : pyval;
  Country : option string
}.

(** The data frame: whether it has a [Country] column, and its rows in
    index order.  Without the column the [Country] field of a row is not
    read. *)
Record dataframe := DataFrame {
  has_country : bool;
  rows : list row
}.

(** What the process does to the outside, in order. *)
Inductive event :=
| EvSleep (seconds : Q)
| EvReverse (lat lon : pyfloat) (timeout : Z)
| EvSaveCache (file : string) (content : gmap string (option string))
| EvToCsv (file : string) (content : list row).

(** Exception classes that reach the detector.  [Interrupt] stands for a
    [BaseException] that is not an [Exception] ([KeyboardInterrupt]). *)
Inductive exn :=
| GeocoderTimedOut
| GeocoderServiceError
| OtherException
| Interrupt.

(** [location.raw.get('address')] of a result of [reverse]. *)
Record location := Location {
  raw_address : option (gmap string string)
}.

Inductive outcome :=
| Raises (e : exn)
| Gives (loc : option location).

(** The collaborators of the scripts.  [reverse n lat lon] is what the
    [n]-th request ([n] counted from 0 over the run) to the geocoding
    service does; [pycountry_lookup] is [pycountry.countries.lookup]
    followed by [.name], [None] for a [LookupError]; [float_of_str] is
    [float] on a string, [None] for a [ValueError]. *)
Record collaborators := Collaborators {
  GEOPY_AVAILABLE : bool;
  PYCOUNTRY_AVAILABLE : bool;
  reverse : nat -> pyfloat -> pyfloat -> outcome;
  pycountry_lookup : string -> option string;
  float_of_str : string -> option pyfloat
}.

(** The detector object and the log of its effects.  [use_geocoding] and
    [cache_file] are set by [__init__] and never change; [cache_file] is a
    field of the comprehensive detector only. *)
Record state := State {
  use_geocoding : bool;
  cache_file : option string;
  geocoding_cache : gmap string (option string);
  requests : nat;
  trace : list event
}.

Inductive result (A : Type) :=
| Ok (a : A)
| Raise (e : exn).
Arguments Ok {A} a.
Arguments Raise {A} e.

Definition M (A : Type) : Type := state -> result A * state.

Definition ret {A} (a : A) : M A := fun s => (Ok a, s).

Definition bind {A B} (m : M A) (k : A -> M B) : M B :=
  fun s =>
    match m s with
    | (Ok a, s') => k a s'
    | (Raise e, s') => (Raise e, s')
    end.

Notation "'let!' x ':=' m 'in' k" := (bind m (fun x => k))
  (at level 10, x name, m at level 100, k at level 200).
Notation "'do!' m 'in' k" := (bind m (fun _ => k))
  (at level 10, m at level 100, k at level 200).

(** [try: body except ...: handler].  [handler e] is [None] when no
    [except] clause matches [e], which then propagates. *)
Definition try_except {A} (body : M A) (handler : exn -> option (M A)) : M A :=
  fun s =>
    match body s with
    | (Ok a, s') => (Ok a, s')
    | (Raise e, s') =>
        match handler e with
        | Some h => h s'
        | None => (Raise e, s')
        end
    end.

Definition emit (e : event) : M unit :=
  fun s => (Ok tt, State (use_geocoding s) (cache_file s) (geocoding_cache s)
                         (requests s) (trace s ++ [e])%list).

Definition sleep (seconds : Q) : M unit := emit (EvSleep seconds).

Definition cache_get (key : string) : M (option (option string)) :=
  fun s => (Ok (geocoding_cache s !! key), s).

Definition cache_set (key : string) (v : option string) : M unit :=
  fun s => (Ok tt, State (use_geocoding s) (cache_file s)
                         (<[key := v]> (geocoding_cache s))
                         (requests s) (trace s)).

Definition get_state : M state := fun s => (Ok s, s).

(** [self.geolocator.reverse(f"{lat}, {lon}", exactly_one=True, timeout=t)]. *)
Definition geolocator_reverse (E : collaborators) (lat lon : pyfloat)
    (timeout : Z) : M (option location) :=
  fun s =>
    let s' := State (use_geocoding s) (cache_file s) (geocoding_cache s)
                    (S (requests s)) (trace s ++ [EvReverse lat lon timeout])%list in
    match reverse E (requests s) lat lon with
    | Raises e => (Raise e, s')
    | Gives loc => (Ok loc, s')
    end.

(** Truth value of an optional string: [None] and [''] are false. *)
Definition truthy (o : option string) : bool :=
  match o with
  | Some s => negb (String.eqb s "")
  | None => false
  end.

(** [a or b]. *)
Definition py_or (a b : option string) : option string :=
  if truthy a then a else b.

(** [float(v)]; [None] when it raises [ValueError] or [TypeError]. *)
Definition py_float (E : collaborators) (v : pyval) : option pyfloat :=
  match v with
  | VNone => None
  | VFloat f => Some f
  | VStr s => float_of_str E s
  end.

(** The float literals of the scripts, by their exact value. *)
Definition float_0_2 : Q := 3602879701896397 # 18014398509481984.
Definition float_0_3 : Q := 5404319552844595 # 18014398509481984.

(** How one pass through the body of the retry loop ends. *)
Inductive ctl :=
| Return (country : string)
| Break
| Continue.

(** [for attempt in range(max_retries): body]; the result is [Some c] when
    the body returned [c] from the function and [None] when the loop was
    left by [break] or ran out. *)
Fixpoint for_attempts (body : nat -> M ctl) (attempts : list nat)
    : M (option string) :=
  match attempts with
  | [] => ret None
  | attempt :: rest =>
      let! c := body attempt in
      match c with
      | Return country => ret (Some country)
      | Break => ret None
      | Continue => for_attempts body rest
      end
  end.

(** [s.replace(old, new)] for a non-empty [old], as in every use: the
    occurrences of [old] are replaced from the
    left, without overlap.  [skip] counts the characters of an occurrence
    already replaced that are still to be dropped. *)
Fixpoint str_replace_from (old new : string) (skip : nat) (s : string) : string :=
  match s with
  | EmptyString => EmptyString
  | String c rest =>
      match skip with
      | S k => str_replace_from old new k rest
      | O =>
          if negb (String.eqb old "") && String.prefix old s
          then new ++ str_replace_from old new (String.length old - 1) rest
          else String c (str_replace_from old new 0 rest)
      end
  end.

Definition str_replace (s old new : string) : string :=
  str_replace_from old new 0 s.

(** [df.head(n)]: the first [n] rows, and all but the last [-n] for a
    negative [n]. *)
Definition head (n : Z) (l : list row) : list row :=
  if (0 <=? n)%Z then take (Z.to_nat n) l
  else take (length l - Z.to_nat (- n)) l.

(** [if sample_size and sample_size < len(df): df = df.head(sample_size)]. *)
Definition sample (sample_size : option Z) (l : list row) : list row :=
  match sample_size with
  | Some n =>
      if negb (n =? 0)%Z && (n <? Z.of_nat (length l))%Z then head n l else l
  | None => l
  end.

(** [df['Country'] = 'Unknown']. *)
Definition set_country_unknown (l : list row) : list row :=
  map (fun r => Row (Latitude r) (Longitude r) (Some "Unknown")) l.

Definition raise {A} (e : exn) : M A := fun s => (Raise e, s).

(** ** [add_country_advanced.py] *)

Module Advanced.

Definition get_regional_fallback (lat lon : pyfloat) : string :=
  if (10 <=! lat <=! 25) && (-85 <=! lon <=! -60) then "Caribbean Region"
  else if (7 <=! lat <=! 18) && (-92 <=! lon <=! -77) then "Central America"
  else if (12 <=! lat <=! 42) && (25 <=! lon <=! 65) then "Middle East"
  else if (-15 <=! lat <=! 25) && (90 <=! lon <=! 145) then "Southeast Asia"
  else if (55 <=! lat <=! 75) && (-15 <=! lon <=! 45) then "Northern Europe"
  else if (45 <=! lat <=! 70) && (15 <=! lon <=! 50) then "Eastern Europe"
  else if (40 <=! lat <=! 60) && (-15 <=! lon <=! 20) then "Western Europe"
  else if (15 <=! lat <=! 40) && (-20 <=! lon <=! 40) then "North Africa"
  else if (-15 <=! lat <=! 20) && (25 <=! lon <=! 55) then "East Africa"
  else if (0 <=! lat <=! 25) && (-25 <=! lon <=! 20) then "West Africa"
  else if (-40 <=! lat <=! -15) && (10 <=! lon <=! 40) then "Southern Africa"
  else if (35 <=! lat <=! 55) && (45 <=! lon <=! 85) then "Central Asia"
  else if le_fz lat (-60) then "Antarctica"
  else if ge_fz lat 75 then "Arctic Region"
  else "Unknown Region".

Definition get_specific_ocean_region (lat lon : pyfloat) : string :=
  if (30 <=! lat <=! 46) && (-6 <=! lon <=! 37) then "Mediterranean Sea"
  else if (40 <=! lat <=! 48) && (27 <=! lon <=! 42) then "Black Sea"
  else if (36 <=! lat <=! 47) && (46 <=! lon <=! 55) then "Caspian Sea"
  else if (120 <=! lon <=! 180) || (-180 <=! lon <=! -100) then
    if ge_fz lat 40 then "North Pacific Ocean"
    else if le_fz lat (-40) then "South Pacific Ocean"
    else if -10 <=! lat <=! 10 then "Equatorial Pacific Ocean"
    else "Pacific Ocean"
  else if -80 <=! lon <=! 20 then
    if ge_fz lat 40 then "North Atlantic Ocean"
    else if le_fz lat (-40) then "South Atlantic Ocean"
    else if -10 <=! lat <=! 10 then "Equatorial Atlantic Ocean"
    else "Atlantic Ocean"
  else if (20 <=! lon <=! 120) && (-50 <=! lat <=! 30) then "Indian Ocean"
  else if ge_fz lat 70 then "Arctic Ocean"
  else if le_fz lat (-50) then "Southern Ocean"
  else "Ocean".

Definition is_major_sea_or_lake (lat lon : pyfloat) : bool :=
  if (30 <=! lat <=! 46) && (-6 <=! lon <=! 37) then true
  else if (40 <=! lat <=! 48) && (27 <=! lon <=! 42) then true
  else if (36 <=! lat <=! 47) && (46 <=! lon <=! 55) then true
  else if (41 <=! lat <=! 49) && (-93 <=! lon <=! -76) then true
  else false.

(** [(lat_min, lat_max, lon_min, lon_max)]. *)
Definition land_regions : list (Z * Z * Z * Z) :=
  [ (10, 85, -170, -50);
    (-60, 15, -85, -30);
    (35, 75, -15, 45);
    (-15, 80, 25, 180);
    (-40, 40, -20, 55);
    (-50, -10, 110, 180) ]%Z.

(** The [for] loop of [is_in_ocean]: the first land region that holds the
    point decides, and the point is ocean when none does. *)
Fixpoint is_in_ocean_loop (regions : list (Z * Z * Z * Z))
    (lat lon : pyfloat) : bool :=
  match regions with
  | [] => true
  | (lat_min, lat_max, lon_min, lon_max) :: rest =>
      if (lat_min <=! lat <=! lat_max) && (lon_min <=! lon <=! lon_max)
      then (if is_major_sea_or_lake lat lon then true else false)
      else is_in_ocean_loop rest lat lon
  end.

Definition is_in_ocean (lat lon : pyfloat) : bool :=
  is_in_ocean_loop land_regions lat lon.

Definition get_country_from_geography (lat lon : pyfloat) : string :=
  if ((25 <=! lat <=! 49) && (-125 <=! lon <=! -66))
     || ((55 <=! lat <=! 72) && (-168 <=! lon <=! -141))
     || ((18 <=! lat <=! 23) && (-162 <=! lon <=! -154))
  then "United States"
  else if (42 <=! lat <=! 84) && (-141 <=! lon <=! -52) then "Canada"
  else if (14 <=! lat <=! 33) && (-118 <=! lon <=! -86) then "Mexico"
  else if (24 <=! lat <=! 46) && (122 <=! lon <=! 146) then "Japan"
  else if (-11 <=! lat <=! 6) && (95 <=! lon <=! 141) then "Indonesia"
  else if (5 <=! lat <=! 21) && (116 <=! lon <=! 127) then "Philippines"
  else if (-56 <=! lat <=! -17) && (-76 <=! lon <=! -66) then "Chile"
  else if (-47 <=! lat <=! -34) && (166 <=! lon <=! 179) then "New Zealand"
  else if (36 <=! lat <=! 42) && (26 <=! lon <=! 45) then "Turkey"
  else if (36 <=! lat <=! 47) && (6 <=! lon <=! 19) then "Italy"
  else if (34 <=! lat <=! 42) && (19 <=! lon <=! 30) then "Greece"
  else if (25 <=! lat <=! 40) && (44 <=! lon <=! 64) then "Iran"
  else if (18 <=! lat <=! 54) && (73 <=! lon <=! 135) then "China"
  else if (41 <=! lat <=! 82) && (19 <=! lon <=! 180) then "Russia"
  else if (6 <=! lat <=! 38) && (68 <=! lon <=! 98) then "India"
  else if (-44 <=! lat <=! -10) && (112 <=! lon <=! 154) then "Australia"
  else if (-12 <=! lat <=! -1) && (140 <=! lon <=! 160) then "Papua New Guinea"
  else if (-19 <=! lat <=! 0) && (-82 <=! lon <=! -68) then "Peru"
  else if (-5 <=! lat <=! 2) && (-82 <=! lon <=! -75) then "Ecuador"
  else if (-5 <=! lat <=! 13) && (-80 <=! lon <=! -66) then "Colombia"
  else if (0 <=! lat <=! 13) && (-74 <=! lon <=! -59) then "Venezuela"
  else if (-34 <=! lat <=! 6) && (-75 <=! lon <=! -30) then "Brazil"
  else if (-55 <=! lat <=! -21) && (-74 <=! lon <=! -53) then "Argentina"
  else if is_in_ocean lat lon then get_specific_ocean_region lat lon
  else get_regional_fallback lat lon.

(** [CountryDetector.__init__]. *)
Definition init (E : collaborators) (use_geocoding : bool) : state :=
  State (use_geocoding && GEOPY_AVAILABLE E) None ∅ 0 [].

(** The body of the retry loop of [get_country_with_geocoding]. *)
Definition attempt_body (E : collaborators) (cache_key : string)
    (lat lon : pyfloat) (max_retries : nat) (attempt : nat) : M ctl :=
  try_except
    (do! sleep float_0_2 in
     let! loc := geolocator_reverse E lat lon 10 in
     match loc with
     | Some (Location (Some address)) =>
         if bool_decide (address = ∅) then ret Break
         else
           let country := py_or (py_or (address !! "country")
                                       (address !! "country_name"))
                                (address !! "country_code") in
           match country with
           | Some c =>
               if truthy country then
                 let country :=
                   if PYCOUNTRY_AVAILABLE E then
                     match pycountry_lookup E c with
                     | Some name => name
                     | None => c
                     end
                   else c in
                 do! cache_set cache_key (Some country) in
                 ret (Return country)
               else ret Break
           | None => ret Break
           end
     | _ => ret Break
     end)
    (fun e =>
       match e with
       | GeocoderTimedOut | GeocoderServiceError =>
           Some (if (Z.of_nat attempt <? Z.of_nat max_retries - 1)%Z
                 then do! sleep (inject_Z (2 ^ Z.of_nat attempt)) in ret Continue
                 else ret Break)
       | OtherException => Some (ret Break)
       | Interrupt => None
       end).

Definition get_country_with_geocoding (E : collaborators)
    (lat lon : pyfloat) (max_retries : nat) : M (option string) :=
  let cache_key := cache_key 3 lat lon in
  let! hit := cache_get cache_key in
  match hit with
  | Some v => ret v
  | None =>
      let! r := for_attempts (attempt_body E cache_key lat lon max_retries)
                             (seq 0 max_retries) in
      match r with
      | Some country => ret (Some country)
      | None => do! cache_set cache_key None in ret None
      end
  end.

Definition get_country_from_coordinates (E : collaborators)
    (lat lon : pyval) : M string :=
  if isna lat || isna lon then ret "Unknown"
  else
    match py_float E lat, py_float E lon with
    | Some lat, Some lon =>
        let! s := get_state in
        if use_geocoding s then
          let! country := get_country_with_geocoding E lat lon 3 in
          if truthy country then ret (default "" country)
          else ret (get_country_from_geography lat lon)
        else ret (get_country_from_geography lat lon)
    | _, _ => ret "Unknown"
    end.

(** [df['Country'].isna() | (df['Country'] == 'Unknown')]. *)
Definition mask (r : row) : bool :=
  match Country r with
  | None => true
  | Some c => String.eqb c "Unknown"
  end.

(** The loop over [rows_to_process].  The rows are visited in index order;
    [done] holds the rows already visited and [todo] those still ahead, so
    that [done ++ todo] is the data frame at every moment.  A row is in
    [rows_to_process] when [selected] holds of it. *)
Fixpoint process_rows (E : collaborators) (output_file : string)
    (use_geocoding : bool) (selected : row -> bool)
    (done todo : list row) (processed_count : nat) : M (list row) :=
  match todo with
  | [] => ret done
  | r :: rest =>
      if selected r then
        let! country := get_country_from_coordinates E (Latitude r) (Longitude r) in
        let done := (done ++ [Row (Latitude r) (Longitude r) (Some country)])%list in
        let processed_count := S processed_count in
        do! (if (processed_count mod 1000 =? 0)%nat && use_geocoding
             then emit (EvToCsv output_file (done ++ rest)%list)
             else ret tt) in
        process_rows E output_file use_geocoding selected done rest processed_count
      else
        process_rows E output_file use_geocoding selected (done ++ [r])%list rest
                     processed_count
  end.

(** [process_earthquake_database], from the data frame that [read_csv]
    returned.  The detector is created inside, so the function is run from
    [init]. *)
Definition process_earthquake_database_from (E : collaborators)
    (df : dataframe) (input_file : string) (output_file : option string)
    (use_geocoding : bool) (sample_size : option Z) : M dataframe :=
  let output_file :=
    match output_file with
    | Some f => f
    | None => str_replace input_file ".csv" "_with_countries.csv"
    end in
  let rows0 := sample sample_size (rows df) in
  let! rows1 :=
    (if has_country df
     then process_rows E output_file use_geocoding mask [] rows0 0
     else process_rows E output_file use_geocoding (fun _ => true) []
                       (set_country_unknown rows0) 0) in
  do! emit (EvToCsv output_file rows1) in
  let! s := get_state in
  do! (if use_geocoding && negb (bool_decide (geocoding_cache s = ∅))
       then emit (EvSaveCache
                    (str_replace output_file ".csv" "_geocoding_cache.json")
                    (geocoding_cache s))
       else ret tt) in
  ret (DataFrame true rows1).

Definition process_earthquake_database (E : collaborators)
    (df : dataframe) (input_file : string) (output_file : option string)
    (use_geocoding : bool) (sample_size : option Z)
    : result dataframe * state :=
  process_earthquake_database_from E df input_file output_file use_geocoding
    sample_size (init E use_geocoding).

End Advanced.

(** ** [comprehensive_country_detector.py] *)

Module Comprehensive.

Definition get_ocean_name (lat lon : pyfloat) : string :=
  if le_fz lat (-50) then "Southern Ocean"
  else if ge_fz lat 75 then "Arctic Ocean"
  else if (60 <=! lon <=! 100) && le_fz lat 20 then "Indian Ocean"
  else if -50 <=! lon <=! -10 then
    if ge_fz lat 0 then "North Atlantic Ocean" else "South Atlantic Ocean"
  else if (140 <=! lon <=! 180) || (-180 <=! lon <=! -120) then
    if ge_fz lat 0 then "North Pacific Ocean" else "South Pacific Ocean"
  else "Ocean".

Definition is_definitely_ocean (lat lon : pyfloat) : bool :=
  if (-40 <=! lat <=! 40) && (140 <=! lon <=! -120) then true
  else if (-40 <=! lat <=! 40) && (-50 <=! lon <=! -10) then true
  else if (-40 <=! lat <=! 20) && (60 <=! lon <=! 100) then true
  else if le_fz lat (-50) then true
  else if ge_fz lat 75 then true
  else false.

Definition get_high_confidence_country (lat lon : pyfloat) : string :=
  if ((25 <=! lat <=! 49) && (-125 <=! lon <=! -66))
     || ((55 <=! lat <=! 72) && (-168 <=! lon <=! -141))
     || ((18 <=! lat <=! 23) && (-162 <=! lon <=! -154))
  then "United States"
  else if (50 <=! lat <=! 84) && (-141 <=! lon <=! -52) then "Canada"
  else if (50 <=! lat <=! 82) && (30 <=! lon <=! 180) then "Russia"
  else if (50 <=! lat <=! 82) && (-180 <=! lon <=! -169) then "Russia"
  else if (20 <=! lat <=! 50) && (80 <=! lon <=! 130) then "China"
  else if (-44 <=! lat <=! -10) && (112 <=! lon <=! 154) then "Australia"
  else if (24 <=! lat <=! 46) && (129 <=! lon <=! 146) then "Japan"
  else if (-8 <=! lat <=! 6) && (95 <=! lon <=! 141) then "Indonesia"
  else if (-34 <=! lat <=! 6) && (-75 <=! lon <=! -34) then "Brazil"
  else if is_definitely_ocean lat lon then get_ocean_name lat lon
  else "Uncertain".

Definition get_regional_classification (lat lon : pyfloat) : string :=
  if (10 <=! lat <=! 25) && (-85 <=! lon <=! -60) then "Caribbean Region"
  else if (7 <=! lat <=! 18) && (-92 <=! lon <=! -77) then "Central America"
  else if (12 <=! lat <=! 42) && (25 <=! lon <=! 65) then "Middle East"
  else if (-15 <=! lat <=! 25) && (90 <=! lon <=! 145) then "Southeast Asia"
  else if (35 <=! lat <=! 75) && (-15 <=! lon <=! 45) then
    if ge_fz lat 55 then "Northern Europe"
    else if 45 <=! lat <=! 55 then "Central Europe"
    else "Southern Europe"
  else if (-40 <=! lat <=! 40) && (-20 <=! lon <=! 55) then
    if ge_fz lat 20 then "Northern Africa"
    else if ge_fz lat 0 then "Central Africa"
    else "Southern Africa"
  else if le_fz lat (-60) then "Antarctica"
  else if ge_fz lat 70 then "Arctic Region"
  else if abs_gt_fz lon 90 || abs_gt_fz lat 60 then get_ocean_name lat lon
  else "Unknown Region".

Definition get_detailed_geographical_country (lat lon : pyfloat) : string :=
  if (14 <=! lat <=! 33) && (-118 <=! lon <=! -86) then "Mexico"
  else if (5 <=! lat <=! 21) && (116 <=! lon <=! 127) then "Philippines"
  else if (-56 <=! lat <=! -17) && (-76 <=! lon <=! -66) then "Chile"
  else if (-19 <=! lat <=! 0) && (-82 <=! lon <=! -68) then "Peru"
  else if (-55 <=! lat <=! -21) && (-74 <=! lon <=! -53) then "Argentina"
  else if (36 <=! lat <=! 42) && (26 <=! lon <=! 45) then "Turkey"
  else if (25 <=! lat <=! 40) && (44 <=! lon <=! 64) then "Iran"
  else if (6 <=! lat <=! 38) && (68 <=! lon <=! 98) then "India"
  else if (-47 <=! lat <=! -34) && (166 <=! lon <=! 179) then "New Zealand"
  else if (-12 <=! lat <=! -1) && (140 <=! lon <=! 160) then "Papua New Guinea"
  else if (36 <=! lat <=! 47) && (6 <=! lon <=! 19) then "Italy"
  else if (34 <=! lat <=! 42) && (19 <=! lon <=! 30) then "Greece"
  else get_regional_classification lat lon.

(** [ComprehensiveCountryDetector.__init__]; [stored] is the content of
    the cache file when it exists and loads. *)
Definition init (E : collaborators) (use_geocoding : bool)
    (cache_file : option string)
    (stored : option (gmap string (option string))) : state :=
  State (use_geocoding && GEOPY_AVAILABLE E) cache_file
        (if truthy cache_file then default ∅ stored else ∅) 0 [].

Definition standardize_country_name (E : collaborators)
    (country_name : option string) : option string :=
  if negb (PYCOUNTRY_AVAILABLE E) || negb (truthy country_name)
  then country_name
  else
    match country_name with
    | Some c =>
        match pycountry_lookup E c with
        | Some name => Some name
        | None => country_name
        end
    | None => country_name
    end.

(** A write of the cache file that fails is logged and otherwise ignored;
    the attempt is what the trace records. *)
Definition save_cache : M unit :=
  let! s := get_state in
  if truthy (cache_file s) && (size (geocoding_cache s) mod 10 =? 0)%nat
  then emit (EvSaveCache (default "" (cache_file s)) (geocoding_cache s))
  else ret tt.

Definition attempt_body (E : collaborators) (cache_key : string)
    (lat lon : pyfloat) (max_retries : nat) (attempt : nat) : M ctl :=
  try_except
    (do! sleep float_0_3 in
     let! loc := geolocator_reverse E lat lon 15 in
     match loc with
     | Some (Location (Some address)) =>
         if bool_decide (address = ∅) then ret Break
         else
           let country := py_or (py_or (address !! "country")
                                       (address !! "country_name"))
                                (address !! "country_code") in
           match country with
           | Some c =>
               if truthy country then
                 do! cache_set cache_key (Some c) in
                 do! save_cache in
                 ret (Return c)
               else ret Break
           | None => ret Break
           end
     | _ => ret Break
     end)
    (fun e =>
       match e with
       | GeocoderTimedOut | GeocoderServiceError =>
           Some (if (Z.of_nat attempt <? Z.of_nat max_retries - 1)%Z
                 then do! sleep (inject_Z (2 ^ Z.of_nat attempt)) in ret Continue
                 else ret Break)
       | OtherException => Some (ret Break)
       | Interrupt => None
       end).

Definition get_country_with_geocoding (E : collaborators)
    (lat lon : pyfloat) (max_retries : nat) : M (option string) :=
  let cache_key := cache_key 2 lat lon in
  let! hit := cache_get cache_key in
  match hit with
  | Some v => ret v
  | None =>
      let! r := for_attempts (attempt_body E cache_key lat lon max_retries)
                             (seq 0 max_retries) in
      match r with
      | Some country => ret (Some country)
      | None => do! cache_set cache_key None in ret None
      end
  end.

Definition get_country_from_coordinates (E : collaborators)
    (lat lon : pyval) : M string :=
  if isna lat || isna lon then ret "Unknown"
  else
    match py_float E lat, py_float E lon with
    | Some lat, Some lon =>
        let country := get_high_confidence_country lat lon in
        if negb (String.eqb country "Uncertain") then ret country
        else
          let! s := get_state in
          if use_geocoding s then
            let! geocoded_country := get_country_with_geocoding E lat lon 2 in
            if truthy geocoded_country
            then ret (default "" (standardize_country_name E geocoded_country))
            else ret (get_detailed_geographical_country lat lon)
          else ret (get_detailed_geographical_country lat lon)
    | _, _ => ret "Unknown"
    end.

(** [isna() | == 'Unknown' | == 'Unknown Region'] on the [Country] column. *)
Definition missing_mask (r : row) : bool :=
  match Country r with
  | None => true
  | Some c => String.eqb c "Unknown" || String.eqb c "Unknown Region"
  end.

(** [time.time()].  The module binds [time] in the same [try] block that
    imports [geopy], so without [geopy] the name is unbound and the call
    raises [NameError]. *)
Definition time_time (E : collaborators) : M unit :=
  if GEOPY_AVAILABLE E then ret tt else raise OtherException.

(** The loop over [rows_to_process], with [done] and [todo] as in the
    advanced script.  The [try] around the loop catches
    [KeyboardInterrupt] only and is followed by the final save, so an
    interrupt leaves the loop with the data frame as it stands; any other
    exception propagates. *)
Fixpoint process_rows (E : collaborators) (output_file : string)
    (use_geocoding : bool) (selected : row -> bool)
    (done todo : list row) (processed_count : nat) : M (list row * nat) :=
  match todo with
  | [] => ret (done, processed_count)
  | r :: rest =>
      if selected r then
        let! step :=
          try_except
            (let! country :=
               get_country_from_coordinates E (Latitude r) (Longitude r) in
             let done := (done ++ [Row (Latitude r) (Longitude r) (Some country)])%list in
             let processed_count := S processed_count in
             do! (if use_geocoding && (processed_count mod 100 =? 0)%nat
                  then do! emit (EvToCsv output_file (done ++ rest)%list) in
                       time_time E
                  else ret tt) in
             ret (Some (done, processed_count)))
            (fun e => match e with Interrupt => Some (ret None) | _ => None end) in
        match step with
        | Some (done, processed_count) =>
            process_rows E output_file use_geocoding selected done rest
                         processed_count
        | None => ret ((done ++ todo)%list, processed_count)
        end
      else
        process_rows E output_file use_geocoding selected (done ++ [r])%list rest
                     processed_count
  end.

(** [analyze_and_update_database] from the data frame that [read_csv]
    returned, run on the detector it has created.  Log lines and the
    summary statistics are left out. *)
Definition analyze_and_update_database_from (E : collaborators)
    (df : dataframe) (output_file : string)
    (use_geocoding : bool) (sample_size : option Z) (force_update : bool)
    : M dataframe :=
  let rows0 := sample sample_size (rows df) in
  let by_mask := has_country df && negb force_update in
  let selected := if by_mask then missing_mask else (fun _ => true) in
  let rows1 := if by_mask then rows0 else set_country_unknown rows0 in
  let df1 := DataFrame (has_country df || negb by_mask) rows1 in
  if (length (filter (fun r => selected r = true) rows1) =? 0)%nat then ret df1
  else
    do! time_time E in
    let! out := process_rows E output_file use_geocoding selected [] rows1 0 in
    let (rows2, processed_count) := out in
    do! emit (EvToCsv output_file rows2) in
    do! (if use_geocoding then save_cache else ret tt) in
    do! (if (0 <? processed_count)%nat then time_time E else ret tt) in
    ret (DataFrame true rows2).

Definition analyze_and_update_database (E : collaborators)
    (df : dataframe) (input_file : string) (output_file : option string)
    (use_geocoding : bool) (sample_size : option Z) (force_update : bool)
    (stored : option (gmap string (option string)))
    : result dataframe * state :=
  let output_file :=
    match output_file with
    | Some f => f
    | None =>
        if use_geocoding
        then str_replace input_file ".csv" "_with_comprehensive_countries.csv"
        else str_replace input_file ".csv" "_with_countries_fast.csv"
    end in
  let cache_file :=
    if use_geocoding
    then Some (str_replace output_file ".csv" "_geocoding_cache.json")
    else None in
  analyze_and_update_database_from E df output_file use_geocoding sample_size
    force_update (init E use_geocoding cache_file stored).

End Comprehensive.

(** ** Fixtures *)

(** No [geopy], no [pycountry], and no string that parses as a float. *)
Definition offline : collaborators :=
  Collaborators false false (fun _ _ _ => Raises OtherException)
                (fun _ => None) (fun _ => None).

(** The country rules of [Advanced.get_country_from_geography] as a table,
    in the order of declaration: the boxes of a rule (their union is the
    rule) and its label.  The table restates the chain of [if]s and is
    compared with it in [geography_first_match]. *)
Abbreviation box := (Z * Z * Z * Z)%type.

Definition in_box (b : box) (lat lon : pyfloat) : bool :=
  let '(lat_min, lat_max, lon_min, lon_max) := b in
  (lat_min <=! lat <=! lat_max) && (lon_min <=! lon <=! lon_max).

Abbreviation rule := (list box * string)%type.

Definition in_rule (r : rule) (lat lon : pyfloat) : bool :=
  existsb (fun b => in_box b lat lon) (fst r).

Definition country_rules : list rule :=
  [ ([(25, 49, -125, -66); (55, 72, -168, -141); (18, 23, -162, -154)]%Z,
     "United States");
    ([(42, 84, -141, -52)]%Z, "Canada");
    ([(14, 33, -118, -86)]%Z, "Mexico");
    ([(24, 46, 122, 146)]%Z, "Japan");
    ([(-11, 6, 95, 141)]%Z, "Indonesia");
    ([(5, 21, 116, 127)]%Z, "Philippines");
    ([(-56, -17, -76, -66)]%Z, "Chile");
    ([(-47, -34, 166, 179)]%Z, "New Zealand");
    ([(36, 42, 26, 45)]%Z, "Turkey");
    ([(36, 47, 6, 19)]%Z, "Italy");
    ([(34, 42, 19, 30)]%Z, "Greece");
    ([(25, 40, 44, 64)]%Z, "Iran");
    ([(18, 54, 73, 135)]%Z, "China");
    ([(41, 82, 19, 180)]%Z, "Russia");
    ([(6, 38, 68, 98)]%Z, "India");
    ([(-44, -10, 112, 154)]%Z, "Australia");
    ([(-12, -1, 140, 160)]%Z, "Papua New Guinea");
    ([(-19, 0, -82, -68)]%Z, "Peru");
    ([(-5, 2, -82, -75)]%Z, "Ecuador");
    ([(-5, 13, -80, -66)]%Z, "Colombia");
    ([(0, 13, -74, -59)]%Z, "Venezuela");
    ([(-34, 6, -75, -30)]%Z, "Brazil");
    ([(-55, -21, -74, -53)]%Z, "Argentina") ].

(** The label of the first rule, in the order of the list, that holds the
    point. *)
Fixpoint first_match (rules : list rule) (lat lon : pyfloat) : option string :=
  match rules with
  | [] => None
  | r :: rest =>
      if in_rule r lat lon then Some (snd r) else first_match rest lat lon
  end.

(** An address block as the service returns it for a point in Japan. *)
Definition japan_address : gmap string string :=
  <["country" := "Japan"]> (<["country_code" := "jp"]> ∅).

(** A service that always answers with [japan_address]; [geopy] is there,
    [pycountry] is not. *)
Definition online_japan : collaborators :=
  Collaborators true false
    (fun _ _ _ => Gives (Some (Location (Some japan_address))))
    (fun _ => None) (fun _ => None).

(** ** Observations on a run *)

(** The state [s] after [nreq] more requests, the events [evs] and with the
    cache [cache]. *)
Definition advance (s : state) (cache : gmap string (option string))
    (nreq : nat) (evs : list event) : state :=
  State (use_geocoding s) (cache_file s) cache (nreq + requests s)
        (trace s ++ evs).

(** Is the event a request to the service for a point whose key, at [d]
    decimals, is [k]? *)
Definition is_request_for (d : nat) (k : string) (e : event) : bool :=
  match e with
  | EvReverse lat lon _ => String.eqb (cache_key d lat lon) k
  | _ => false
  end.

Definition request_count (d : nat) (k : string) (tr : list event) : nat :=
  length (List.filter (is_request_for d k) tr).

(** The country that the detectors read in an answer of the service: the
    first non-empty field among [country], [country_name] and
    [country_code] of a non-empty address block. *)
Definition found_country (loc : option location) : option string :=
  match loc with
  | Some (Location (Some address)) =>
      if bool_decide (address = ∅) then None
      else
        let country := py_or (py_or (address !! "country")
                                    (address !! "country_name"))
                             (address !! "country_code") in
        if truthy country then country else None
  | _ => None
  end.

(** The name after the [pycountry] lookup of the advanced detector. *)
Definition standardized (E : collaborators) (c : string) : string :=
  if PYCOUNTRY_AVAILABLE E then
    match pycountry_lookup E c with
    | Some name => name
    | None => c
    end
  else c.

(** What a run of the retry loop, and of a whole lookup, does to the
    detector: it makes [n] requests, all for the point of the call, adds
    the events [evs] to the trace and leaves the cache as [cache']. *)
Definition effect_of (d : nat) (lat lon : pyfloat) (bound : nat)
    (s s' : state) (cache' : gmap string (option string)) : Prop :=
  exists n evs,
    s' = advance s cache' n evs /\ n <= bound
    /\ forall k, request_count d k evs
                 = if String.eqb (cache_key d lat lon) k then n else 0.

(** The service never raises a timeout or a service error. *)
Definition calm (E : collaborators) : Prop :=
  forall n lat lon,
    reverse E n lat lon <> Raises GeocoderTimedOut
    /\ reverse E n lat lon <> Raises GeocoderServiceError.

(** The service never raises an exception outside [Exception]. *)
Definition uninterrupted (E : collaborators) : Prop :=
  forall n lat lon, reverse E n lat lon <> Raises Interrupt.

(** What a call does to the detector: nothing, or a lookup for a key that
    was not cached, with at most [bound] requests; when the call returns,
    the key is cached afterwards. *)
Definition call_effect {A} (d bound : nat) (s : state)
    (out : result A * state) : Prop :=
  snd out = s
  \/ exists lat lon c',
       geocoding_cache s !! cache_key d lat lon = None
       /\ effect_of d lat lon bound s (snd out) c'
       /\ match fst out with
          | Ok _ => exists r, c' = <[cache_key d lat lon := r]> (geocoding_cache s)
          | Raise _ => c' = geocoding_cache s
          end.

(** Every request for the point fails: it raises an [Exception] or
    answers without a country. *)
Definition fails_at (E : collaborators) (lat lon : pyfloat) : Prop :=
  forall n,
    match reverse E n lat lon with
    | Raises Interrupt => False
    | Raises _ => True
    | Gives loc => found_country loc = None
    end.

(** A service that always times out. *)
Definition always_down : collaborators :=
  Collaborators true false (fun _ _ _ => Raises GeocoderTimedOut)
                (fun _ => None) (fun _ => None).

(** The label of a pair of cells when the classifier [classify] is applied
    without a network. *)
Definition offline_label (classify : pyfloat -> pyfloat -> string)
    (E : collaborators) (lat lon : pyval) : string :=
  if isna lat || isna lon then "Unknown"
  else
    match py_float E lat, py_float E lon with
    | Some lat, Some lon => classify lat lon
    | _, _ => "Unknown"
    end.

(** The classifier of the comprehensive detector without a network. *)
Definition comprehensive_rules (lat lon : pyfloat) : string :=
  let country := Comprehensive.get_high_confidence_country lat lon in
  if negb (String.eqb country "Uncertain") then country
  else Comprehensive.get_detailed_geographical_country lat lon.

(** A row after the batch: relabelled when it was selected, as it was
    otherwise. *)
Definition relabel (label : pyval -> pyval -> string) (selected : row -> bool)
    (r : row) : row :=
  if selected r
  then Row (Latitude r) (Longitude r) (Some (label (Latitude r) (Longitude r)))
  else r.




(** Three rows: one labelled, one with the placeholder, one without a
    label and without a latitude. *)
Definition sample_frame : dataframe :=
  DataFrame true
    [ Row (VFloat (fz 48)) (VFloat (fz 2)) (Some "France");
      Row (VFloat (fz 35)) (VFloat (fz 139)) (Some "Unknown");
      Row (VFloat FNan) (VFloat (fz 10)) None ].

(** A call of the run of a detector: [resolve] is
    [get_country_from_coordinates], [geocode] is
    [get_country_with_geocoding]. *)
Inductive call :=
| Resolve (lat lon : pyval)
| Geocode (lat lon : pyfloat) (max_retries : nat).

(** The largest number of attempts a call of the list may make, [dflt]
    being the default of [get_country_with_geocoding]. *)
Fixpoint retry_bound (dflt : nat) (calls : list call) : nat :=
  match calls with
  | [] => 0
  | Resolve _ _ :: rest => Nat.max dflt (retry_bound dflt rest)
  | Geocode _ _ r :: rest => Nat.max r (retry_bound dflt rest)
  end.

(** Calls made one after the other on the same detector; an exception
    that leaves a call ends the run. *)
Fixpoint run_calls (resolve : pyval -> pyval -> M string)
    (geocode : pyfloat -> pyfloat -> nat -> M (option string))
    (calls : list call) : M unit :=
  match calls with
  | [] => ret tt
  | Resolve lat lon :: rest =>
      do! resolve lat lon in run_calls resolve geocode rest
  | Geocode lat lon r :: rest =>
      do! geocode lat lon r in run_calls resolve geocode rest
  end.

(** A service that times out on its first request and answers with
    [japan_address] afterwards. *)
Definition flaky_once : collaborators :=
  Collaborators true false
    (fun n _ _ => match n with
                  | O => Raises GeocoderTimedOut
                  | S _ => Gives (Some (Location (Some japan_address)))
                  end)
    (fun _ => None) (fun _ => None).

(** A service that fails on its first two requests and answers on the
    third. *)
Definition flaky_twice : collaborators :=
  Collaborators true false
    (fun n _ _ => match n with
                  | 0 => Raises GeocoderTimedOut
                  | 1 => Raises GeocoderServiceError
                  | _ => Gives (Some (Location (Some japan_address)))
                  end)
    (fun _ => None) (fun _ => None).

(** The float nearest to the literal [24.999]. *)
Definition float_24_999 : pyfloat := fl 7036592942789689 281474976710656.

(** ** Label sets *)

(** The labels that [Advanced.get_specific_ocean_region] and
    [Advanced.get_regional_fallback] can return. *)
Definition advanced_ocean_labels : list string :=
  [ "Mediterranean Sea"; "Black Sea"; "Caspian Sea";
    "North Pacific Ocean"; "South Pacific Ocean"; "Equatorial Pacific Ocean";
    "Pacific Ocean"; "North Atlantic Ocean"; "South Atlantic Ocean";
    "Equatorial Atlantic Ocean"; "Atlantic Ocean"; "Indian Ocean";
    "Arctic Ocean"; "Southern Ocean"; "Ocean" ].

Definition advanced_regional_labels : list string :=
  [ "Caribbean Region"; "Central America"; "Middle East"; "Southeast Asia";
    "Northern Europe"; "Eastern Europe"; "Western Europe"; "North Africa";
    "East Africa"; "West Africa"; "Southern Africa"; "Central Asia";
    "Antarctica"; "Arctic Region"; "Unknown Region" ].

(** Is the point in one of the boxes of the list? *)
Definition in_some_box (boxes : list box) (lat lon : pyfloat) : bool :=
  existsb (fun b => in_box b lat lon) boxes.

(** Every label of [Advanced.get_country_from_geography]. *)
Definition advanced_labels : list string :=
  (map snd country_rules ++ advanced_ocean_labels ++ advanced_regional_labels)%list.

(** The labels of the comprehensive detector without a network; the
    sentinel "Uncertain" is not one of them. *)
Definition comprehensive_ocean_labels : list string :=
  [ "Southern Ocean"; "Arctic Ocean"; "Indian Ocean"; "North Atlantic Ocean";
    "South Atlantic Ocean"; "North Pacific Ocean"; "South Pacific Ocean";
    "Ocean" ].

Definition comprehensive_labels : list string :=
  ([ "United States"; "Canada"; "Russia"; "China"; "Australia"; "Japan";
     "Indonesia"; "Brazil" ]
   ++ comprehensive_ocean_labels
   ++ [ "Mexico"; "Philippines"; "Chile"; "Peru"; "Argentina"; "Turkey";
        "Iran"; "India"; "New Zealand"; "Papua New Guinea"; "Italy"; "Greece";
        "Caribbean Region"; "Central America"; "Middle East"; "Southeast Asia";
        "Northern Europe"; "Central Europe"; "Southern Europe";
        "Northern Africa"; "Central Africa"; "Southern Africa";
        "Antarctica"; "Arctic Region"; "Unknown Region" ])%list.

(** A pair of cells that the detectors reject. *)
Definition invalid_input (E : collaborators) (lat lon : pyval) : Prop :=
  isna lat = true \/ isna lon = true
  \/ py_float E lat = None \/ py_float E lon = None.

(** ** Pauses *)

(** Is every request of the trace directly preceded by a pause of [pause]
    seconds?  [paused] tells whether the event before the trace was such
    a pause. *)
Fixpoint polite_from (pause : Q) (paused : bool) (tr : list event) : bool :=
  match tr with
  | [] => true
  | EvSleep q :: rest => polite_from pause (Qeq_bool q pause) rest
  | EvReverse _ _ _ :: rest => paused && polite_from pause false rest
  | _ :: rest => polite_from pause false rest
  end.

Definition polite (pause : Q) (tr : list event) : bool :=
  polite_from pause false tr.

(** The seconds slept over a trace. *)
Fixpoint total_sleep (tr : list event) : Q :=
  match tr with
  | [] => 0
  | EvSleep q :: rest => q + total_sleep rest
  | _ :: rest => total_sleep rest
  end.

(** The most that the retry loop can sleep over [attempts]: the pause
    before each request and the backoff after each attempt but the last
    of [max_retries]. *)
Fixpoint sleep_budget (pause : Q) (max_retries : nat) (attempts : list nat) : Q :=
  match attempts with
  | [] => 0
  | attempt :: rest =>
      pause
      + (if (Z.of_nat attempt <? Z.of_nat max_retries - 1)%Z
         then inject_Z (2 ^ Z.of_nat attempt) else 0)
      + sleep_budget pause max_retries rest
  end.

(** What a run of the retry loop adds to the trace: events [evs] in
    which every request follows a pause, and whose pauses and backoffs
    stay within the budget. *)
Definition loop_trace (pause : Q) (R : nat) (attempts : list nat)
    (s s' : state) : Prop :=
  exists evs,
    trace s' = (trace s ++ evs)%list
    /\ polite pause evs = true
    /\ (total_sleep evs <= sleep_budget pause R attempts)%Q.

(** ** Rows before and after a batch *)

(** The row [r'] that a batch makes of the row [r]: the coordinates are
    those of [r], and a row that the mask does not select is [r]
    itself. *)
Definition row_kept (by_mask : bool) (mask : row -> bool) (r r' : row) : Prop :=
  Latitude r' = Latitude r /\ Longitude r' = Longitude r
  /\ (by_mask = true -> mask r = false -> r' = r).

(** The same, with a label in the [Country] cell afterwards. *)
Definition row_labelled (by_mask : bool) (mask : row -> bool) (r r' : row) : Prop :=
  row_kept by_mask mask r r' /\ Country r' <> None.


(** ** Paths and keys *)

(** Does [old] occur in [s]? *)
Fixpoint occurs (old s : string) : bool :=
  match s with
  | EmptyString => false
  | String _ rest => String.prefix old s || occurs old rest
  end.

(** Does an occurrence of [old] in [stem ++ old] start inside [stem]? *)
Fixpoint occurs_before (old stem : string) : bool :=
  match stem with
  | EmptyString => false
  | String _ rest => String.prefix old (stem ++ old) || occurs_before old rest
  end.

(** A string without a comma. *)
Fixpoint no_comma (s : string) : bool :=
  match s with
  | EmptyString => true
  | String c rest => negb (String.eqb (String c "") ",") && no_comma rest
  end.

(** ** Writes of the cache file *)

(** A write of the cache file whose content has a multiple of ten
    entries; every other event passes. *)
Definition saved_in_tens (e : event) : bool :=
  match e with
  | EvSaveCache _ content => (size content mod 10 =? 0)%nat
  | _ => true
  end.

(** * Properties *)

(** ** Comparisons *)

Lemma Qle_bool_false (x y : Q) : Qle_bool x y = false -> (y < x)%Q.
Proof.
  intros H. apply Qnot_le_lt. intros Hle.
  apply Qle_bool_iff in Hle. congruence.
Qed.

Lemma Qle_bool_true (x y : Q) : Qle_bool x y = true -> (x <= y)%Q.
Proof. apply Qle_bool_iff. Qed.

(** Turn every boolean comparison in sight into an inequality on [Q] or
    [Z]. *)
Ltac cmp_facts :=
  repeat match goal with
  | H : Qle_bool _ _ = true |- _ => apply Qle_bool_true in H
  | H : Qle_bool _ _ = false |- _ => apply Qle_bool_false in H
  | H : (_ <=? _)%Z = true |- _ => apply Z.leb_le in H
  | H : (_ <=? _)%Z = false |- _ => apply Z.leb_gt in H
  end.

Lemma between_true a x b :
  between a x b = true <-> le_zf a x = true /\ le_fz x b = true.
Proof. unfold between. apply andb_true_iff. Qed.

Lemma le_zf_le_fz_trans a x b :
  le_zf a x = true -> le_fz x b = true -> (a <= b)%Z.
Proof.
  destruct x as [|[]| |q]; simpl; try discriminate.
  - intros; cmp_facts; lia.
  - intros H1 H2; cmp_facts.
    pose proof (Qle_trans _ _ _ H1 H2) as H.
    now rewrite <- Zle_Qle in H.
Qed.

Lemma between_empty a x b : (b < a)%Z -> between a x b = false.
Proof.
  intros Hlt. destruct (between a x b) eqn:H; [|reflexivity].
  apply between_true in H as [H1 H2].
  pose proof (le_zf_le_fz_trans _ _ _ H1 H2). lia.
Qed.

Lemma ge_not_le x a b : (b < a)%Z -> ge_fz x a = true -> le_fz x b = false.
Proof.
  intros Hlt H1. destruct (le_fz x b) eqn:H2; [|reflexivity].
  pose proof (le_zf_le_fz_trans _ _ _ H1 H2). lia.
Qed.

(** ** Worked points *)

Example adv_tokyo : Advanced.get_country_from_geography (fz 35) (fz 139) = "Japan".
Proof. reflexivity. Qed.

Example adv_open_pacific :
  Advanced.get_country_from_geography (fz 0) (fz (-160)) = "Equatorial Pacific Ocean".
Proof. reflexivity. Qed.

Example adv_200_10 :
  Advanced.get_country_from_geography (fz 200) (fz 10) = "North Atlantic Ocean".
Proof. reflexivity. Qed.

Example comp_tokyo : Comprehensive.get_high_confidence_country (fz 35) (fz 139) = "Japan".
Proof. reflexivity. Qed.

Example comp_200_10 :
  Comprehensive.get_high_confidence_country (fz 200) (fz 10) = "Arctic Ocean".
Proof. reflexivity. Qed.

Example key_tokyo : cache_key 3 (fz 35) (fz 139) = "35.000,139.000".
Proof. vm_compute. reflexivity. Qed.

Example key_negative : cache_key 2 (fl (-99) 8) (fl 1 128) = "-12.38,0.01".
Proof. vm_compute. reflexivity. Qed.

Example key_tie_to_even : format_fixed 3 (fl 1 16) = "0.062".
Proof. vm_compute. reflexivity. Qed.

Example key_small_negative : format_fixed 3 (fl (-1) 16384) = "-0.000".
Proof. vm_compute. reflexivity. Qed.

Example key_nan : cache_key 3 FNan (FInf true) = "nan,-inf".
Proof. vm_compute. reflexivity. Qed.

Example replace_csv :
  str_replace "data/database.csv" ".csv" "_with_countries.csv"
  = "data/database_with_countries.csv".
Proof. vm_compute. reflexivity. Qed.

(** ** The detector without a network *)

Lemma adv_coordinates_offline E lat lon s :
  use_geocoding s = false ->
  isna (VFloat lat) = false -> isna (VFloat lon) = false ->
  Advanced.get_country_from_coordinates E (VFloat lat) (VFloat lon) s
  = (Ok (Advanced.get_country_from_geography lat lon), s).
Proof.
  intros Hg Hlat Hlon. unfold Advanced.get_country_from_coordinates.
  rewrite Hlat, Hlon. simpl. unfold bind, get_state. now rewrite Hg.
Qed.

(** C5: the corner (25, -125) of the continental box of the United States
    is labelled "United States", the comparisons being inclusive, and a
    point at latitude 24.999 on the same meridian is not. *)
Theorem C5_us_boundary_inclusive :
  Advanced.get_country_from_geography (fz 25) (fz (-125)) = "United States"
  /\ Advanced.get_country_from_geography (fz 49) (fz (-66)) = "United States"
  /\ Advanced.get_country_from_geography float_24_999 (fz (-125)) <> "United States"
  /\ Advanced.get_country_from_geography (fl 24999 1000) (fz (-125)) <> "United States"
  /\ (forall E,
        fst (Advanced.get_country_from_coordinates E
               (VFloat (fz 25)) (VFloat (fz (-125))) (Advanced.init E false))
        = Ok "United States")
  /\ (forall E,
        fst (Advanced.get_country_from_coordinates E
               (VFloat float_24_999) (VFloat (fz (-125))) (Advanced.init E false))
        = Ok "Unknown Region").
Proof.
  repeat split; try reflexivity; try (vm_compute; discriminate).
Qed.

(** ** The rule table and the chain of [if]s *)

Lemma geography_first_match lat lon :
  Advanced.get_country_from_geography lat lon =
  match first_match country_rules lat lon with
  | Some label => label
  | None =>
      if Advanced.is_in_ocean lat lon
      then Advanced.get_specific_ocean_region lat lon
      else Advanced.get_regional_fallback lat lon
  end.
Proof.
  unfold Advanced.get_country_from_geography, country_rules, first_match,
    in_rule, in_box, existsb, fst, snd.
  rewrite !orb_false_r, orb_assoc.
  repeat match goal with
  | |- (if ?c then _ else _) = _ => destruct c; [reflexivity|]
  end.
  reflexivity.
Qed.

Lemma first_match_least (rules : list rule) lat lon :
  forall i r,
    rules !! i = Some r -> in_rule r lat lon = true ->
    exists k rk,
      k <= i /\ rules !! k = Some rk /\ in_rule rk lat lon = true
      /\ (forall m rm, m < k -> rules !! m = Some rm -> in_rule rm lat lon = false)
      /\ first_match rules lat lon = Some (snd rk).
Proof.
  induction rules as [|r0 rules IH]; intros i r Hi Hin; [discriminate|].
  simpl. destruct (in_rule r0 lat lon) eqn:H0.
  - exists 0, r0. split_and!; [lia | reflexivity | assumption | | reflexivity].
    intros m rm Hm. lia.
  - destruct i as [|i]; simpl in Hi.
    + injection Hi as ->. congruence.
    + destruct (IH i r Hi Hin) as (k & rk & Hk & Hlk & Hink & Hbefore & Hfm).
      exists (S k), rk. split_and!; [lia | assumption | assumption | | assumption].
      intros [|m] rm Hm Hlm; simpl in Hlm.
      * injection Hlm as <-. assumption.
      * apply (Hbefore m); [lia | assumption].
Qed.

Lemma country_labels_distinct : NoDup (snd <$> country_rules).
Proof. apply (bool_decide_unpack _). vm_compute. reflexivity. Qed.



(** A point in three boxes: Japan is declared before China and Russia. *)
Example three_way_overlap :
  Advanced.get_country_from_geography (fz 45) (fz 130) = "Japan".
Proof. reflexivity. Qed.

(** ** Input validation *)

Lemma adv_invalid_unknown E lat lon s :
  isna lat = true \/ isna lon = true
  \/ py_float E lat = None \/ py_float E lon = None ->
  Advanced.get_country_from_coordinates E lat lon s = (Ok "Unknown", s).
Proof.
  unfold Advanced.get_country_from_coordinates.
  intros [H|[H|[H|H]]]; rewrite ?H, ?orb_true_r; try reflexivity.
  - destruct (isna lat || isna lon); reflexivity.
  - destruct (isna lat || isna lon); [reflexivity|].
    destruct (py_float E lat); reflexivity.
Qed.

Lemma comp_invalid_unknown E lat lon s :
  isna lat = true \/ isna lon = true
  \/ py_float E lat = None \/ py_float E lon = None ->
  Comprehensive.get_country_from_coordinates E lat lon s = (Ok "Unknown", s).
Proof.
  unfold Comprehensive.get_country_from_coordinates.
  intros [H|[H|[H|H]]]; rewrite ?H, ?orb_true_r; try reflexivity.
  - destruct (isna lat || isna lon); reflexivity.
  - destruct (isna lat || isna lon); [reflexivity|].
    destruct (py_float E lat); reflexivity.
Qed.

Lemma comp_high_confidence E lat lon (flat flon : pyfloat) s :
  isna lat = false -> isna lon = false ->
  py_float E lat = Some flat -> py_float E lon = Some flon ->
  Comprehensive.get_high_confidence_country flat flon <> "Uncertain" ->
  Comprehensive.get_country_from_coordinates E lat lon s
  = (Ok (Comprehensive.get_high_confidence_country flat flon), s).
Proof.
  intros Hlat Hlon Hflat Hflon Hc.
  unfold Comprehensive.get_country_from_coordinates.
  rewrite Hlat, Hlon, Hflat, Hflon. simpl.
  apply String.eqb_neq in Hc. rewrite Hc. reflexivity.
Qed.

(** C3 (as stated, refuted): the numeric but out-of-range input
    (lat=200, lon=10) is not labelled "Unknown". *)
Lemma C3_counterexample_out_of_range :
  fst (Advanced.get_country_from_coordinates offline
         (VFloat (fz 200)) (VFloat (fz 10)) (Advanced.init offline false))
  = Ok "North Atlantic Ocean"
  /\ fst (Advanced.get_country_from_coordinates offline
            (VFloat (fz 200)) (VFloat (fz 10)) (Advanced.init offline false))
     <> Ok "Unknown"
  /\ fst (Comprehensive.get_country_from_coordinates offline
            (VFloat (fz 200)) (VFloat (fz 10))
            (Comprehensive.init offline false None None))
     <> Ok "Unknown".
Proof. split_and!; [reflexivity | vm_compute; discriminate | vm_compute; discriminate]. Qed.

(** C3 (amended): an input whose latitude or longitude is missing, NaN or
    not convertible to a float is labelled "Unknown" by both detectors,
    whatever their state, and the detector is left as it was.  A numeric
    coordinate out of range is not rejected: it goes through the rules,
    and (200, 10) comes out as "North Atlantic Ocean" from the advanced
    detector without geocoding and as "Arctic Ocean" from the
    comprehensive one. *)
Theorem C3_invalid_input_unknown :
  (forall E lat lon s,
     isna lat = true \/ isna lon = true
     \/ py_float E lat = None \/ py_float E lon = None ->
     Advanced.get_country_from_coordinates E lat lon s = (Ok "Unknown", s)
     /\ Comprehensive.get_country_from_coordinates E lat lon s = (Ok "Unknown", s))
  /\ (forall E s,
        use_geocoding s = false ->
        Advanced.get_country_from_coordinates E
          (VFloat (fz 200)) (VFloat (fz 10)) s
        = (Ok "North Atlantic Ocean", s))
  /\ (forall E s,
        Comprehensive.get_country_from_coordinates E
          (VFloat (fz 200)) (VFloat (fz 10)) s
        = (Ok "Arctic Ocean", s)).
Proof.
  split_and!.
  - intros E lat lon s H. split.
    + now apply adv_invalid_unknown.
    + now apply comp_invalid_unknown.
  - intros E s Hg. now rewrite adv_coordinates_offline.
  - intros E s.
    now rewrite (comp_high_confidence E _ _ (fz 200) (fz 10)).
Qed.

Lemma C3_witness_nan_latitude :
  (isna (VFloat FNan) = true \/ isna (VFloat (fz 10)) = true
   \/ py_float online_japan (VFloat FNan) = None
   \/ py_float online_japan (VFloat (fz 10)) = None)
  /\ Advanced.get_country_from_coordinates online_japan
       (VFloat FNan) (VFloat (fz 10)) (Advanced.init online_japan true)
     = (Ok "Unknown", Advanced.init online_japan true)
  /\ use_geocoding (Advanced.init offline false) = false
  /\ Advanced.get_country_from_coordinates offline
       (VFloat (fz 200)) (VFloat (fz 10)) (Advanced.init offline false)
     = (Ok "North Atlantic Ocean", Advanced.init offline false).
Proof.
  destruct C3_invalid_input_unknown as (Hinvalid & Hrange & _).
  split; [left; reflexivity|]. split; [|split; [reflexivity|]].
  - apply (Hinvalid online_japan (VFloat FNan) (VFloat (fz 10))
             (Advanced.init online_japan true)).
    left; reflexivity.
  - apply (Hrange offline (Advanced.init offline false)). reflexivity.
Defined.

(** C7: for a numeric pair of coordinates on which
    [get_high_confidence_country] answers with a label other than
    "Uncertain", the comprehensive detector returns that label and leaves
    its state (cache, request counter, trace) untouched: no request is
    made, with geocoding enabled or not. *)
Theorem C7_high_confidence_short_circuit E lat lon (flat flon : pyfloat) s :
  isna lat = false -> isna lon = false ->
  py_float E lat = Some flat -> py_float E lon = Some flon ->
  Comprehensive.get_high_confidence_country flat flon <> "Uncertain" ->
  Comprehensive.get_country_from_coordinates E lat lon s
  = (Ok (Comprehensive.get_high_confidence_country flat flon), s).
Proof. apply comp_high_confidence. Qed.

Lemma C7_witness_tokyo_online :
  use_geocoding (Comprehensive.init online_japan true None None) = true
  /\ Comprehensive.get_high_confidence_country (fz 35) (fz 139) <> "Uncertain"
  /\ Comprehensive.get_country_from_coordinates online_japan
       (VFloat (fz 35)) (VFloat (fz 139))
       (Comprehensive.init online_japan true None None)
     = (Ok "Japan", Comprehensive.init online_japan true None None).
Proof.
  split; [reflexivity|]. split; [vm_compute; discriminate|].
  apply (C7_high_confidence_short_circuit online_japan
           (VFloat (fz 35)) (VFloat (fz 139)) (fz 35) (fz 139)
           (Comprehensive.init online_japan true None None)
           eq_refl eq_refl eq_refl eq_refl).
  vm_compute; discriminate.
Defined.

(** ** Ocean names *)

Lemma comp_ocean_southern lat lon :
  le_fz lat (-50) = true -> Comprehensive.get_ocean_name lat lon = "Southern Ocean".
Proof. intros H. unfold Comprehensive.get_ocean_name. now rewrite H. Qed.

Lemma comp_ocean_arctic lat lon :
  ge_fz lat 75 = true -> Comprehensive.get_ocean_name lat lon = "Arctic Ocean".
Proof.
  intros H. unfold Comprehensive.get_ocean_name.
  rewrite (ge_not_le lat 75 (-50)) by (lia || assumption).
  now rewrite H.
Qed.

(** C4 (as stated, refuted): in the advanced detector the point
    (lat=80, lon=-30) is ocean, lies north of 75, and is labelled by the
    Atlantic longitude band. *)
Lemma C4_counterexample_basin_before_polar :
  Advanced.is_in_ocean (fz 80) (fz (-30)) = true
  /\ ge_fz (fz 80) 75 = true
  /\ Advanced.get_specific_ocean_region (fz 80) (fz (-30)) = "North Atlantic Ocean"
  /\ Advanced.get_country_from_geography (fz 80) (fz (-30)) = "North Atlantic Ocean"
  /\ Advanced.get_country_from_geography (fz 80) (fz (-30)) <> "Arctic Ocean".
Proof. split_and!; try reflexivity. vm_compute; discriminate. Qed.

(** C4 (amended): [ComprehensiveCountryDetector.get_ocean_name] applies
    the polar rules before the longitude bands: latitude <= -50 gives
    "Southern Ocean" and latitude >= 75 gives "Arctic Ocean" whatever the
    longitude.  [CountryDetector.get_specific_ocean_region] applies the
    enclosed seas and the Pacific, Atlantic and Indian bands first: a
    longitude in the Pacific or Atlantic band never gives a polar label,
    and when no sea and no band holds the point the label is
    "Arctic Ocean" for latitude >= 70, else "Southern Ocean" for
    latitude <= -50, else "Ocean". *)
Theorem C4_polar_rules :
  (forall lat lon,
     le_fz lat (-50) = true ->
     Comprehensive.get_ocean_name lat lon = "Southern Ocean")
  /\ (forall lat lon,
        ge_fz lat 75 = true ->
        Comprehensive.get_ocean_name lat lon = "Arctic Ocean")
  /\ (forall lat lon,
        (120 <=! lon <=! 180) || (-180 <=! lon <=! -100) || (-80 <=! lon <=! 20)
        = true ->
        Advanced.get_specific_ocean_region lat lon <> "Arctic Ocean"
        /\ Advanced.get_specific_ocean_region lat lon <> "Southern Ocean")
  /\ (forall lat lon,
        (30 <=! lat <=! 46) && (-6 <=! lon <=! 37) = false ->
        (40 <=! lat <=! 48) && (27 <=! lon <=! 42) = false ->
        (36 <=! lat <=! 47) && (46 <=! lon <=! 55) = false ->
        (120 <=! lon <=! 180) || (-180 <=! lon <=! -100) || (-80 <=! lon <=! 20)
        = false ->
        (20 <=! lon <=! 120) && (-50 <=! lat <=! 30) = false ->
        Advanced.get_specific_ocean_region lat lon
        = if ge_fz lat 70 then "Arctic Ocean"
          else if le_fz lat (-50) then "Southern Ocean"
          else "Ocean").
Proof.
  split_and!.
  - apply comp_ocean_southern.
  - apply comp_ocean_arctic.
  - intros lat lon H. unfold Advanced.get_specific_ocean_region.
    apply orb_true_iff in H as [H|H]; rewrite H;
      repeat match goal with
      | |- context [if ?c then _ else _] => destruct c
      end; split; discriminate.
  - intros lat lon H1 H2 H3 H4 H5.
    apply orb_false_iff in H4 as [H4 H4'].
    unfold Advanced.get_specific_ocean_region.
    now rewrite H1, H2, H3, H4, H4', H5.
Qed.

Lemma C4_witness_polar :
  le_fz (fz (-55)) (-50) = true
  /\ Comprehensive.get_ocean_name (fz (-55)) (fz 160) = "Southern Ocean"
  /\ ge_fz (fz 80) 75 = true
  /\ Comprehensive.get_ocean_name (fz 80) (fz (-30)) = "Arctic Ocean"
  /\ Advanced.get_specific_ocean_region (fz 80) (fz (-30)) <> "Arctic Ocean"
  /\ Advanced.get_specific_ocean_region (fz 86) (fz (-90)) = "Arctic Ocean".
Proof.
  destruct C4_polar_rules as (Hs & Ha & Hband & Hrest).
  split_and!.
  - reflexivity.
  - apply Hs. reflexivity.
  - reflexivity.
  - apply Ha. reflexivity.
  - apply (Hband (fz 80) (fz (-30))). reflexivity.
  - apply (Hrest (fz 86) (fz (-90))); reflexivity.
Defined.

(** ** The "Central Pacific" test *)

Lemma comp_definitely_ocean lat lon :
  Comprehensive.is_definitely_ocean lat lon
  = ((-40 <=! lat <=! 40) && (-50 <=! lon <=! -10))
    || ((-40 <=! lat <=! 20) && (60 <=! lon <=! 100))
    || le_fz lat (-50) || ge_fz lat 75.
Proof.
  unfold Comprehensive.is_definitely_ocean.
  rewrite (between_empty 140 lon (-120)) by lia. rewrite andb_false_r.
  repeat match goal with
  | |- context [if ?c then _ else _] => destruct c
  end; reflexivity.
Qed.

(** ** One pass of the retry loop *)

Lemma advance_advance s c1 n1 e1 c2 n2 e2 :
  advance (advance s c1 n1 e1) c2 n2 e2 = advance s c2 (n2 + n1) (e1 ++ e2).
Proof.
  unfold advance; simpl. f_equal; [lia | now rewrite app_assoc].
Qed.

Lemma advance_id s : advance s (geocoding_cache s) 0 [] = s.
Proof. destruct s. unfold advance; simpl. now rewrite app_nil_r. Qed.

Lemma adv_attempt_body_cases E key lat lon R a s :
  Advanced.attempt_body E key lat lon R a s =
  let pre := [EvSleep float_0_2; EvReverse lat lon 10] in
  match reverse E (requests s) lat lon with
  | Raises GeocoderTimedOut | Raises GeocoderServiceError =>
      if (Z.of_nat a <? Z.of_nat R - 1)%Z
      then (Ok Continue,
            advance s (geocoding_cache s) 1
              (pre ++ [EvSleep (inject_Z (2 ^ Z.of_nat a))]))
      else (Ok Break, advance s (geocoding_cache s) 1 pre)
  | Raises OtherException => (Ok Break, advance s (geocoding_cache s) 1 pre)
  | Raises Interrupt => (Raise Interrupt, advance s (geocoding_cache s) 1 pre)
  | Gives loc =>
      match found_country loc with
      | Some c =>
          (Ok (Return (standardized E c)),
           advance s (<[key := Some (standardized E c)]> (geocoding_cache s)) 1 pre)
      | None => (Ok Break, advance s (geocoding_cache s) 1 pre)
      end
  end.
Proof.
  unfold Advanced.attempt_body, try_except, bind, sleep, emit,
    geolocator_reverse, advance, found_country, standardized.
  cbn [use_geocoding cache_file geocoding_cache requests trace].
  destruct (reverse E (requests s) lat lon) as [[]|[[[address|]]|]]; cbn;
    rewrite <- ?app_assoc; cbn; try reflexivity.
  - destruct (Z.of_nat a <? Z.of_nat R - 1)%Z; cbn;
      rewrite <- ?app_assoc; reflexivity.
  - destruct (Z.of_nat a <? Z.of_nat R - 1)%Z; cbn;
      rewrite <- ?app_assoc; reflexivity.
  - destruct (bool_decide (address = ∅)); cbn; [reflexivity|].
    destruct (py_or _ _) as [c|] eqn:Hc; cbn; [|reflexivity].
    destruct (negb (c =? "")); reflexivity.
Qed.

Lemma request_count_app d k (a b : list event) :
  request_count d k (a ++ b) = request_count d k a + request_count d k b.
Proof. unfold request_count. now rewrite List.filter_app, length_app. Qed.

Lemma effect_of_refl d lat lon bound s :
  effect_of d lat lon bound s s (geocoding_cache s).
Proof.
  exists 0, []. split_and!; [now rewrite advance_id | lia |].
  intros k. now destruct (String.eqb _ _).
Qed.

Lemma effect_of_step d lat lon bound s c1 evs1 s' c2 :
  (forall k, request_count d k evs1
             = if String.eqb (cache_key d lat lon) k then 1 else 0) ->
  effect_of d lat lon bound (advance s c1 1 evs1) s' c2 ->
  effect_of d lat lon (S bound) s s' c2.
Proof.
  intros H1 (n & evs & -> & Hn & Hcount).
  exists (n + 1), (evs1 ++ evs)%list. split_and!.
  - apply advance_advance.
  - lia.
  - intros k. rewrite request_count_app, H1, Hcount.
    destruct (String.eqb _ _); lia.
Qed.

Lemma effect_of_one d lat lon bound s c1 evs1 :
  (forall k, request_count d k evs1
             = if String.eqb (cache_key d lat lon) k then 1 else 0) ->
  effect_of d lat lon (S bound) s (advance s c1 1 evs1) c1.
Proof.
  intros H1. exists 1, evs1. split_and!; [reflexivity | lia | assumption].
Qed.

(** Counting the requests of the events of one attempt. *)
Ltac count_requests :=
  intros ?k; unfold request_count; cbn;
  repeat match goal with
  | |- context [String.eqb ?a ?b] => destruct (String.eqb a b) eqn:?; cbn
  end; try reflexivity; try congruence.

Lemma for_attempts_cons body a attempts s :
  for_attempts body (a :: attempts) s =
  match body a s with
  | (Ok (Return c), s') => (Ok (Some c), s')
  | (Ok Break, s') => (Ok None, s')
  | (Ok Continue, s') => for_attempts body attempts s'
  | (Raise e, s') => (Raise e, s')
  end.
Proof.
  cbn [for_attempts]. unfold bind.
  destruct (body a s) as [[[]|] s']; reflexivity.
Qed.

Lemma adv_for_attempts_effect E lat lon R (attempts : list nat) :
  forall b s,
  length attempts <= b \/ (1 <= b /\ calm E) ->
  exists c',
    effect_of 3 lat lon b s
      (snd (for_attempts
              (Advanced.attempt_body E (cache_key 3 lat lon) lat lon R)
              attempts s)) c'
    /\ match fst (for_attempts
                    (Advanced.attempt_body E (cache_key 3 lat lon) lat lon R)
                    attempts s) with
       | Ok (Some c) => c' = <[cache_key 3 lat lon := Some c]> (geocoding_cache s)
       | Ok None => c' = geocoding_cache s
       | Raise e => e = Interrupt /\ c' = geocoding_cache s
       end.
Proof.
  induction attempts as [|a attempts IH]; intros b s Hb.
  - exists (geocoding_cache s). split; [apply effect_of_refl | reflexivity].
  - assert (Hb1 : exists b', b = S b') by
      (destruct b; [cbn in Hb; lia | eauto]).
    destruct Hb1 as [b' ->].
    rewrite for_attempts_cons, adv_attempt_body_cases. cbn zeta.
    destruct (reverse E (requests s) lat lon) as [[]|loc] eqn:Hrev.
    1,2: destruct Hb as [Hb|[_ Hcalm]];
         [|destruct (Hcalm (requests s) lat lon); congruence].
    1,2: destruct (Z.of_nat a <? Z.of_nat R - 1)%Z.
    1,3: match goal with
         | |- context [for_attempts _ _ ?s1] =>
             destruct (IH b' s1) as (c' & Heff & Hres);
             [left; cbn in Hb; lia|]
         end; exists c'; split;
         [ eapply effect_of_step; [|exact Heff]; count_requests
         | exact Hres ].
    1-4: exists (geocoding_cache s); cbn; split;
         [ apply effect_of_one; count_requests | auto ].
    destruct (found_country loc) as [c|]; cbn.
    + eexists; split; [apply effect_of_one; count_requests | reflexivity].
    + exists (geocoding_cache s); split;
        [apply effect_of_one; count_requests | reflexivity].
Qed.

Lemma adv_geocoding_hit E lat lon R s v :
  geocoding_cache s !! cache_key 3 lat lon = Some v ->
  Advanced.get_country_with_geocoding E lat lon R s = (Ok v, s).
Proof.
  intros H. unfold Advanced.get_country_with_geocoding, bind, cache_get.
  now rewrite H.
Qed.

Lemma adv_geocoding_miss_eq E lat lon R s :
  geocoding_cache s !! cache_key 3 lat lon = None ->
  Advanced.get_country_with_geocoding E lat lon R s =
  match for_attempts (Advanced.attempt_body E (cache_key 3 lat lon) lat lon R)
                     (seq 0 R) s with
  | (Ok (Some c), s1) => (Ok (Some c), s1)
  | (Ok None, s1) => (Ok None, snd (cache_set (cache_key 3 lat lon) None s1))
  | (Raise e, s1) => (Raise e, s1)
  end.
Proof.
  intros H. unfold Advanced.get_country_with_geocoding, bind, cache_get.
  rewrite H. destruct (for_attempts _ _ s) as [[[c|]|e] s1]; reflexivity.
Qed.

Lemma adv_geocoding_miss E lat lon R s b :
  geocoding_cache s !! cache_key 3 lat lon = None ->
  R <= b \/ (1 <= b /\ calm E) ->
  exists c',
    effect_of 3 lat lon b s
      (snd (Advanced.get_country_with_geocoding E lat lon R s)) c'
    /\ match fst (Advanced.get_country_with_geocoding E lat lon R s) with
       | Ok r => c' = <[cache_key 3 lat lon := r]> (geocoding_cache s)
       | Raise e => e = Interrupt /\ c' = geocoding_cache s
       end.
Proof.
  intros Hmiss Hb. rewrite (adv_geocoding_miss_eq _ _ _ _ _ Hmiss).
  destruct (adv_for_attempts_effect E lat lon R (seq 0 R) b s)
    as (c' & Heff & Hres); [now rewrite length_seq|].
  destruct (for_attempts _ _ s) as [[[c|]|e] s1]; cbn [fst snd] in *.
  - exists c'. now split.
  - destruct Heff as (n & evs & -> & Hn & Hcount). subst c'.
    eexists. split; [|reflexivity].
    exists n, evs. now split_and!.
  - exists c'. now split.
Qed.

(** The same for the comprehensive detector, which also writes the cache
    file on every tenth entry. *)
Lemma comp_attempt_body_cases E key lat lon R a s :
  Comprehensive.attempt_body E key lat lon R a s =
  let pre := [EvSleep float_0_3; EvReverse lat lon 15] in
  match reverse E (requests s) lat lon with
  | Raises GeocoderTimedOut | Raises GeocoderServiceError =>
      if (Z.of_nat a <? Z.of_nat R - 1)%Z
      then (Ok Continue,
            advance s (geocoding_cache s) 1
              (pre ++ [EvSleep (inject_Z (2 ^ Z.of_nat a))]))
      else (Ok Break, advance s (geocoding_cache s) 1 pre)
  | Raises OtherException => (Ok Break, advance s (geocoding_cache s) 1 pre)
  | Raises Interrupt => (Raise Interrupt, advance s (geocoding_cache s) 1 pre)
  | Gives loc =>
      match found_country loc with
      | Some c =>
          let cache' := <[key := Some c]> (geocoding_cache s) in
          (Ok (Return c),
           advance s cache' 1
             (pre ++ if truthy (cache_file s) && (size cache' mod 10 =? 0)%nat
                     then [EvSaveCache (default "" (cache_file s)) cache']
                     else []))
      | None => (Ok Break, advance s (geocoding_cache s) 1 pre)
      end
  end.
Proof.
  unfold Comprehensive.attempt_body, Comprehensive.save_cache, try_except,
    bind, sleep, emit, get_state, cache_set,
    geolocator_reverse, advance, found_country.
  cbn [use_geocoding cache_file geocoding_cache requests trace].
  destruct (reverse E (requests s) lat lon) as [[]|[[[address|]]|]]; cbn;
    rewrite <- ?app_assoc; cbn; try reflexivity.
  - destruct (Z.of_nat a <? Z.of_nat R - 1)%Z; cbn;
      rewrite <- ?app_assoc; reflexivity.
  - destruct (Z.of_nat a <? Z.of_nat R - 1)%Z; cbn;
      rewrite <- ?app_assoc; reflexivity.
  - destruct (bool_decide (address = ∅)); cbn; [reflexivity|].
    destruct (py_or _ _) as [c|] eqn:Hc; cbn; [|reflexivity].
    destruct (negb (c =? "")); cbn; [|reflexivity].
    destruct (truthy (cache_file s) && _); cbn;
      rewrite <- ?app_assoc; cbn; rewrite ?app_nil_r; reflexivity.
Qed.

Lemma comp_for_attempts_effect E lat lon R (attempts : list nat) :
  forall b s,
  length attempts <= b \/ (1 <= b /\ calm E) ->
  exists c',
    effect_of 2 lat lon b s
      (snd (for_attempts
              (Comprehensive.attempt_body E (cache_key 2 lat lon) lat lon R)
              attempts s)) c'
    /\ match fst (for_attempts
                    (Comprehensive.attempt_body E (cache_key 2 lat lon) lat lon R)
                    attempts s) with
       | Ok (Some c) => c' = <[cache_key 2 lat lon := Some c]> (geocoding_cache s)
       | Ok None => c' = geocoding_cache s
       | Raise e => e = Interrupt /\ c' = geocoding_cache s
       end.
Proof.
  induction attempts as [|a attempts IH]; intros b s Hb.
  - exists (geocoding_cache s). split; [apply effect_of_refl | reflexivity].
  - assert (Hb1 : exists b', b = S b') by
      (destruct b; [cbn in Hb; lia | eauto]).
    destruct Hb1 as [b' ->].
    rewrite for_attempts_cons, comp_attempt_body_cases. cbn zeta.
    destruct (reverse E (requests s) lat lon) as [[]|loc] eqn:Hrev.
    1,2: destruct Hb as [Hb|[_ Hcalm]];
         [|destruct (Hcalm (requests s) lat lon); congruence].
    1,2: destruct (Z.of_nat a <? Z.of_nat R - 1)%Z.
    1,3: match goal with
         | |- context [for_attempts _ _ ?s1] =>
             destruct (IH b' s1) as (c' & Heff & Hres);
             [left; cbn in Hb; lia|]
         end; exists c'; split;
         [ eapply effect_of_step; [|exact Heff]; count_requests
         | exact Hres ].
    1-4: exists (geocoding_cache s); cbn; split;
         [ apply effect_of_one; count_requests | auto ].
    destruct (found_country loc) as [c|]; cbn.
    + eexists; split; [|reflexivity].
      apply effect_of_one.
      destruct (truthy (cache_file s) && _); count_requests.
    + exists (geocoding_cache s); split;
        [apply effect_of_one; count_requests | reflexivity].
Qed.

Lemma comp_geocoding_hit E lat lon R s v :
  geocoding_cache s !! cache_key 2 lat lon = Some v ->
  Comprehensive.get_country_with_geocoding E lat lon R s = (Ok v, s).
Proof.
  intros H. unfold Comprehensive.get_country_with_geocoding, bind, cache_get.
  now rewrite H.
Qed.

Lemma comp_geocoding_miss_eq E lat lon R s :
  geocoding_cache s !! cache_key 2 lat lon = None ->
  Comprehensive.get_country_with_geocoding E lat lon R s =
  match for_attempts (Comprehensive.attempt_body E (cache_key 2 lat lon) lat lon R)
                     (seq 0 R) s with
  | (Ok (Some c), s1) => (Ok (Some c), s1)
  | (Ok None, s1) => (Ok None, snd (cache_set (cache_key 2 lat lon) None s1))
  | (Raise e, s1) => (Raise e, s1)
  end.
Proof.
  intros H. unfold Comprehensive.get_country_with_geocoding, bind, cache_get.
  rewrite H. destruct (for_attempts _ _ s) as [[[c|]|e] s1]; reflexivity.
Qed.

Lemma comp_geocoding_miss E lat lon R s b :
  geocoding_cache s !! cache_key 2 lat lon = None ->
  R <= b \/ (1 <= b /\ calm E) ->
  exists c',
    effect_of 2 lat lon b s
      (snd (Comprehensive.get_country_with_geocoding E lat lon R s)) c'
    /\ match fst (Comprehensive.get_country_with_geocoding E lat lon R s) with
       | Ok r => c' = <[cache_key 2 lat lon := r]> (geocoding_cache s)
       | Raise e => e = Interrupt /\ c' = geocoding_cache s
       end.
Proof.
  intros Hmiss Hb. rewrite (comp_geocoding_miss_eq _ _ _ _ _ Hmiss).
  destruct (comp_for_attempts_effect E lat lon R (seq 0 R) b s)
    as (c' & Heff & Hres); [now rewrite length_seq|].
  destruct (for_attempts _ _ s) as [[[c|]|e] s1]; cbn [fst snd] in *.
  - exists c'. now split.
  - destruct Heff as (n & evs & -> & Hn & Hcount). subst c'.
    eexists. split; [|reflexivity].
    exists n, evs. now split_and!.
  - exists c'. now split.
Qed.

(** ** Calls and runs *)

Lemma call_effect_same_state {A B} d b s (out1 : result A * state)
    (out2 : result B * state) :
  snd out2 = snd out1 ->
  (match fst out1, fst out2 with
   | Ok _, Ok _ | Raise _, Raise _ => True
   | _, _ => False
   end) ->
  call_effect d b s out1 -> call_effect d b s out2.
Proof.
  intros Hs Hr [H|(lat & lon & c' & Hmiss & Heff & Hres)].
  - left. congruence.
  - right. exists lat, lon, c'. rewrite Hs. split_and!; try assumption.
    destruct (fst out1), (fst out2); tauto.
Qed.

Lemma adv_geocode_call_effect E lat lon R s b :
  R <= b \/ (1 <= b /\ calm E) ->
  call_effect 3 b s (Advanced.get_country_with_geocoding E lat lon R s).
Proof.
  intros Hb.
  destruct (geocoding_cache s !! cache_key 3 lat lon) as [v|] eqn:Hc.
  - left. now rewrite (adv_geocoding_hit _ _ _ _ _ _ Hc).
  - right. destruct (adv_geocoding_miss E lat lon R s b Hc Hb) as (c' & Heff & Hres).
    exists lat, lon, c'. split_and!; try assumption.
    destruct (fst _); [eauto | tauto].
Qed.

Lemma comp_geocode_call_effect E lat lon R s b :
  R <= b \/ (1 <= b /\ calm E) ->
  call_effect 2 b s (Comprehensive.get_country_with_geocoding E lat lon R s).
Proof.
  intros Hb.
  destruct (geocoding_cache s !! cache_key 2 lat lon) as [v|] eqn:Hc.
  - left. now rewrite (comp_geocoding_hit _ _ _ _ _ _ Hc).
  - right. destruct (comp_geocoding_miss E lat lon R s b Hc Hb) as (c' & Heff & Hres).
    exists lat, lon, c'. split_and!; try assumption.
    destruct (fst _); [eauto | tauto].
Qed.

(** [get_country_from_coordinates] either leaves the detector alone or
    ends in the state and with the outcome (label or exception) of one
    lookup at the default number of retries. *)
Lemma adv_coordinates_cases E lat lon s :
  (exists label, Advanced.get_country_from_coordinates E lat lon s = (Ok label, s))
  \/ exists flat flon,
       isna lat = false /\ isna lon = false
       /\ py_float E lat = Some flat /\ py_float E lon = Some flon
       /\ use_geocoding s = true
       /\ Advanced.get_country_from_coordinates E lat lon s =
          match Advanced.get_country_with_geocoding E flat flon 3 s with
          | (Ok country, s1) =>
              (Ok (if truthy country then default "" country
                   else Advanced.get_country_from_geography flat flon), s1)
          | (Raise e, s1) => (Raise e, s1)
          end.
Proof.
  unfold Advanced.get_country_from_coordinates.
  destruct (isna lat) eqn:Hlat; [left; eauto|].
  destruct (isna lon) eqn:Hlon; [left; eauto|]. cbn [orb].
  destruct (py_float E lat) as [flat|]; [|left; eauto].
  destruct (py_float E lon) as [flon|]; [|left; eauto].
  unfold bind at 1, get_state. cbn beta iota.
  destruct (use_geocoding s) eqn:Hg; [|left; eauto].
  right. exists flat, flon. split_and!; try reflexivity.
  unfold bind, get_state. cbn beta iota. rewrite Hg.
  destruct (Advanced.get_country_with_geocoding E flat flon 3 s) as [[c|e] s1];
    [|reflexivity].
  destruct (truthy c); reflexivity.
Qed.

Lemma comp_coordinates_cases E lat lon s :
  (exists label, Comprehensive.get_country_from_coordinates E lat lon s = (Ok label, s))
  \/ exists flat flon,
       isna lat = false /\ isna lon = false
       /\ py_float E lat = Some flat /\ py_float E lon = Some flon
       /\ use_geocoding s = true
       /\ Comprehensive.get_high_confidence_country flat flon = "Uncertain"
       /\ Comprehensive.get_country_from_coordinates E lat lon s =
          match Comprehensive.get_country_with_geocoding E flat flon 2 s with
          | (Ok country, s1) =>
              (Ok (if truthy country
                   then default "" (Comprehensive.standardize_country_name E country)
                   else Comprehensive.get_detailed_geographical_country flat flon),
               s1)
          | (Raise e, s1) => (Raise e, s1)
          end.
Proof.
  unfold Comprehensive.get_country_from_coordinates.
  destruct (isna lat) eqn:Hlat; [left; eauto|].
  destruct (isna lon) eqn:Hlon; [left; eauto|]. cbn [orb].
  destruct (py_float E lat) as [flat|]; [|left; eauto].
  destruct (py_float E lon) as [flon|]; [|left; eauto].
  destruct (String.eqb _ "Uncertain") eqn:Hu; cbn [negb]; [|left; eauto].
  apply String.eqb_eq in Hu.
  unfold bind at 1, get_state. cbn beta iota.
  destruct (use_geocoding s) eqn:Hg; [|left; eauto].
  right. exists flat, flon. split_and!; try reflexivity; try assumption.
  unfold bind, get_state. cbn beta iota. rewrite Hg.
  destruct (Comprehensive.get_country_with_geocoding E flat flon 2 s)
    as [[c|e] s1]; [|reflexivity].
  destruct (truthy c); reflexivity.
Qed.

Lemma adv_resolve_call_effect E lat lon s b :
  3 <= b \/ (1 <= b /\ calm E) ->
  call_effect 3 b s (Advanced.get_country_from_coordinates E lat lon s).
Proof.
  intros Hb.
  destruct (adv_coordinates_cases E lat lon s)
    as [[label ->]|(flat & flon & _ & _ & _ & _ & _ & ->)]; [now left|].
  pose proof (adv_geocode_call_effect E flat flon 3 s b Hb) as H.
  eapply call_effect_same_state; [| |exact H];
    destruct (Advanced.get_country_with_geocoding E flat flon 3 s) as [[]?];
    cbn; trivial.
Qed.

Lemma comp_resolve_call_effect E lat lon s b :
  2 <= b \/ (1 <= b /\ calm E) ->
  call_effect 2 b s (Comprehensive.get_country_from_coordinates E lat lon s).
Proof.
  intros Hb.
  destruct (comp_coordinates_cases E lat lon s)
    as [[label ->]|(flat & flon & _ & _ & _ & _ & _ & _ & ->)]; [now left|].
  pose proof (comp_geocode_call_effect E flat flon 2 s b Hb) as H.
  eapply call_effect_same_state; [| |exact H];
    destruct (Comprehensive.get_country_with_geocoding E flat flon 2 s) as [[]?];
    cbn; trivial.
Qed.

Section Runs.

Variable d : nat.
Variable resolve : pyval -> pyval -> M string.
Variable geocode : pyfloat -> pyfloat -> nat -> M (option string).
Variable B : nat.

(** Over a run whose calls each make at most [B] requests, and only for
    a key that is not cached, a key gathers at most [B] requests, and
    none when it was cached at the start. *)
Lemma run_calls_requests (calls : list call) :
  (forall lat lon, In (Resolve lat lon) calls ->
                   forall s, call_effect d B s (resolve lat lon s)) ->
  (forall lat lon r, In (Geocode lat lon r) calls ->
                     forall s, call_effect d B s (geocode lat lon r s)) ->
  forall s k,
    request_count d k (trace (snd (run_calls resolve geocode calls s)))
    <= request_count d k (trace s)
       + match geocoding_cache s !! k with Some _ => 0 | None => B end.
Proof.
  induction calls as [|c calls IH]; intros Hres Hgeo s k; [cbn; lia|].
  assert (IH' : forall s1,
    request_count d k (trace (snd (run_calls resolve geocode calls s1)))
    <= request_count d k (trace s1)
       + match geocoding_cache s1 !! k with Some _ => 0 | None => B end).
  { intros s1. apply IH; intros; [eapply Hres | eapply Hgeo]; right; eauto. }
  assert (Hstep : forall {A} (m : M A),
    call_effect d B s (m s) ->
    request_count d k
      (trace (snd ((do! m in run_calls resolve geocode calls) s)))
    <= request_count d k (trace s)
       + match geocoding_cache s !! k with Some _ => 0 | None => B end).
  { intros A m Hm. unfold bind.
    destruct (m s) as [[a|e] s1] eqn:Hms; cbn [fst snd] in *; unfold call_effect in Hm;
      cbn [fst snd] in Hm.
    - destruct Hm as [Hm|(lat & lon & c' & Hmiss & (n & evs & Hm & Hn & Hcount) & r & ->)];
        cbn [fst snd] in Hm; subst s1.
      + apply IH'.
      + etransitivity; [apply IH'|]. cbn [trace geocoding_cache advance].
        rewrite request_count_app, Hcount.
        destruct (String.eqb_spec (cache_key d lat lon) k) as [<-|Hne].
        * rewrite lookup_insert_eq, Hmiss. lia.
        * rewrite lookup_insert_ne by assumption. lia.
    - destruct Hm as [Hm|(lat & lon & c' & Hmiss & (n & evs & Hm & Hn & Hcount) & ->)];
        cbn [fst snd] in Hm; subst s1.
      + lia.
      + cbn [trace advance]. rewrite request_count_app, Hcount.
        destruct (String.eqb_spec (cache_key d lat lon) k) as [<-|Hne].
        * rewrite Hmiss. lia.
        * lia. }
  destruct c as [lat lon|lat lon r]; cbn [run_calls]; apply Hstep.
  - apply Hres. now left.
  - apply Hgeo. now left.
Qed.

End Runs.

Lemma retry_bound_resolve dflt calls lat lon :
  In (Resolve lat lon) calls -> dflt <= retry_bound dflt calls.
Proof.
  induction calls as [|[]]; cbn; [tauto| |]; intros [H|H];
    try discriminate; try (specialize (IHcalls H)); lia.
Qed.

Lemma retry_bound_geocode dflt calls lat lon r :
  In (Geocode lat lon r) calls -> r <= retry_bound dflt calls.
Proof.
  induction calls as [|[]]; cbn; [tauto| |]; intros [H|H];
    try discriminate; try (specialize (IHcalls H)); try lia.
  injection H as -> -> ->. lia.
Qed.

(** ** Requests per key *)

Lemma adv_run_requests E calls s k b :
  retry_bound 3 calls <= b \/ (1 <= b /\ calm E) ->
  request_count 3 k
    (trace (snd (run_calls (Advanced.get_country_from_coordinates E)
                           (Advanced.get_country_with_geocoding E) calls s)))
  <= request_count 3 k (trace s)
     + match geocoding_cache s !! k with Some _ => 0 | None => b end.
Proof.
  intros Hb. apply run_calls_requests.
  - intros lat lon Hin s1. apply adv_resolve_call_effect.
    pose proof (retry_bound_resolve 3 calls lat lon Hin).
    destruct Hb; [left; lia | now right].
  - intros lat lon r Hin s1. apply adv_geocode_call_effect.
    pose proof (retry_bound_geocode 3 calls lat lon r Hin).
    destruct Hb; [left; lia | now right].
Qed.

Lemma comp_run_requests E calls s k b :
  retry_bound 2 calls <= b \/ (1 <= b /\ calm E) ->
  request_count 2 k
    (trace (snd (run_calls (Comprehensive.get_country_from_coordinates E)
                           (Comprehensive.get_country_with_geocoding E) calls s)))
  <= request_count 2 k (trace s)
     + match geocoding_cache s !! k with Some _ => 0 | None => b end.
Proof.
  intros Hb. apply run_calls_requests.
  - intros lat lon Hin s1. apply comp_resolve_call_effect.
    pose proof (retry_bound_resolve 2 calls lat lon Hin).
    destruct Hb; [left; lia | now right].
  - intros lat lon r Hin s1. apply comp_geocode_call_effect.
    pose proof (retry_bound_geocode 2 calls lat lon r Hin).
    destruct Hb; [left; lia | now right].
Qed.

Lemma adv_geocoding_caches E lat lon R s r :
  fst (Advanced.get_country_with_geocoding E lat lon R s) = Ok r ->
  geocoding_cache (snd (Advanced.get_country_with_geocoding E lat lon R s))
    !! cache_key 3 lat lon = Some r.
Proof.
  intros Hr.
  destruct (geocoding_cache s !! cache_key 3 lat lon) as [v|] eqn:Hc.
  - rewrite (adv_geocoding_hit _ _ _ _ _ _ Hc) in *. cbn in *. congruence.
  - destruct (adv_geocoding_miss E lat lon R s R Hc) as (c' & (n & evs & Hs & _) & Hres);
      [now left|].
    rewrite Hr in Hres. rewrite Hs, Hres. cbn. apply lookup_insert_eq.
Qed.

Lemma comp_geocoding_caches E lat lon R s r :
  fst (Comprehensive.get_country_with_geocoding E lat lon R s) = Ok r ->
  geocoding_cache (snd (Comprehensive.get_country_with_geocoding E lat lon R s))
    !! cache_key 2 lat lon = Some r.
Proof.
  intros Hr.
  destruct (geocoding_cache s !! cache_key 2 lat lon) as [v|] eqn:Hc.
  - rewrite (comp_geocoding_hit _ _ _ _ _ _ Hc) in *. cbn in *. congruence.
  - destruct (comp_geocoding_miss E lat lon R s R Hc) as (c' & (n & evs & Hs & _) & Hres);
      [now left|].
    rewrite Hr in Hres. rewrite Hs, Hres. cbn. apply lookup_insert_eq.
Qed.

(** C1 (as stated, refuted): a service that times out once is requested
    twice for the same key within a single lookup. *)
Lemma C1_counterexample_retry_same_key :
  request_count 3 "35.000,139.000"
    (trace (snd (Advanced.get_country_with_geocoding flaky_once
                   (fz 35) (fz 139) 3 (Advanced.init flaky_once true))))
  = 2
  /\ ~ request_count 3 "35.000,139.000"
         (trace (snd (run_calls
                        (Advanced.get_country_from_coordinates flaky_once)
                        (Advanced.get_country_with_geocoding flaky_once)
                        [Resolve (VFloat (fz 35)) (VFloat (fz 139))]
                        (Advanced.init flaky_once true))))
       <= 1.
Proof.
  split; [vm_compute; reflexivity|].
  vm_compute. intros H. apply Nat.leb_le in H. discriminate.
Qed.

(** C1 (amended): over any sequence of [get_country_from_coordinates] and
    [get_country_with_geocoding] calls on one detector, a rounded key (3
    decimals in [CountryDetector], 2 in [ComprehensiveCountryDetector])
    is looked up by at most one call, the first that misses it.  The
    service is requested for the key at most as many times as that call
    retries (3 and 2 by default), at most once when it raises no timeout
    nor service error, and never for a key that is already cached.  A
    lookup that returns leaves its result in the cache, [None] for a
    failure, and a call that finds the key cached returns the entry
    without a request. *)
Theorem C1_requests_per_key :
  (forall E calls s k,
     request_count 3 k
       (trace (snd (run_calls (Advanced.get_country_from_coordinates E)
                              (Advanced.get_country_with_geocoding E) calls s)))
     <= request_count 3 k (trace s)
        + match geocoding_cache s !! k with
          | Some _ => 0
          | None => retry_bound 3 calls
          end)
  /\ (forall E calls s k,
        request_count 2 k
          (trace (snd (run_calls (Comprehensive.get_country_from_coordinates E)
                                 (Comprehensive.get_country_with_geocoding E)
                                 calls s)))
        <= request_count 2 k (trace s)
           + match geocoding_cache s !! k with
             | Some _ => 0
             | None => retry_bound 2 calls
             end)
  /\ (forall E calls s k,
        calm E ->
        request_count 3 k
          (trace (snd (run_calls (Advanced.get_country_from_coordinates E)
                                 (Advanced.get_country_with_geocoding E) calls s)))
        <= request_count 3 k (trace s)
           + match geocoding_cache s !! k with Some _ => 0 | None => 1 end)
  /\ (forall E calls s k,
        calm E ->
        request_count 2 k
          (trace (snd (run_calls (Comprehensive.get_country_from_coordinates E)
                                 (Comprehensive.get_country_with_geocoding E)
                                 calls s)))
        <= request_count 2 k (trace s)
           + match geocoding_cache s !! k with Some _ => 0 | None => 1 end)
  /\ (forall E lat lon R s v,
        geocoding_cache s !! cache_key 3 lat lon = Some v ->
        Advanced.get_country_with_geocoding E lat lon R s = (Ok v, s))
  /\ (forall E lat lon R s v,
        geocoding_cache s !! cache_key 2 lat lon = Some v ->
        Comprehensive.get_country_with_geocoding E lat lon R s = (Ok v, s))
  /\ (forall E lat lon R s r,
        fst (Advanced.get_country_with_geocoding E lat lon R s) = Ok r ->
        geocoding_cache (snd (Advanced.get_country_with_geocoding E lat lon R s))
          !! cache_key 3 lat lon = Some r)
  /\ (forall E lat lon R s r,
        fst (Comprehensive.get_country_with_geocoding E lat lon R s) = Ok r ->
        geocoding_cache
          (snd (Comprehensive.get_country_with_geocoding E lat lon R s))
          !! cache_key 2 lat lon = Some r).
Proof.
  split_and!.
  - intros. apply adv_run_requests. now left.
  - intros. apply comp_run_requests. now left.
  - intros. apply adv_run_requests. right. now split.
  - intros. apply comp_run_requests. right. now split.
  - apply adv_geocoding_hit.
  - apply comp_geocoding_hit.
  - apply adv_geocoding_caches.
  - apply comp_geocoding_caches.
Qed.

Lemma C1_witness_repeated_calls :
  calm online_japan
  /\ request_count 3 "35.000,139.000"
       (trace (snd (run_calls
                      (Advanced.get_country_from_coordinates online_japan)
                      (Advanced.get_country_with_geocoding online_japan)
                      [Resolve (VFloat (fz 35)) (VFloat (fz 139));
                       Geocode (fz 35) (fl 1138689 8192) 3;
                       Resolve (VFloat (fz 35)) (VFloat (fz 139))]
                      (Advanced.init online_japan true))))
     <= 0 + 1.
Proof.
  assert (Hcalm : calm online_japan)
    by (intros n lat lon; split; discriminate).
  split; [exact Hcalm|].
  exact (proj1 (proj2 (proj2 C1_requests_per_key)) online_japan _
           (Advanced.init online_japan true) "35.000,139.000" Hcalm).
Defined.

(** ** Retry and backoff *)

Lemma transient_cases (e : exn) (A : Type) (x y z : A) :
  e = GeocoderTimedOut \/ e = GeocoderServiceError ->
  match e with
  | GeocoderTimedOut | GeocoderServiceError => x
  | OtherException => y
  | Interrupt => z
  end = x.
Proof. intros [->| ->]; reflexivity. Qed.

(** C6: with [max_retries = 3], a key that is not cached and a service
    that raises a timeout or a service error on the first two requests
    and answers with a country on the third, [get_country_with_geocoding]
    returns that country (after the [pycountry] lookup) and caches it; it
    makes three requests, no more than [max_retries], and between the
    failed attempts it sleeps [2 ** attempt] seconds, 1 then 2, next to
    the 0.2 s pause before every request. *)
Theorem C6_retry_backoff E lat lon s e1 e2 loc c :
  geocoding_cache s !! cache_key 3 lat lon = None ->
  e1 = GeocoderTimedOut \/ e1 = GeocoderServiceError ->
  e2 = GeocoderTimedOut \/ e2 = GeocoderServiceError ->
  reverse E (requests s) lat lon = Raises e1 ->
  reverse E (S (requests s)) lat lon = Raises e2 ->
  reverse E (S (S (requests s))) lat lon = Gives loc ->
  found_country loc = Some c ->
  Advanced.get_country_with_geocoding E lat lon 3 s
  = (Ok (Some (standardized E c)),
     advance s
       (<[cache_key 3 lat lon := Some (standardized E c)]> (geocoding_cache s))
       3
       [EvSleep float_0_2; EvReverse lat lon 10; EvSleep (inject_Z 1);
        EvSleep float_0_2; EvReverse lat lon 10; EvSleep (inject_Z 2);
        EvSleep float_0_2; EvReverse lat lon 10])
  /\ request_count 3 (cache_key 3 lat lon)
       (trace (snd (Advanced.get_country_with_geocoding E lat lon 3 s)))
     = request_count 3 (cache_key 3 lat lon) (trace s) + 3
  /\ (inject_Z 1 < inject_Z 2)%Q.
Proof.
  intros Hmiss He1 He2 H1 H2 H3 Hc.
  assert (Heq : Advanced.get_country_with_geocoding E lat lon 3 s
    = (Ok (Some (standardized E c)),
       advance s
         (<[cache_key 3 lat lon := Some (standardized E c)]> (geocoding_cache s))
         3
         [EvSleep float_0_2; EvReverse lat lon 10; EvSleep (inject_Z 1);
          EvSleep float_0_2; EvReverse lat lon 10; EvSleep (inject_Z 2);
          EvSleep float_0_2; EvReverse lat lon 10])).
  { rewrite (adv_geocoding_miss_eq _ _ _ _ _ Hmiss). cbn [seq].
    rewrite for_attempts_cons, adv_attempt_body_cases, H1. cbn zeta.
    rewrite (transient_cases e1) by assumption.
    change (Z.of_nat 0 <? Z.of_nat 3 - 1)%Z with true. cbn iota.
    rewrite for_attempts_cons, adv_attempt_body_cases.
    cbn [requests advance Nat.add]. rewrite H2. cbn zeta.
    rewrite (transient_cases e2) by assumption.
    change (Z.of_nat 1 <? Z.of_nat 3 - 1)%Z with true. cbn iota.
    rewrite for_attempts_cons, adv_attempt_body_cases.
    cbn [requests advance Nat.add]. rewrite H3, Hc. cbn zeta.
    unfold advance. cbn [use_geocoding cache_file geocoding_cache requests trace].
    rewrite <- !app_assoc. reflexivity. }
  split_and!.
  - exact Heq.
  - rewrite Heq. cbn [snd advance trace]. rewrite request_count_app.
    f_equal. unfold request_count. cbn. rewrite String.eqb_refl. reflexivity.
  - reflexivity.
Qed.

Lemma C6_witness_fails_twice :
  geocoding_cache (Advanced.init flaky_twice true) !! cache_key 3 (fz 35) (fz 139)
  = None
  /\ fst (Advanced.get_country_with_geocoding flaky_twice (fz 35) (fz 139) 3
            (Advanced.init flaky_twice true))
     = Ok (Some "Japan")
  /\ trace (snd (Advanced.get_country_with_geocoding flaky_twice (fz 35) (fz 139) 3
                   (Advanced.init flaky_twice true)))
     = [EvSleep float_0_2; EvReverse (fz 35) (fz 139) 10; EvSleep (inject_Z 1);
        EvSleep float_0_2; EvReverse (fz 35) (fz 139) 10; EvSleep (inject_Z 2);
        EvSleep float_0_2; EvReverse (fz 35) (fz 139) 10].
Proof.
  pose proof (C6_retry_backoff flaky_twice (fz 35) (fz 139)
                (Advanced.init flaky_twice true)
                GeocoderTimedOut GeocoderServiceError
                (Some (Location (Some japan_address))) "Japan"
                eq_refl (or_introl eq_refl) (or_intror eq_refl)
                eq_refl eq_refl eq_refl eq_refl) as [H _].
  split; [reflexivity|]. rewrite H. split; reflexivity.
Defined.

(** ** Failures of the service *)

Lemma adv_for_attempts_returns E lat lon R (attempts : list nat) :
  uninterrupted E ->
  forall s,
  exists r,
    fst (for_attempts (Advanced.attempt_body E (cache_key 3 lat lon) lat lon R)
                      attempts s) = Ok r
    /\ (fails_at E lat lon -> r = None).
Proof.
  intros Hun. induction attempts as [|a attempts IH]; intros s.
  - exists None. split; reflexivity.
  - rewrite for_attempts_cons, adv_attempt_body_cases. cbn zeta.
    pose proof (Hun (requests s) lat lon) as Hn.
    assert (Hf : fails_at E lat lon ->
                 match reverse E (requests s) lat lon with
                 | Raises Interrupt => False
                 | Raises _ => True
                 | Gives loc => found_country loc = None
                 end) by (intros Hf; apply Hf).
    destruct (reverse E (requests s) lat lon) as [[]|loc]; try congruence.
    1,2: destruct (Z.of_nat a <? Z.of_nat R - 1)%Z; [apply IH|];
         exists None; split; reflexivity.
    + exists None. split; reflexivity.
    + destruct (found_country loc) as [c|].
      * eexists. split; [reflexivity|]. intros H. specialize (Hf H). discriminate.
      * exists None. split; reflexivity.
Qed.

Lemma adv_geocoding_returns E lat lon R s :
  uninterrupted E ->
  exists r,
    fst (Advanced.get_country_with_geocoding E lat lon R s) = Ok r
    /\ (geocoding_cache s !! cache_key 3 lat lon = None ->
        fails_at E lat lon -> r = None).
Proof.
  intros Hun.
  destruct (geocoding_cache s !! cache_key 3 lat lon) as [v|] eqn:Hc.
  - rewrite (adv_geocoding_hit _ _ _ _ _ _ Hc). exists v. split; [reflexivity|].
    discriminate.
  - rewrite (adv_geocoding_miss_eq _ _ _ _ _ Hc).
    destruct (adv_for_attempts_returns E lat lon R (seq 0 R) Hun s) as (r & Hr & Hf).
    destruct (for_attempts _ _ s) as [[[c|]|e] s1]; cbn [fst] in *;
      try discriminate; eexists; (split; [reflexivity|]); intros _ H;
      specialize (Hf H); congruence.
Qed.

Lemma adv_coordinates_online E lat lon flat flon s :
  isna lat = false -> isna lon = false ->
  py_float E lat = Some flat -> py_float E lon = Some flon ->
  use_geocoding s = true ->
  Advanced.get_country_from_coordinates E lat lon s =
  match Advanced.get_country_with_geocoding E flat flon 3 s with
  | (Ok country, s1) =>
      (Ok (if truthy country then default "" country
           else Advanced.get_country_from_geography flat flon), s1)
  | (Raise e, s1) => (Raise e, s1)
  end.
Proof.
  intros Hlat Hlon Hflat Hflon Hg.
  unfold Advanced.get_country_from_coordinates.
  rewrite Hlat, Hlon, Hflat, Hflon. cbn [orb].
  unfold bind, get_state. cbn beta iota. rewrite Hg.
  destruct (Advanced.get_country_with_geocoding E flat flon 3 s) as [[c|e] s1];
    [|reflexivity].
  destruct (truthy c); reflexivity.
Qed.

(** C8: whatever the service does on a request (a timeout, a service
    error, any other [Exception], an answer without a country),
    [CountryDetector.get_country_from_coordinates] returns a label and
    raises nothing.  When every request for a point that is not cached
    fails, the geocoding layer returns [None], the cache holds [None] for
    the key afterwards, and the label is that of the geographic rules. *)
Theorem C8_network_failure_never_propagates E lat lon s :
  uninterrupted E ->
  exists label,
    fst (Advanced.get_country_from_coordinates E lat lon s) = Ok label
    /\ forall flat flon,
         isna lat = false -> isna lon = false ->
         py_float E lat = Some flat -> py_float E lon = Some flon ->
         use_geocoding s = true ->
         geocoding_cache s !! cache_key 3 flat flon = None ->
         fails_at E flat flon ->
         fst (Advanced.get_country_with_geocoding E flat flon 3 s) = Ok None
         /\ snd (Advanced.get_country_from_coordinates E lat lon s)
            = snd (Advanced.get_country_with_geocoding E flat flon 3 s)
         /\ geocoding_cache (snd (Advanced.get_country_from_coordinates E lat lon s))
              !! cache_key 3 flat flon = Some None
         /\ label = Advanced.get_country_from_geography flat flon.
Proof.
  intros Hun.
  assert (Hl : exists label,
             fst (Advanced.get_country_from_coordinates E lat lon s) = Ok label).
  { destruct (adv_coordinates_cases E lat lon s)
      as [[label Heq]|(flat & flon & _ & _ & _ & _ & _ & Heq)]; rewrite Heq.
    - now exists label.
    - destruct (adv_geocoding_returns E flat flon 3 s Hun) as (r & Hr & _).
      destruct (Advanced.get_country_with_geocoding E flat flon 3 s) as [[r'|e] s1];
        cbn [fst] in *; [eauto | discriminate]. }
  destruct Hl as [label Hl]. exists label. split; [exact Hl|].
  intros flat flon Hlat Hlon Hflat Hflon Hg Hmiss Hfail.
  rewrite (adv_coordinates_online E lat lon flat flon s) in * by assumption.
  destruct (adv_geocoding_returns E flat flon 3 s Hun) as (r & Hr & Hnone).
  specialize (Hnone Hmiss Hfail). subst r.
  pose proof (adv_geocoding_caches E flat flon 3 s None Hr) as Hcached.
  destruct (Advanced.get_country_with_geocoding E flat flon 3 s) as [[r'|e] s1];
    cbn [fst snd] in *; [|discriminate].
  injection Hr as ->. cbn [truthy] in Hl. split_and!; congruence.
Qed.

Lemma C8_witness_service_down :
  uninterrupted always_down
  /\ fails_at always_down (fz 35) (fz 139)
  /\ fst (Advanced.get_country_from_coordinates always_down
            (VFloat (fz 35)) (VFloat (fz 139)) (Advanced.init always_down true))
     = Ok "Japan"
  /\ geocoding_cache
       (snd (Advanced.get_country_from_coordinates always_down
               (VFloat (fz 35)) (VFloat (fz 139)) (Advanced.init always_down true)))
     !! "35.000,139.000" = Some None.
Proof.
  assert (Hun : uninterrupted always_down) by (intros n lat lon; discriminate).
  assert (Hfail : fails_at always_down (fz 35) (fz 139)) by (intros n; exact I).
  destruct (C8_network_failure_never_propagates always_down
              (VFloat (fz 35)) (VFloat (fz 139)) (Advanced.init always_down true)
              Hun) as (label & Hl & Hrest).
  destruct (Hrest (fz 35) (fz 139) eq_refl eq_refl eq_refl eq_refl eq_refl
              eq_refl Hfail) as (_ & _ & Hcache & Hlabel).
  split_and!; [exact Hun | exact Hfail | | exact Hcache].
  rewrite Hl, Hlabel. reflexivity.
Defined.

(** An interrupt is the one exception that leaves the detector. *)
Example interrupt_propagates :
  fst (Advanced.get_country_from_coordinates
         (Collaborators true false (fun _ _ _ => Raises Interrupt)
                        (fun _ => None) (fun _ => None))
         (VFloat (fz 35)) (VFloat (fz 139))
         (State true None ∅ 0 []))
  = Raise Interrupt.
Proof. vm_compute. reflexivity. Qed.

(** ** Uncertain points *)

Lemma comp_geocoding_miss_trace E lat lon R s :
  geocoding_cache s !! cache_key 2 lat lon = None ->
  exists evs,
    trace (snd (Comprehensive.get_country_with_geocoding E lat lon (S R) s))
    = (trace s ++ EvSleep float_0_3 :: EvReverse lat lon 15 :: evs)%list.
Proof.
  intros Hmiss. rewrite (comp_geocoding_miss_eq _ _ _ _ _ Hmiss).
  cbn [seq]. rewrite for_attempts_cons, comp_attempt_body_cases. cbn zeta.
  assert (Hrest : forall c x,
    exists evs,
      trace (snd (match for_attempts
                          (Comprehensive.attempt_body E (cache_key 2 lat lon)
                             lat lon (S R)) (seq 1 R)
                          (advance s c 1
                             ([EvSleep float_0_3; EvReverse lat lon 15] ++ x)) with
                  | (Ok (Some c0), s1) => (Ok (Some c0), s1)
                  | (Ok None, s1) =>
                      (Ok None, snd (cache_set (cache_key 2 lat lon) None s1))
                  | (Raise e, s1) => (@Raise (option string) e, s1)
                  end))
      = (trace s ++ EvSleep float_0_3 :: EvReverse lat lon 15 :: evs)%list).
  { intros c x.
    destruct (comp_for_attempts_effect E lat lon (S R) (seq 1 R) R
                (advance s c 1 ([EvSleep float_0_3; EvReverse lat lon 15] ++ x)))
      as (c' & (n & evs & Hs & _) & _); [left; now rewrite length_seq|].
    destruct (for_attempts _ _ _) as [[[c0|]|e] s1]; cbn [snd] in *; subst s1;
      exists (x ++ evs)%list; cbn; now rewrite <- app_assoc. }
  destruct (reverse E (requests s) lat lon) as [[]|loc].
  1,2: destruct (Z.of_nat 0 <? Z.of_nat (S R) - 1)%Z; [apply Hrest|];
       exists []; reflexivity.
  1,2: exists []; reflexivity.
  destruct (found_country loc) as [c|]; cbn.
  - eexists. reflexivity.
  - exists []. reflexivity.
Qed.

Lemma comp_coordinates_online E lat lon flat flon s :
  isna lat = false -> isna lon = false ->
  py_float E lat = Some flat -> py_float E lon = Some flon ->
  Comprehensive.get_high_confidence_country flat flon = "Uncertain" ->
  use_geocoding s = true ->
  Comprehensive.get_country_from_coordinates E lat lon s =
  match Comprehensive.get_country_with_geocoding E flat flon 2 s with
  | (Ok country, s1) =>
      (Ok (if truthy country
           then default "" (Comprehensive.standardize_country_name E country)
           else Comprehensive.get_detailed_geographical_country flat flon), s1)
  | (Raise e, s1) => (Raise e, s1)
  end.
Proof.
  intros Hlat Hlon Hflat Hflon Hu Hg.
  unfold Comprehensive.get_country_from_coordinates.
  rewrite Hlat, Hlon, Hflat, Hflon. cbn [orb]. cbn zeta.
  rewrite Hu, String.eqb_refl. cbn [negb].
  unfold bind, get_state. cbn beta iota. rewrite Hg.
  destruct (Comprehensive.get_country_with_geocoding E flat flon 2 s)
    as [[c|e] s1]; [|reflexivity].
  destruct (truthy c); reflexivity.
Qed.

Example key_open_pacific : cache_key 2 (fz 0) (fz 160) = "0.00,160.00".
Proof. vm_compute. reflexivity. Qed.

(** C10: the "Central Pacific" test of [is_definitely_ocean] asks for
    [140 <= lon <= -120], which no longitude meets, so the function is
    true through the Atlantic, Indian and polar tests only.  The
    open-Pacific point (0, 160) gets "Uncertain" from
    [get_high_confidence_country], and with geocoding enabled and its key
    not cached the detector then sends a request for it. *)
Theorem C10_central_pacific_unsatisfiable :
  (forall lon, (140 <=! lon <=! -120) = false)
  /\ (forall lat lon,
        Comprehensive.is_definitely_ocean lat lon
        = ((-40 <=! lat <=! 40) && (-50 <=! lon <=! -10))
          || ((-40 <=! lat <=! 20) && (60 <=! lon <=! 100))
          || le_fz lat (-50) || ge_fz lat 75)
  /\ Comprehensive.is_definitely_ocean (fz 0) (fz 160) = false
  /\ Comprehensive.get_high_confidence_country (fz 0) (fz 160) = "Uncertain"
  /\ (forall E s,
        use_geocoding s = true ->
        geocoding_cache s !! cache_key 2 (fz 0) (fz 160) = None ->
        exists evs,
          trace (snd (Comprehensive.get_country_from_coordinates E
                        (VFloat (fz 0)) (VFloat (fz 160)) s))
          = (trace s ++ EvSleep float_0_3 :: EvReverse (fz 0) (fz 160) 15 :: evs)%list).
Proof.
  split_and!.
  - intros lon. apply between_empty. lia.
  - apply comp_definitely_ocean.
  - reflexivity.
  - reflexivity.
  - intros E s Hg Hmiss.
    destruct (comp_geocoding_miss_trace E (fz 0) (fz 160) 1 s Hmiss) as [evs Hevs].
    exists evs. rewrite <- Hevs.
    rewrite (comp_coordinates_online E _ _ (fz 0) (fz 160) s)
      by (reflexivity || assumption).
    destruct (Comprehensive.get_country_with_geocoding E (fz 0) (fz 160) 2 s)
      as [[r|e] s1]; reflexivity.
Qed.

Lemma C10_witness_open_pacific_lookup :
  use_geocoding (Comprehensive.init online_japan true None None) = true
  /\ geocoding_cache (Comprehensive.init online_japan true None None)
       !! "0.00,160.00" = None
  /\ exists evs,
       trace (snd (Comprehensive.get_country_from_coordinates online_japan
                     (VFloat (fz 0)) (VFloat (fz 160))
                     (Comprehensive.init online_japan true None None)))
       = EvSleep float_0_3 :: EvReverse (fz 0) (fz 160) 15 :: evs.
Proof.
  split; [reflexivity|]. split; [reflexivity|].
  exact (proj2 (proj2 (proj2 (proj2 C10_central_pacific_unsatisfiable)))
           online_japan (Comprehensive.init online_japan true None None)
           eq_refl eq_refl).
Defined.

(** ** The batch without a network *)

Lemma adv_coordinates_no_network E lat lon s :
  use_geocoding s = false ->
  Advanced.get_country_from_coordinates E lat lon s
  = (Ok (offline_label Advanced.get_country_from_geography E lat lon), s).
Proof.
  intros Hg. unfold Advanced.get_country_from_coordinates, offline_label.
  destruct (isna lat || isna lon); [reflexivity|].
  destruct (py_float E lat); [|reflexivity].
  destruct (py_float E lon); [|reflexivity].
  unfold bind, get_state. cbn beta iota. now rewrite Hg.
Qed.

Lemma comp_coordinates_no_network E lat lon s :
  use_geocoding s = false ->
  Comprehensive.get_country_from_coordinates E lat lon s
  = (Ok (offline_label comprehensive_rules E lat lon), s).
Proof.
  intros Hg. unfold Comprehensive.get_country_from_coordinates, offline_label,
    comprehensive_rules.
  destruct (isna lat || isna lon); [reflexivity|].
  destruct (py_float E lat) as [flat|]; [|reflexivity].
  destruct (py_float E lon) as [flon|]; [|reflexivity].
  cbn zeta. destruct (negb _); [reflexivity|].
  unfold bind, get_state. cbn beta iota. now rewrite Hg.
Qed.

Lemma adv_process_rows_no_network E out selected s :
  use_geocoding s = false ->
  forall todo done n,
    Advanced.process_rows E out false selected done todo n s
    = (Ok (done ++ map (relabel (offline_label Advanced.get_country_from_geography E)
                                selected) todo)%list, s).
Proof.
  intros Hg. induction todo as [|r todo IH]; intros done n.
  - cbn. now rewrite app_nil_r.
  - cbn [Advanced.process_rows map]. unfold relabel at 1.
    destruct (selected r).
    + unfold bind at 1. rewrite adv_coordinates_no_network by assumption.
      rewrite andb_false_r. unfold bind at 1. cbn [ret].
      rewrite IH, <- app_assoc. reflexivity.
    + rewrite IH, <- app_assoc. reflexivity.
Qed.

















(** What the advanced batch makes of [sample_frame]. *)
Example adv_batch_sample_frame :
  fst (Advanced.process_earthquake_database offline sample_frame
         "database.csv" None false None)
  = Ok (DataFrame true
          [ Row (VFloat (fz 48)) (VFloat (fz 2)) (Some "France");
            Row (VFloat (fz 35)) (VFloat (fz 139)) (Some "Japan");
            Row (VFloat FNan) (VFloat (fz 10)) (Some "Unknown") ]).
Proof. vm_compute. reflexivity. Qed.

(** With [force_update] every row is relabelled, and a label that the
    rules cannot reproduce is lost. *)
Example comp_force_update_relabels :
  fst (Comprehensive.analyze_and_update_database online_japan
         (DataFrame true [Row (VFloat (fz 48)) (VFloat (fz 2)) (Some "France")])
         "database.csv" None false None true None)
  = Ok (DataFrame true
          [Row (VFloat (fz 48)) (VFloat (fz 2)) (Some "Central Europe")]).
Proof. vm_compute. reflexivity. Qed.

(** Without [geopy] the name [time] is unbound and the comprehensive
    batch stops with an exception as soon as a row is to be processed. *)
Example comp_batch_without_geopy :
  fst (Comprehensive.analyze_and_update_database offline sample_frame
         "database.csv" None false None false None)
  = Raise OtherException.
Proof. vm_compute. reflexivity. Qed.

(** * Further properties of the classifiers *)

(** ** Order of comparisons *)

Lemma le_zf_weaken a b x : (b <= a)%Z -> le_zf a x = true -> le_zf b x = true.
Proof.
  intros Hba. destruct x as [|[]| |q]; cbn; try congruence.
  - intros H. apply Z.leb_le in H. apply Z.leb_le. lia.
  - intros H. apply Qle_bool_iff in H. apply Qle_bool_iff.
    eapply Qle_trans; [|exact H]. now rewrite <- Zle_Qle.
Qed.

Lemma le_fz_weaken a b x : (a <= b)%Z -> le_fz x a = true -> le_fz x b = true.
Proof.
  intros Hab. destruct x as [|[]| |q]; cbn; try congruence.
  - intros H. apply Z.leb_le in H. apply Z.leb_le. lia.
  - intros H. apply Qle_bool_iff in H. apply Qle_bool_iff.
    eapply Qle_trans; [exact H|]. now rewrite <- Zle_Qle.
Qed.

(** A float that some comparison accepts is not NaN, and then it is on
    one side of every integer. *)
Lemma le_total_of_le_zf a b x :
  le_zf a x = true -> le_fz x b = true \/ le_zf b x = true.
Proof.
  destruct x as [|[]| |q]; cbn; try congruence; auto.
  - intros _. destruct (Z.le_gt_cases 0 b);
      [left | right]; apply Z.leb_le; lia.
  - intros _. destruct (Qlt_le_dec (inject_Z b) q) as [H|H].
    + right. apply Qle_bool_iff. now apply Qlt_le_weak.
    + left. now apply Qle_bool_iff.
Qed.

Lemma le_total_of_le_fz a b x :
  le_fz x a = true -> le_fz x b = true \/ le_zf b x = true.
Proof.
  destruct x as [|[]| |q]; cbn; try congruence; auto.
  - intros _. destruct (Z.le_gt_cases 0 b);
      [left | right]; apply Z.leb_le; lia.
  - intros _. destruct (Qlt_le_dec (inject_Z b) q) as [H|H].
    + right. apply Qle_bool_iff. now apply Qlt_le_weak.
    + left. now apply Qle_bool_iff.
Qed.

Lemma le_not_ge x a b : (b < a)%Z -> le_fz x b = true -> le_zf a x = false.
Proof.
  intros Hlt H1. destruct (le_zf a x) eqn:H2; [|reflexivity].
  pose proof (le_zf_le_fz_trans _ _ _ H2 H1). lia.
Qed.

Lemma between_sub a b a' b' x :
  (a' <= a)%Z -> (b <= b')%Z -> between a x b = true -> between a' x b' = true.
Proof.
  intros Ha Hb H. apply between_true in H as [H1 H2]. apply between_true.
  split; [eapply le_zf_weaken | eapply le_fz_weaken]; eassumption.
Qed.

Lemma between_below a b x c :
  (c < a)%Z -> le_fz x c = true -> between a x b = false.
Proof.
  intros Hlt H. unfold between. now rewrite (le_not_ge x a c).
Qed.

Lemma between_above a b x c :
  (b < c)%Z -> le_zf c x = true -> between a x b = false.
Proof.
  intros Hlt H. unfold between.
  unfold ge_fz in *. rewrite (ge_not_le x c b) by assumption.
  apply andb_false_r.
Qed.

(** ** The labels of the advanced classifier *)

(** Membership in a list of labels, decided by going through the list. *)
Ltac label_in := solve [cbn; repeat (first [left; reflexivity | right])].

Lemma adv_ocean_label_in lat lon :
  In (Advanced.get_specific_ocean_region lat lon) advanced_ocean_labels.
Proof.
  unfold Advanced.get_specific_ocean_region, advanced_ocean_labels.
  repeat match goal with
  | |- In (if ?c then _ else _) _ => destruct c
  end; label_in.
Qed.

Lemma adv_regional_label_in lat lon :
  In (Advanced.get_regional_fallback lat lon) advanced_regional_labels.
Proof.
  unfold Advanced.get_regional_fallback, advanced_regional_labels.
  repeat match goal with
  | |- In (if ?c then _ else _) _ => destruct c
  end; label_in.
Qed.

Lemma first_match_some (rules : list rule) lat lon label :
  first_match rules lat lon = Some label ->
  exists k rk,
    rules !! k = Some rk /\ in_rule rk lat lon = true /\ label = snd rk
    /\ forall m rm, m < k -> rules !! m = Some rm -> in_rule rm lat lon = false.
Proof.
  induction rules as [|r0 rules IH]; [discriminate|]. cbn.
  destruct (in_rule r0 lat lon) eqn:H0.
  - intros [= <-]. exists 0, r0. split_and!; try reflexivity; try assumption.
    intros m rm Hm. lia.
  - intros H. destruct (IH H) as (k & rk & Hk & Hin & Hl & Hbefore).
    exists (S k), rk. split_and!; try assumption.
    intros [|m] rm Hm Hlm; cbn in Hlm.
    + now injection Hlm as <-.
    + apply (Hbefore m); [lia | assumption].
Qed.

Lemma first_match_none (rules : list rule) lat lon :
  first_match rules lat lon = None ->
  forall k rk, rules !! k = Some rk -> in_rule rk lat lon = false.
Proof.
  induction rules as [|r0 rules IH]; [intros _ k rk; discriminate|]. cbn.
  destruct (in_rule r0 lat lon) eqn:H0; [discriminate|].
  intros H [|k] rk Hk; cbn in Hk.
  - now injection Hk as <-.
  - now apply (IH H k).
Qed.

Lemma adv_geography_label_in lat lon :
  In (Advanced.get_country_from_geography lat lon) advanced_labels.
Proof.
  rewrite geography_first_match. unfold advanced_labels.
  destruct (first_match country_rules lat lon) as [label|] eqn:Hfm.
  - apply first_match_some in Hfm as (k & rk & Hk & _ & -> & _).
    apply in_or_app. left. apply in_map.
    apply list_elem_of_In, list_elem_of_lookup. eauto.
  - apply in_or_app. right. apply in_or_app.
    destruct (Advanced.is_in_ocean lat lon);
      [left; apply adv_ocean_label_in | right; apply adv_regional_label_in].
Qed.

Lemma other_labels_not_countries label :
  In label (advanced_ocean_labels ++ advanced_regional_labels)%list ->
  ~ In label (map snd country_rules).
Proof.
  intros Hin Hc.
  assert (H : forallb (fun l => negb (existsb (String.eqb l) (map snd country_rules)))
                (advanced_ocean_labels ++ advanced_regional_labels) = true)
    by (vm_compute; reflexivity).
  rewrite forallb_forall in H. specialize (H label Hin).
  apply negb_true_iff in H.
  assert (H' : existsb (String.eqb label) (map snd country_rules) = true).
  { apply existsb_exists. exists label. split; [assumption|apply String.eqb_refl]. }
  congruence.
Qed.

(** X1: a country label of the advanced classifier means membership: the
    label of a declared rule is returned exactly for the points that lie
    in the boxes of that rule and in the boxes of no rule declared before
    it. *)
Theorem X1_country_label_iff_first_match lat lon (i : nat) (r : rule) :
  country_rules !! i = Some r ->
  Advanced.get_country_from_geography lat lon = snd r
  <-> in_rule r lat lon = true
      /\ forall m rm, m < i -> country_rules !! m = Some rm ->
                      in_rule rm lat lon = false.
Proof.
  intros Hi. rewrite geography_first_match. split.
  - destruct (first_match country_rules lat lon) as [label|] eqn:Hfm.
    + intros ->.
      apply first_match_some in Hfm as (k & rk & Hk & Hin & Heq & Hbefore).
      assert (k = i).
      { apply (NoDup_lookup (snd <$> country_rules) k i (snd rk)
                 country_labels_distinct).
        - rewrite list_lookup_fmap, Hk. reflexivity.
        - rewrite list_lookup_fmap, Hi. cbn. now rewrite Heq. }
      subst k. assert (rk = r) by congruence. subst rk. now split.
    + intros Heq. exfalso.
      apply (other_labels_not_countries (snd r)).
      * rewrite <- Heq. apply in_or_app.
        destruct (Advanced.is_in_ocean lat lon);
          [left; apply adv_ocean_label_in | right; apply adv_regional_label_in].
      * apply in_map. apply list_elem_of_In, list_elem_of_lookup. eauto.
  - intros [Hin Hbefore].
    destruct (first_match_least country_rules lat lon i r Hi Hin)
      as (k & rk & Hk & Hlk & Hink & _ & ->).
    destruct (decide (k = i)) as [->|Hne]; [congruence|].
    rewrite (Hbefore k rk) in Hink by (assumption || lia). discriminate.
Qed.

Lemma X1_witness_japan :
  country_rules !! 3 = Some ([(24, 46, 122, 146)]%Z, "Japan")
  /\ Advanced.get_country_from_geography (fz 35) (fz 139) = "Japan"
  /\ in_rule ([(24, 46, 122, 146)]%Z, "Japan") (fz 35) (fz 139) = true.
Proof.
  split; [reflexivity|]. split; [reflexivity|].
  exact (proj1 (proj1 (X1_country_label_iff_first_match (fz 35) (fz 139) 3
                         ([(24, 46, 122, 146)]%Z, "Japan") eq_refl) eq_refl)).
Defined.

Lemma offline_label_unknown_iff classify E lat lon :
  (forall flat flon, classify flat flon <> "Unknown") ->
  offline_label classify E lat lon = "Unknown" <-> invalid_input E lat lon.
Proof.
  intros Hc. unfold offline_label, invalid_input.
  destruct (isna lat) eqn:Hlat; [cbn; tauto|].
  destruct (isna lon) eqn:Hlon; [cbn; tauto|]. cbn [orb].
  destruct (py_float E lat) as [flat|]; [|tauto].
  destruct (py_float E lon) as [flon|]; [|tauto].
  split; [intros H; now apply Hc in H | intros [H|[H|[H|H]]]; discriminate].
Qed.

Lemma offline_label_in classify E lat lon (labels : list string) :
  (forall flat flon, In (classify flat flon) labels) ->
  offline_label classify E lat lon = "Unknown"
  \/ In (offline_label classify E lat lon) labels.
Proof.
  intros Hc. unfold offline_label.
  destruct (isna lat || isna lon); [now left|].
  destruct (py_float E lat) as [flat|]; [|now left].
  destruct (py_float E lon) as [flon|]; [|now left].
  right. apply Hc.
Qed.

Lemma not_in_labels (label : string) (labels : list string) :
  existsb (String.eqb label) labels = false -> ~ In label labels.
Proof.
  intros H Hin.
  assert (existsb (String.eqb label) labels = true); [|congruence].
  apply existsb_exists. exists label. split; [assumption | apply String.eqb_refl].
Qed.

(** X2: without geocoding the advanced detector answers "Unknown"
    exactly for the inputs it rejects (a missing or NaN cell, a cell that
    [float] does not convert); every other answer is one of the labels of
    the rule tables, and the detector is left as it was. *)
Theorem X2_advanced_unknown_iff_invalid E lat lon s :
  use_geocoding s = false ->
  exists label,
    Advanced.get_country_from_coordinates E lat lon s = (Ok label, s)
    /\ (label = "Unknown" <-> invalid_input E lat lon)
    /\ (label = "Unknown" \/ In label advanced_labels).
Proof.
  intros Hg. eexists. split; [now apply adv_coordinates_no_network|]. split.
  - apply offline_label_unknown_iff. intros flat flon Heq.
    apply (not_in_labels "Unknown" advanced_labels); [reflexivity|].
    rewrite <- Heq. apply adv_geography_label_in.
  - apply offline_label_in. apply adv_geography_label_in.
Qed.

Lemma X2_witness_string_cell :
  use_geocoding (Advanced.init offline false) = false
  /\ invalid_input offline (VStr "n/a") (VFloat (fz 10))
  /\ fst (Advanced.get_country_from_coordinates offline (VStr "n/a")
            (VFloat (fz 10)) (Advanced.init offline false))
     = Ok "Unknown".
Proof.
  assert (Hinv : invalid_input offline (VStr "n/a") (VFloat (fz 10)))
    by (right; right; left; reflexivity).
  split; [reflexivity|]. split; [exact Hinv|].
  destruct (X2_advanced_unknown_iff_invalid offline (VStr "n/a")
              (VFloat (fz 10)) (Advanced.init offline false) eq_refl)
    as (label & Hrun & Hiff & _).
  rewrite Hrun. cbn [fst]. f_equal. now apply Hiff.
Defined.

(** ** The labels of the comprehensive classifier *)

Lemma comp_ocean_name_in lat lon :
  In (Comprehensive.get_ocean_name lat lon) comprehensive_ocean_labels.
Proof.
  unfold Comprehensive.get_ocean_name, comprehensive_ocean_labels.
  repeat match goal with
  | |- In (if ?c then _ else _) _ => destruct c
  end; label_in.
Qed.

Lemma comp_high_confidence_in lat lon :
  Comprehensive.get_high_confidence_country lat lon = "Uncertain"
  \/ In (Comprehensive.get_high_confidence_country lat lon) comprehensive_labels.
Proof.
  unfold Comprehensive.get_high_confidence_country.
  repeat match goal with
  | |- _ \/ In (if ?c then _ else _) _ => destruct c
  end; try (right; unfold comprehensive_labels; label_in); try (now left).
  right. unfold comprehensive_labels. apply in_or_app. right.
  apply in_or_app. left. apply comp_ocean_name_in.
Qed.

Lemma comp_detailed_in lat lon :
  In (Comprehensive.get_detailed_geographical_country lat lon)
     comprehensive_labels.
Proof.
  unfold Comprehensive.get_detailed_geographical_country,
    Comprehensive.get_regional_classification.
  repeat match goal with
  | |- In (if ?c then _ else _) _ => destruct c
  end; try (unfold comprehensive_labels; label_in).
  unfold comprehensive_labels. apply in_or_app. right.
  apply in_or_app. left. apply comp_ocean_name_in.
Qed.

Lemma comprehensive_rules_in lat lon :
  In (comprehensive_rules lat lon) comprehensive_labels.
Proof.
  unfold comprehensive_rules.
  destruct (negb _) eqn:Hu; [|apply comp_detailed_in].
  destruct (comp_high_confidence_in lat lon) as [H|H]; [|exact H].
  rewrite H in Hu. discriminate.
Qed.

(** X3: without geocoding the comprehensive detector answers "Unknown"
    exactly for the inputs it rejects; every other answer is a label of
    its rule tables, so the sentinel "Uncertain" of the high-confidence
    pass never comes out as a label. *)
Theorem X3_comprehensive_unknown_iff_invalid E lat lon s :
  use_geocoding s = false ->
  exists label,
    Comprehensive.get_country_from_coordinates E lat lon s = (Ok label, s)
    /\ (label = "Unknown" <-> invalid_input E lat lon)
    /\ (label = "Unknown" \/ In label comprehensive_labels)
    /\ label <> "Uncertain".
Proof.
  intros Hg. eexists. split; [now apply comp_coordinates_no_network|].
  assert (Hin : offline_label comprehensive_rules E lat lon = "Unknown"
                \/ In (offline_label comprehensive_rules E lat lon)
                      comprehensive_labels)
    by (apply offline_label_in, comprehensive_rules_in).
  split_and!.
  - apply offline_label_unknown_iff. intros flat flon Heq.
    apply (not_in_labels "Unknown" comprehensive_labels); [reflexivity|].
    rewrite <- Heq. apply comprehensive_rules_in.
  - exact Hin.
  - intros Heq. destruct Hin as [H|H]; [congruence|].
    rewrite Heq in H.
    now apply (not_in_labels "Uncertain" comprehensive_labels) in H.
Qed.

Lemma X3_witness_open_pacific :
  use_geocoding (Comprehensive.init offline false None None) = false
  /\ Comprehensive.get_high_confidence_country (fz 0) (fz 160) = "Uncertain"
  /\ exists label,
       fst (Comprehensive.get_country_from_coordinates offline
              (VFloat (fz 0)) (VFloat (fz 160))
              (Comprehensive.init offline false None None))
       = Ok label
       /\ label <> "Uncertain".
Proof.
  split; [reflexivity|]. split; [reflexivity|].
  destruct (X3_comprehensive_unknown_iff_invalid offline (VFloat (fz 0))
              (VFloat (fz 160)) (Comprehensive.init offline false None None)
              eq_refl)
    as (label & Hrun & _ & _ & Hne).
  exists label. rewrite Hrun. now split.
Defined.

(** ** Boxes that other boxes cover *)

Lemma great_lakes_in_us lat lon :
  (41 <=! lat <=! 49) && (-93 <=! lon <=! -76) = true ->
  Advanced.get_country_from_geography lat lon = "United States".
Proof.
  intros H. apply andb_true_iff in H as [Hlat Hlon].
  unfold Advanced.get_country_from_geography.
  rewrite (between_sub 41 49 25 49 lat) by (lia || assumption).
  rewrite (between_sub (-93) (-76) (-125) (-66) lon) by (lia || assumption).
  reflexivity.
Qed.

Lemma black_sea_in_turkey_or_russia lat lon :
  (40 <=! lat <=! 48) && (27 <=! lon <=! 42) = true ->
  in_rule ([(36, 42, 26, 45)]%Z, "Turkey") lat lon = true
  \/ in_rule ([(41, 82, 19, 180)]%Z, "Russia") lat lon = true.
Proof.
  intros H. apply andb_true_iff in H as [Hlat Hlon].
  pose proof Hlat as Hlat'. apply between_true in Hlat' as [Hlo Hhi].
  unfold in_rule, in_box; cbn [fst existsb]. rewrite !orb_false_r.
  destruct (le_total_of_le_zf 40 41 lat Hlo) as [H41|H41].
  - left. apply andb_true_iff. split.
    + apply between_true. split;
        [now apply (le_zf_weaken 40) | now apply (le_fz_weaken 41)].
    + now apply (between_sub 27 42).
  - right. apply andb_true_iff. split.
    + apply between_true. split;
        [assumption | now apply (le_fz_weaken 48)].
    + now apply (between_sub 27 42).
Qed.

(** X4: two water tests of the advanced classifier never decide a label.
    Every point of the Great Lakes box is "United States", and every
    point of the Black Sea box lies in the Turkey or the Russia box, so
    "Black Sea" is a label that [get_country_from_geography] never
    returns. *)
Theorem X4_black_sea_never_returned :
  (forall lat lon,
     (41 <=! lat <=! 49) && (-93 <=! lon <=! -76) = true ->
     Advanced.get_country_from_geography lat lon = "United States")
  /\ (forall lat lon,
        (40 <=! lat <=! 48) && (27 <=! lon <=! 42) = true ->
        In (Advanced.get_country_from_geography lat lon) (map snd country_rules))
  /\ (forall lat lon, Advanced.get_country_from_geography lat lon <> "Black Sea").
Proof.
  assert (Hcovered : forall lat lon,
    (40 <=! lat <=! 48) && (27 <=! lon <=! 42) = true ->
    first_match country_rules lat lon <> None).
  { intros lat lon H Hnone.
    pose proof (first_match_none _ _ _ Hnone) as Hall.
    destruct (black_sea_in_turkey_or_russia lat lon H) as [Ht|Hr].
    - rewrite (Hall 8 _ eq_refl) in Ht. discriminate.
    - rewrite (Hall 13 _ eq_refl) in Hr. discriminate. }
  split_and!.
  - apply great_lakes_in_us.
  - intros lat lon H. specialize (Hcovered lat lon H).
    rewrite geography_first_match.
    destruct (first_match country_rules lat lon) as [label|] eqn:Hfm;
      [|congruence].
    apply first_match_some in Hfm as (k & rk & Hk & _ & -> & _).
    apply in_map. apply list_elem_of_In, list_elem_of_lookup. eauto.
  - intros lat lon. rewrite geography_first_match.
    destruct (first_match country_rules lat lon) as [label|] eqn:Hfm.
    + apply first_match_some in Hfm as (k & rk & Hk & _ & -> & _).
      intros Heq.
      apply (other_labels_not_countries "Black Sea"); [label_in|].
      rewrite <- Heq. apply in_map.
      apply list_elem_of_In, list_elem_of_lookup. eauto.
    + destruct (Advanced.is_in_ocean lat lon).
      * destruct ((40 <=! lat <=! 48) && (27 <=! lon <=! 42)) eqn:Hbs;
          [now apply Hcovered in Hbs|].
        unfold Advanced.get_specific_ocean_region. rewrite Hbs.
        repeat match goal with
        | |- (if ?c then _ else _) <> _ => destruct c
        end; discriminate.
      * intros Heq.
        apply (not_in_labels "Black Sea" advanced_regional_labels);
          [reflexivity|].
        rewrite <- Heq. apply adv_regional_label_in.
Qed.

Lemma X4_witness_black_sea_points :
  (41 <=! fz 45 <=! 49) && (-93 <=! fz (-85) <=! -76) = true
  /\ Advanced.get_country_from_geography (fz 45) (fz (-85)) = "United States"
  /\ (40 <=! fz 43 <=! 48) && (27 <=! fz 34 <=! 42) = true
  /\ In (Advanced.get_country_from_geography (fz 43) (fz 34))
        (map snd country_rules).
Proof.
  destruct X4_black_sea_never_returned as (Hlakes & Hsea & _).
  split; [reflexivity|]. split; [now apply Hlakes|].
  split; [reflexivity|]. now apply Hsea.
Defined.

(** ** Ocean and land in the advanced classifier *)

Lemma is_in_ocean_loop_spec (regions : list box) lat lon :
  Advanced.is_in_ocean_loop regions lat lon
  = if in_some_box regions lat lon
    then Advanced.is_major_sea_or_lake lat lon else true.
Proof.
  induction regions as [|[[[lat_min lat_max] lon_min] lon_max] regions IH];
    [reflexivity|].
  cbn [Advanced.is_in_ocean_loop in_some_box existsb in_box].
  destruct ((lat_min <=! lat <=! lat_max) && (lon_min <=! lon <=! lon_max)).
  - cbn. now destruct (Advanced.is_major_sea_or_lake lat lon).
  - cbn. exact IH.
Qed.

(** X5: the advanced classifier gives an ocean or sea label exactly to
    the points that no country rule holds and that lie outside the six
    land boxes or inside one of the four water boxes; which land box is
    found first makes no difference. *)
Theorem X5_ocean_label_iff lat lon :
  In (Advanced.get_country_from_geography lat lon) advanced_ocean_labels
  <-> first_match country_rules lat lon = None
      /\ (in_some_box Advanced.land_regions lat lon = false
          \/ Advanced.is_major_sea_or_lake lat lon = true).
Proof.
  rewrite geography_first_match. unfold Advanced.is_in_ocean.
  rewrite is_in_ocean_loop_spec.
  destruct (first_match country_rules lat lon) as [label|] eqn:Hfm.
  - split; [|intros [? _]; discriminate].
    intros Hin. exfalso.
    apply first_match_some in Hfm as (k & rk & Hk & _ & -> & _).
    apply (other_labels_not_countries (snd rk));
      [apply in_or_app; now left|].
    apply in_map. apply list_elem_of_In, list_elem_of_lookup. eauto.
  - destruct (in_some_box Advanced.land_regions lat lon).
    + destruct (Advanced.is_major_sea_or_lake lat lon).
      * split; [auto | intros _; apply adv_ocean_label_in].
      * split; [|intros [_ [H|H]]; discriminate].
        intros Hin. exfalso.
        pose proof (adv_regional_label_in lat lon) as Hr.
        assert (Hd : forallb (fun l => negb (existsb (String.eqb l)
                                               advanced_regional_labels))
                        advanced_ocean_labels = true) by (vm_compute; reflexivity).
        rewrite forallb_forall in Hd. specialize (Hd _ Hin).
        apply negb_true_iff in Hd. now apply not_in_labels in Hd.
    + split; [auto | intros _; apply adv_ocean_label_in].
Qed.

Lemma X5_witness_open_pacific :
  first_match country_rules (fz 0) (fz (-160)) = None
  /\ in_some_box Advanced.land_regions (fz 0) (fz (-160)) = false
  /\ In (Advanced.get_country_from_geography (fz 0) (fz (-160)))
        advanced_ocean_labels.
Proof.
  split; [reflexivity|]. split; [reflexivity|].
  apply (proj2 (X5_ocean_label_iff (fz 0) (fz (-160)))).
  split; [reflexivity | left; reflexivity].
Defined.

(** ** The southern latitudes in the comprehensive detector *)

Lemma comp_high_confidence_south lat lon :
  le_fz lat (-50) = true ->
  Comprehensive.get_high_confidence_country lat lon = "Southern Ocean".
Proof.
  intros H. unfold Comprehensive.get_high_confidence_country.
  rewrite !(fun a b Hlt => between_below a b lat (-50) Hlt H) by lia.
  cbn [andb orb].
  rewrite comp_definitely_ocean, H, orb_true_r. cbn [orb].
  now apply comp_ocean_southern.
Qed.

Lemma comp_rules_not_antarctica lat lon :
  comprehensive_rules lat lon <> "Antarctica".
Proof.
  destruct (le_fz lat (-50)) eqn:Hs.
  - unfold comprehensive_rules. rewrite (comp_high_confidence_south _ _ Hs).
    cbn. discriminate.
  - assert (H60 : le_fz lat (-60) = false).
    { destruct (le_fz lat (-60)) eqn:H; [|reflexivity].
      apply (le_fz_weaken (-60) (-50)) in H; [congruence | lia]. }
    unfold comprehensive_rules. destruct (negb _) eqn:Hu.
    + intros Heq. destruct (comp_high_confidence_in lat lon) as [H|H].
      * rewrite H in Hu. discriminate.
      * rewrite Heq in H. revert H.
        unfold Comprehensive.get_high_confidence_country in Heq.
        revert Heq.
        repeat match goal with
        | |- (if ?c then _ else _) = _ -> _ => destruct c; [discriminate|]
        end.
        destruct (Comprehensive.is_definitely_ocean lat lon); [|discriminate].
        intros Heq _.
        apply (not_in_labels "Antarctica" comprehensive_ocean_labels);
          [reflexivity|].
        rewrite <- Heq. apply comp_ocean_name_in.
    + unfold Comprehensive.get_detailed_geographical_country,
        Comprehensive.get_regional_classification. rewrite H60.
      repeat match goal with
      | |- (if ?c then _ else _) <> _ => destruct c; try discriminate
      end.
      intros Heq.
      apply (not_in_labels "Antarctica" comprehensive_ocean_labels);
        [reflexivity|].
      rewrite <- Heq. apply comp_ocean_name_in.
Qed.

(** X6: in the comprehensive detector every numeric point at latitude
    -50 or below is "Southern Ocean", with or without geocoding and
    without a request: no high-confidence country box reaches that far
    south, so the Chile and Argentina boxes of the detailed rules stop
    at -50 in effect, and the label "Antarctica" of the regional rules is
    never the answer of the rules. *)
Theorem X6_south_of_50_is_southern_ocean :
  (forall E lat lon flat flon s,
     isna lat = false -> isna lon = false ->
     py_float E lat = Some flat -> py_float E lon = Some flon ->
     le_fz flat (-50) = true ->
     Comprehensive.get_country_from_coordinates E lat lon s
     = (Ok "Southern Ocean", s))
  /\ (forall E lat lon s,
        use_geocoding s = false ->
        fst (Comprehensive.get_country_from_coordinates E lat lon s)
        <> Ok "Antarctica").
Proof.
  split.
  - intros E lat lon flat flon s Hlat Hlon Hflat Hflon Hs.
    rewrite (comp_high_confidence E lat lon flat flon s) by
      (try assumption; rewrite (comp_high_confidence_south _ _ Hs); discriminate).
    now rewrite (comp_high_confidence_south _ _ Hs).
  - intros E lat lon s Hg. rewrite comp_coordinates_no_network by assumption.
    cbn [fst]. intros [= Heq]. revert Heq. unfold offline_label.
    destruct (isna lat || isna lon); [discriminate|].
    destruct (py_float E lat); [|discriminate].
    destruct (py_float E lon); [|discriminate].
    apply comp_rules_not_antarctica.
Qed.

Lemma X6_witness_tierra_del_fuego :
  le_fz (fz (-54)) (-50) = true
  /\ Comprehensive.get_detailed_geographical_country (fz (-54)) (fz (-70)) = "Chile"
  /\ Comprehensive.get_country_from_coordinates online_japan
       (VFloat (fz (-54))) (VFloat (fz (-70)))
       (Comprehensive.init online_japan true None None)
     = (Ok "Southern Ocean", Comprehensive.init online_japan true None None)
  /\ use_geocoding (Comprehensive.init offline false None None) = false.
Proof.
  split; [reflexivity|]. split; [reflexivity|]. split; [|reflexivity].
  apply (proj1 X6_south_of_50_is_southern_ocean online_japan
           (VFloat (fz (-54))) (VFloat (fz (-70))) (fz (-54)) (fz (-70)));
    reflexivity.
Defined.

(** ** High-confidence ocean labels *)

Lemma comp_definitely_ocean_name lat lon :
  Comprehensive.is_definitely_ocean lat lon = true ->
  In (Comprehensive.get_ocean_name lat lon)
     [ "Southern Ocean"; "Arctic Ocean"; "Indian Ocean";
       "North Atlantic Ocean"; "South Atlantic Ocean" ].
Proof.
  rewrite comp_definitely_ocean. unfold Comprehensive.get_ocean_name.
  destruct (le_fz lat (-50)); [intros _; label_in|].
  destruct (ge_fz lat 75); [intros _; label_in|].
  destruct ((60 <=! lon <=! 100) && le_fz lat 20) eqn:Hi; [intros _; label_in|].
  destruct (-50 <=! lon <=! -10);
    [intros _; destruct (ge_fz lat 0); label_in|].
  rewrite andb_false_r, !orb_false_r. cbn [orb]. intros H.
  apply andb_true_iff in H as [Hlat Hlon].
  apply between_true in Hlat as [_ Hlat].
  rewrite Hlon, Hlat in Hi. discriminate.
Qed.

(** X7: the high-confidence pass never names the Pacific.  Its ocean
    branch returns "Southern Ocean", "Arctic Ocean", "Indian Ocean",
    "North Atlantic Ocean" or "South Atlantic Ocean" only; the Pacific
    names and the bare "Ocean" of [get_ocean_name] can come from the
    ocean fallback of the regional rules alone. *)
Theorem X7_high_confidence_never_pacific lat lon :
  Comprehensive.get_high_confidence_country lat lon <> "North Pacific Ocean"
  /\ Comprehensive.get_high_confidence_country lat lon <> "South Pacific Ocean"
  /\ Comprehensive.get_high_confidence_country lat lon <> "Ocean".
Proof.
  unfold Comprehensive.get_high_confidence_country.
  repeat match goal with
  | |- context [if ?c then "United States" else _] => destruct c
  | |- context [if ?c then "Canada" else _] => destruct c
  | |- context [if ?c then "Russia" else _] => destruct c
  | |- context [if ?c then "China" else _] => destruct c
  | |- context [if ?c then "Australia" else _] => destruct c
  | |- context [if ?c then "Japan" else _] => destruct c
  | |- context [if ?c then "Indonesia" else _] => destruct c
  | |- context [if ?c then "Brazil" else _] => destruct c
  end; try (split_and!; discriminate).
  destruct (Comprehensive.is_definitely_ocean lat lon) eqn:Ho;
    [|split_and!; discriminate].
  pose proof (comp_definitely_ocean_name lat lon Ho) as Hin.
  split_and!; intros Heq; rewrite Heq in Hin; cbn in Hin;
    repeat destruct Hin as [Hin|Hin]; try discriminate; contradiction.
Qed.

Example comp_pacific_from_fallback :
  Comprehensive.get_detailed_geographical_country (fz 0) (fz 160)
  = "North Pacific Ocean".
Proof. reflexivity. Qed.

(** * Further properties of the cache *)

Lemma call_effect_state {A} d b s (out : result A * state) :
  call_effect d b s out ->
  use_geocoding (snd out) = use_geocoding s
  /\ cache_file (snd out) = cache_file s
  /\ forall k v, geocoding_cache s !! k = Some v ->
                 geocoding_cache (snd out) !! k = Some v.
Proof.
  intros [->|(lat & lon & c' & Hmiss & (n & evs & -> & _) & Hres)]; [auto|].
  cbn [advance use_geocoding cache_file geocoding_cache].
  split_and!; try reflexivity. intros k v Hk.
  destruct (fst out).
  - destruct Hres as [r ->].
    rewrite lookup_insert_ne; [assumption|]. intros <-. congruence.
  - now subst c'.
Qed.

Section Stability.

Variable d : nat.
Variable resolve : pyval -> pyval -> M string.
Variable geocode : pyfloat -> pyfloat -> nat -> M (option string).
Variable B : nat.
Hypothesis resolve_effect :
  forall lat lon s, call_effect d B s (resolve lat lon s).
Hypothesis geocode_effect :
  forall lat lon r s, call_effect d (Nat.max B r) s (geocode lat lon r s).

Lemma run_calls_state (calls : list call) :
  forall s,
    use_geocoding (snd (run_calls resolve geocode calls s)) = use_geocoding s
    /\ cache_file (snd (run_calls resolve geocode calls s)) = cache_file s
    /\ forall k v, geocoding_cache s !! k = Some v ->
                   geocoding_cache (snd (run_calls resolve geocode calls s)) !! k
                   = Some v.
Proof.
  induction calls as [|c calls IH]; intros s; [cbn; auto|].
  assert (Hstep : forall {A} b (m : M A),
    call_effect d b s (m s) ->
    use_geocoding (snd ((do! m in run_calls resolve geocode calls) s))
    = use_geocoding s
    /\ cache_file (snd ((do! m in run_calls resolve geocode calls) s))
       = cache_file s
    /\ forall k v, geocoding_cache s !! k = Some v ->
         geocoding_cache (snd ((do! m in run_calls resolve geocode calls) s)) !! k
         = Some v).
  { intros A b m Hm. apply call_effect_state in Hm as (Hu & Hf & Hc).
    unfold bind. destruct (m s) as [[a|e] s1]; cbn [snd] in *.
    - destruct (IH s1) as (Hu1 & Hf1 & Hc1).
      split_and!; [congruence | congruence | auto].
    - auto. }
  destruct c as [lat lon|lat lon r]; cbn [run_calls]; eapply Hstep.
  - apply resolve_effect.
  - apply geocode_effect.
Qed.

End Stability.

(** X8: cache entries never expire and are never overwritten within a
    run: over any sequence of calls on either detector, a key that is
    cached keeps its entry, positive or negative, and the switches
    [use_geocoding] and [cache_file] of the detector keep their value. *)
Theorem X8_cache_entries_are_stable E calls s k v :
  geocoding_cache s !! k = Some v ->
  (geocoding_cache
     (snd (run_calls (Advanced.get_country_from_coordinates E)
                     (Advanced.get_country_with_geocoding E) calls s)) !! k
   = Some v
   /\ use_geocoding
        (snd (run_calls (Advanced.get_country_from_coordinates E)
                        (Advanced.get_country_with_geocoding E) calls s))
      = use_geocoding s)
  /\ (geocoding_cache
        (snd (run_calls (Comprehensive.get_country_from_coordinates E)
                        (Comprehensive.get_country_with_geocoding E) calls s)) !! k
      = Some v
      /\ use_geocoding
           (snd (run_calls (Comprehensive.get_country_from_coordinates E)
                           (Comprehensive.get_country_with_geocoding E) calls s))
         = use_geocoding s
      /\ cache_file
           (snd (run_calls (Comprehensive.get_country_from_coordinates E)
                           (Comprehensive.get_country_with_geocoding E) calls s))
         = cache_file s).
Proof.
  intros Hk. split.
  - destruct (run_calls_state 3
                (Advanced.get_country_from_coordinates E)
                (Advanced.get_country_with_geocoding E) 3
                (fun lat lon s0 =>
                   adv_resolve_call_effect E lat lon s0 3 (or_introl (le_n 3)))
                (fun lat lon r s0 =>
                   adv_geocode_call_effect E lat lon r s0 (Nat.max 3 r)
                     (or_introl (Nat.le_max_r 3 r)))
                calls s) as (Hu & _ & Hc).
    split; [now apply Hc | exact Hu].
  - destruct (run_calls_state 2
                (Comprehensive.get_country_from_coordinates E)
                (Comprehensive.get_country_with_geocoding E) 2
                (fun lat lon s0 =>
                   comp_resolve_call_effect E lat lon s0 2 (or_introl (le_n 2)))
                (fun lat lon r s0 =>
                   comp_geocode_call_effect E lat lon r s0 (Nat.max 2 r)
                     (or_introl (Nat.le_max_r 2 r)))
                calls s) as (Hu & Hf & Hc).
    split_and!; [now apply Hc | exact Hu | exact Hf].
Qed.

Lemma X8_witness_stored_entry :
  geocoding_cache (State true None (<["35.000,139.000" := None]> ∅) 0 [])
    !! "35.000,139.000" = Some None
  /\ geocoding_cache
       (snd (run_calls (Advanced.get_country_from_coordinates online_japan)
                       (Advanced.get_country_with_geocoding online_japan)
                       [Resolve (VFloat (fz 35)) (VFloat (fz 139));
                        Resolve (VFloat (fz 36)) (VFloat (fz 140))]
                       (State true None (<["35.000,139.000" := None]> ∅) 0 [])))
     !! "35.000,139.000" = Some None.
Proof.
  assert (Hk : geocoding_cache
                 (State true None (<["35.000,139.000" := None]> ∅) 0 [])
               !! "35.000,139.000" = Some None) by reflexivity.
  split; [exact Hk|].
  apply (X8_cache_entries_are_stable online_japan _
           (State true None (<["35.000,139.000" := None]> ∅) 0 [])
           "35.000,139.000" None Hk).
Defined.

(** X9: asking again changes nothing.  When [get_country_from_coordinates]
    has returned a label, the same call on the detector it left returns
    the same label and leaves the detector untouched: no request, no
    pause, no new cache entry.  This holds for both detectors, also
    after a failed lookup, whose negative entry sends the second call to
    the rules. *)
Theorem X9_repeated_resolve_is_stable E lat lon s label s1 :
  (Advanced.get_country_from_coordinates E lat lon s = (Ok label, s1) ->
   Advanced.get_country_from_coordinates E lat lon s1 = (Ok label, s1))
  /\ (Comprehensive.get_country_from_coordinates E lat lon s = (Ok label, s1) ->
      Comprehensive.get_country_from_coordinates E lat lon s1 = (Ok label, s1)).
Proof.
  split.
  - destruct (adv_coordinates_cases E lat lon s)
      as [[l Heq]|(flat & flon & Hlat & Hlon & Hflat & Hflon & Hg & Heq)].
    + rewrite Heq. intros [= -> <-]. exact Heq.
    + rewrite Heq.
      pose proof (adv_geocoding_caches E flat flon 3 s) as Hcached.
      pose proof (call_effect_state 3 3 s _
                    (adv_geocode_call_effect E flat flon 3 s 3
                       (or_introl (le_n 3)))) as (Hu & _ & _).
      destruct (Advanced.get_country_with_geocoding E flat flon 3 s)
        as [[r|e] s'] eqn:Hrun; [|discriminate].
      cbn [fst snd] in *. intros [= <- <-].
      rewrite (adv_coordinates_online E lat lon flat flon s')
        by (try assumption; congruence).
      now rewrite (adv_geocoding_hit E flat flon 3 s' r (Hcached r eq_refl)).
  - destruct (comp_coordinates_cases E lat lon s)
      as [[l Heq]|(flat & flon & Hlat & Hlon & Hflat & Hflon & Hg & Hu' & Heq)].
    + rewrite Heq. intros [= -> <-]. exact Heq.
    + rewrite Heq.
      pose proof (comp_geocoding_caches E flat flon 2 s) as Hcached.
      pose proof (call_effect_state 2 2 s _
                    (comp_geocode_call_effect E flat flon 2 s 2
                       (or_introl (le_n 2)))) as (Hu & _ & _).
      destruct (Comprehensive.get_country_with_geocoding E flat flon 2 s)
        as [[r|e] s'] eqn:Hrun; [|discriminate].
      cbn [fst snd] in *. intros [= <- <-].
      rewrite (comp_coordinates_online E lat lon flat flon s')
        by (try assumption; congruence).
      now rewrite (comp_geocoding_hit E flat flon 2 s' r (Hcached r eq_refl)).
Qed.

Lemma X9_witness_after_failure :
  fst (Advanced.get_country_from_coordinates always_down
         (VFloat (fz 35)) (VFloat (fz 139)) (Advanced.init always_down true))
  = Ok "Japan"
  /\ Advanced.get_country_from_coordinates always_down
       (VFloat (fz 35)) (VFloat (fz 139))
       (snd (Advanced.get_country_from_coordinates always_down
               (VFloat (fz 35)) (VFloat (fz 139)) (Advanced.init always_down true)))
     = (Ok "Japan",
        snd (Advanced.get_country_from_coordinates always_down
               (VFloat (fz 35)) (VFloat (fz 139)) (Advanced.init always_down true))).
Proof.
  split; [vm_compute; reflexivity|].
  apply (proj1 (X9_repeated_resolve_is_stable always_down
                  (VFloat (fz 35)) (VFloat (fz 139))
                  (Advanced.init always_down true) "Japan" _)).
  vm_compute. reflexivity.
Defined.

(** * Pauses and backoff *)

Lemma polite_from_paused pause tr :
  polite_from pause false tr = true -> polite_from pause true tr = true.
Proof.
  destruct tr as [|[] tr]; cbn; try tauto. intros H. discriminate.
Qed.

Lemma polite_from_app pause paused (a b : list event) :
  polite_from pause paused a = true -> polite pause b = true ->
  polite_from pause paused (a ++ b) = true.
Proof.
  unfold polite. revert paused.
  induction a as [|e a IH]; intros paused Ha Hb.
  - cbn. destruct paused; [now apply polite_from_paused | exact Hb].
  - destruct e; cbn in *; try (now apply IH).
    apply andb_true_iff in Ha as [-> Ha]. cbn. now apply IH.
Qed.

Lemma polite_app pause (a b : list event) :
  polite pause a = true -> polite pause b = true ->
  polite pause (a ++ b) = true.
Proof. apply polite_from_app. Qed.

Lemma total_sleep_app (a b : list event) :
  (total_sleep (a ++ b) == total_sleep a + total_sleep b)%Q.
Proof.
  induction a as [|e a IH]; cbn; [lra|].
  destruct e; cbn; lra.
Qed.

Lemma backoff_nonneg (a : nat) : (0 <= inject_Z (2 ^ Z.of_nat a))%Q.
Proof.
  change 0%Q with (inject_Z 0). rewrite <- Zle_Qle.
  apply Z.pow_nonneg. lia.
Qed.

Lemma sleep_budget_nonneg pause R attempts :
  (0 <= pause)%Q -> (0 <= sleep_budget pause R attempts)%Q.
Proof.
  intros Hp. induction attempts as [|a attempts IH]; cbn; [lra|].
  pose proof (backoff_nonneg a).
  destruct (Z.of_nat a <? Z.of_nat R - 1)%Z; lra.
Qed.

Lemma float_0_2_nonneg : (0 <= float_0_2)%Q.
Proof. unfold float_0_2. apply Qle_bool_iff. reflexivity. Qed.

Lemma float_0_3_nonneg : (0 <= float_0_3)%Q.
Proof. unfold float_0_3. apply Qle_bool_iff. reflexivity. Qed.

Lemma loop_trace_nil pause R attempts s :
  (0 <= pause)%Q -> loop_trace pause R attempts s s.
Proof.
  intros Hp. exists []. split_and!; [now rewrite app_nil_r | reflexivity|].
  cbn. now apply sleep_budget_nonneg.
Qed.

(** An attempt that ends the loop: the pause, the request and events
    [x] without a pause. *)
Lemma loop_trace_last pause R a attempts s c (x : list event) lat lon t :
  (0 <= pause)%Q ->
  polite pause (EvSleep pause :: EvReverse lat lon t :: x) = true ->
  (total_sleep x == 0)%Q ->
  loop_trace pause R (a :: attempts) s
    (advance s c 1 (EvSleep pause :: EvReverse lat lon t :: x)).
Proof.
  intros Hp Hpol Hx. eexists. split_and!; [reflexivity | exact Hpol|].
  cbn [total_sleep sleep_budget].
  pose proof (sleep_budget_nonneg pause R attempts Hp).
  pose proof (backoff_nonneg a).
  destruct (Z.of_nat a <? Z.of_nat R - 1)%Z; lra.
Qed.

(** An attempt that fails, backs off and lets the loop go on. *)
Lemma loop_trace_continue pause R a attempts s c lat lon t s' :
  (Z.of_nat a <? Z.of_nat R - 1)%Z = true ->
  polite pause [EvSleep pause; EvReverse lat lon t] = true ->
  loop_trace pause R attempts
    (advance s c 1 [EvSleep pause; EvReverse lat lon t;
                    EvSleep (inject_Z (2 ^ Z.of_nat a))]) s' ->
  loop_trace pause R (a :: attempts) s s'.
Proof.
  intros Hc Hpol (evs & Htr & Hp & Hs).
  exists ([EvSleep pause; EvReverse lat lon t;
           EvSleep (inject_Z (2 ^ Z.of_nat a))] ++ evs)%list.
  split_and!.
  - rewrite Htr. cbn [trace advance]. now rewrite <- app_assoc.
  - apply polite_app; [|exact Hp].
    unfold polite in *. cbn in *.
    apply andb_true_iff in Hpol as [-> _]. reflexivity.
  - rewrite total_sleep_app. cbn [total_sleep sleep_budget]. rewrite Hc. lra.
Qed.

Lemma polite_pause_request pause lat lon t (x : list event) :
  polite pause x = true ->
  polite pause (EvSleep pause :: EvReverse lat lon t :: x) = true.
Proof.
  intros Hx. unfold polite in *. cbn.
  rewrite (proj2 (Qeq_bool_iff pause pause)) by reflexivity. exact Hx.
Qed.

Lemma adv_for_attempts_trace E lat lon R (attempts : list nat) :
  forall s,
    loop_trace float_0_2 R attempts s
      (snd (for_attempts
              (Advanced.attempt_body E (cache_key 3 lat lon) lat lon R)
              attempts s)).
Proof.
  induction attempts as [|a attempts IH]; intros s.
  - apply loop_trace_nil, float_0_2_nonneg.
  - rewrite for_attempts_cons, adv_attempt_body_cases. cbn zeta.
    destruct (reverse E (requests s) lat lon) as [[]|loc].
    1,2: destruct (Z.of_nat a <? Z.of_nat R - 1)%Z eqn:Hc;
         [ eapply loop_trace_continue;
           [exact Hc | now apply polite_pause_request | apply IH] |].
    1-4: cbn [snd]; apply loop_trace_last;
         [apply float_0_2_nonneg | now apply polite_pause_request | reflexivity].
    destruct (found_country loc) as [c|]; cbn [snd]; apply loop_trace_last;
      try apply float_0_2_nonneg; try (now apply polite_pause_request);
      reflexivity.
Qed.

Lemma comp_for_attempts_trace E lat lon R (attempts : list nat) :
  forall s,
    loop_trace float_0_3 R attempts s
      (snd (for_attempts
              (Comprehensive.attempt_body E (cache_key 2 lat lon) lat lon R)
              attempts s)).
Proof.
  induction attempts as [|a attempts IH]; intros s.
  - apply loop_trace_nil, float_0_3_nonneg.
  - rewrite for_attempts_cons, comp_attempt_body_cases. cbn zeta.
    destruct (reverse E (requests s) lat lon) as [[]|loc].
    1,2: destruct (Z.of_nat a <? Z.of_nat R - 1)%Z eqn:Hc;
         [ eapply loop_trace_continue;
           [exact Hc | now apply polite_pause_request | apply IH] |].
    1-4: cbn [snd]; apply loop_trace_last;
         [apply float_0_3_nonneg | now apply polite_pause_request | reflexivity].
    destruct (found_country loc) as [c|]; cbn [snd].
    + destruct (truthy (cache_file s) && _); apply loop_trace_last;
        try apply float_0_3_nonneg; try (now apply polite_pause_request);
        reflexivity.
    + apply loop_trace_last;
        try apply float_0_3_nonneg; try (now apply polite_pause_request);
        reflexivity.
Qed.


Lemma adv_geocoding_trace E lat lon R s :
  loop_trace float_0_2 R (seq 0 R) s
    (snd (Advanced.get_country_with_geocoding E lat lon R s)).
Proof.
  destruct (geocoding_cache s !! cache_key 3 lat lon) as [v|] eqn:Hc.
  - rewrite (adv_geocoding_hit _ _ _ _ _ _ Hc).
    apply loop_trace_nil, float_0_2_nonneg.
  - rewrite (adv_geocoding_miss_eq _ _ _ _ _ Hc).
    pose proof (adv_for_attempts_trace E lat lon R (seq 0 R) s) as H.
    destruct (for_attempts _ _ s) as [[[c|]|e] s1]; cbn [snd] in *;
      exact H.
Qed.

Lemma comp_geocoding_trace E lat lon R s :
  loop_trace float_0_3 R (seq 0 R) s
    (snd (Comprehensive.get_country_with_geocoding E lat lon R s)).
Proof.
  destruct (geocoding_cache s !! cache_key 2 lat lon) as [v|] eqn:Hc.
  - rewrite (comp_geocoding_hit _ _ _ _ _ _ Hc).
    apply loop_trace_nil, float_0_3_nonneg.
  - rewrite (comp_geocoding_miss_eq _ _ _ _ _ Hc).
    pose proof (comp_for_attempts_trace E lat lon R (seq 0 R) s) as H.
    destruct (for_attempts _ _ s) as [[[c|]|e] s1]; cbn [snd] in *;
      exact H.
Qed.

Lemma adv_coordinates_trace E lat lon s :
  loop_trace float_0_2 3 (seq 0 3) s
    (snd (Advanced.get_country_from_coordinates E lat lon s)).
Proof.
  destruct (adv_coordinates_cases E lat lon s)
    as [[label ->]|(flat & flon & _ & _ & _ & _ & _ & ->)].
  - apply loop_trace_nil, float_0_2_nonneg.
  - pose proof (adv_geocoding_trace E flat flon 3 s) as H.
    destruct (Advanced.get_country_with_geocoding E flat flon 3 s) as [[]?];
      exact H.
Qed.

Lemma comp_coordinates_trace E lat lon s :
  loop_trace float_0_3 2 (seq 0 2) s
    (snd (Comprehensive.get_country_from_coordinates E lat lon s)).
Proof.
  destruct (comp_coordinates_cases E lat lon s)
    as [[label ->]|(flat & flon & _ & _ & _ & _ & _ & _ & ->)].
  - apply loop_trace_nil, float_0_3_nonneg.
  - pose proof (comp_geocoding_trace E flat flon 2 s) as H.
    destruct (Comprehensive.get_country_with_geocoding E flat flon 2 s) as [[]?];
      exact H.
Qed.

Lemma loop_trace_polite pause R attempts s s' :
  loop_trace pause R attempts s s' ->
  polite pause (trace s) = true -> polite pause (trace s') = true.
Proof.
  intros (evs & -> & Hp & _) Hs. now apply polite_app.
Qed.

Section Politeness.

Variable pause : Q.
Variable resolve : pyval -> pyval -> M string.
Variable geocode : pyfloat -> pyfloat -> nat -> M (option string).
Hypothesis resolve_trace :
  forall lat lon s, exists R attempts,
    loop_trace pause R attempts s (snd (resolve lat lon s)).
Hypothesis geocode_trace :
  forall lat lon r s, exists R attempts,
    loop_trace pause R attempts s (snd (geocode lat lon r s)).

Lemma run_calls_polite (calls : list call) :
  forall s,
    polite pause (trace s) = true ->
    polite pause (trace (snd (run_calls resolve geocode calls s))) = true.
Proof.
  induction calls as [|c calls IH]; intros s Hs; [exact Hs|].
  assert (Hstep : forall {A} (m : M A),
    (exists R attempts, loop_trace pause R attempts s (snd (m s))) ->
    polite pause
      (trace (snd ((do! m in run_calls resolve geocode calls) s))) = true).
  { intros A m (R & attempts & Hm).
    apply loop_trace_polite in Hm; [|exact Hs].
    unfold bind. destruct (m s) as [[a|e] s1]; cbn [snd] in *;
      [now apply IH | exact Hm]. }
  destruct c as [lat lon|lat lon r]; cbn [run_calls]; apply Hstep.
  - apply resolve_trace.
  - apply geocode_trace.
Qed.

End Politeness.

(** X10: the service is never requested without the pause before it.
    Over any sequence of calls, in a trace that was so before, every
    request of the advanced detector directly follows a sleep of 0.2 s
    and every request of the comprehensive detector a sleep of 0.3 s,
    retries included. *)
Theorem X10_every_request_follows_a_pause E calls s :
  (polite float_0_2 (trace s) = true ->
   polite float_0_2
     (trace (snd (run_calls (Advanced.get_country_from_coordinates E)
                            (Advanced.get_country_with_geocoding E) calls s)))
   = true)
  /\ (polite float_0_3 (trace s) = true ->
      polite float_0_3
        (trace (snd (run_calls (Comprehensive.get_country_from_coordinates E)
                               (Comprehensive.get_country_with_geocoding E)
                               calls s)))
      = true).
Proof.
  split.
  - apply run_calls_polite.
    + intros lat lon s0. eexists _, _. apply adv_coordinates_trace.
    + intros lat lon r s0. eexists _, _. apply adv_geocoding_trace.
  - apply run_calls_polite.
    + intros lat lon s0. eexists _, _. apply comp_coordinates_trace.
    + intros lat lon r s0. eexists _, _. apply comp_geocoding_trace.
Qed.

Lemma X10_witness_flaky_service :
  polite float_0_2 (trace (Advanced.init flaky_twice true)) = true
  /\ polite float_0_2
       (trace (snd (run_calls (Advanced.get_country_from_coordinates flaky_twice)
                              (Advanced.get_country_with_geocoding flaky_twice)
                              [Resolve (VFloat (fz 35)) (VFloat (fz 139));
                               Geocode (fz 0) (fz 160) 4]
                              (Advanced.init flaky_twice true))))
     = true
  /\ polite float_0_2 [EvReverse (fz 0) (fz 160) 10] = false.
Proof.
  split; [reflexivity|]. split; [|reflexivity].
  apply (proj1 (X10_every_request_follows_a_pause flaky_twice _
                  (Advanced.init flaky_twice true))).
  reflexivity.
Defined.

Lemma loop_trace_sleep pause R attempts s s' :
  loop_trace pause R attempts s s' ->
  (total_sleep (trace s')
   <= total_sleep (trace s) + sleep_budget pause R attempts)%Q.
Proof.
  intros (evs & -> & _ & H). rewrite total_sleep_app. lra.
Qed.

(** X11: a lookup sleeps within its budget whatever the service does:
    the pause before each of the at most [max_retries] requests and a
    backoff of [2 ** attempt] seconds after each failed attempt but the
    last.  For [get_country_from_coordinates] this is at most
    3 * 0.2 + 1 + 2 seconds in the advanced detector and 2 * 0.3 + 1
    seconds in the comprehensive one. *)
Theorem X11_sleep_budget :
  (forall E lat lon R s,
     (total_sleep (trace (snd (Advanced.get_country_with_geocoding E lat lon R s)))
      <= total_sleep (trace s) + sleep_budget float_0_2 R (seq 0 R))%Q)
  /\ (forall E lat lon R s,
        (total_sleep
           (trace (snd (Comprehensive.get_country_with_geocoding E lat lon R s)))
         <= total_sleep (trace s) + sleep_budget float_0_3 R (seq 0 R))%Q)
  /\ (forall E lat lon s,
        (total_sleep (trace (snd (Advanced.get_country_from_coordinates E lat lon s)))
         <= total_sleep (trace s) + (3 * float_0_2 + 3))%Q)
  /\ (forall E lat lon s,
        (total_sleep
           (trace (snd (Comprehensive.get_country_from_coordinates E lat lon s)))
         <= total_sleep (trace s) + (2 * float_0_3 + 1))%Q).
Proof.
  split_and!.
  - intros. apply loop_trace_sleep, adv_geocoding_trace.
  - intros. apply loop_trace_sleep, comp_geocoding_trace.
  - intros E lat lon s.
    pose proof (loop_trace_sleep _ _ _ _ _ (adv_coordinates_trace E lat lon s)) as H.
    assert (Hb : (sleep_budget float_0_2 3 (seq 0 3) == 3 * float_0_2 + 3)%Q)
      by (apply Qeq_bool_iff; vm_compute; reflexivity).
    lra.
  - intros E lat lon s.
    pose proof (loop_trace_sleep _ _ _ _ _ (comp_coordinates_trace E lat lon s)) as H.
    assert (Hb : (sleep_budget float_0_3 2 (seq 0 2) == 2 * float_0_3 + 1)%Q)
      by (apply Qeq_bool_iff; vm_compute; reflexivity).
    lra.
Qed.

(** The budget is reached when every attempt times out. *)
Example sleep_budget_reached :
  (total_sleep
     (trace (snd (Advanced.get_country_from_coordinates always_down
                    (VFloat (fz 35)) (VFloat (fz 139))
                    (Advanced.init always_down true))))
   == 3 * float_0_2 + 3)%Q.
Proof. apply Qeq_bool_iff. vm_compute. reflexivity. Qed.

(** * Further properties of the batch *)

Lemma adv_coordinates_returns E lat lon s :
  uninterrupted E ->
  exists label s',
    Advanced.get_country_from_coordinates E lat lon s = (Ok label, s').
Proof.
  intros Hun.
  destruct (adv_coordinates_cases E lat lon s)
    as [[label Heq]|(flat & flon & _ & _ & _ & _ & _ & Heq)]; rewrite Heq.
  - eauto.
  - destruct (adv_geocoding_returns E flat flon 3 s Hun) as (r & Hr & _).
    destruct (Advanced.get_country_with_geocoding E flat flon 3 s) as [[r'|e] s1];
      cbn [fst] in *; [eauto | discriminate].
Qed.

Lemma adv_process_rows_shape E out ug (selected : row -> bool) :
  uninterrupted E ->
  forall todo done n s,
  exists todo' s',
    Advanced.process_rows E out ug selected done todo n s
    = (Ok (done ++ todo')%list, s')
    /\ Forall2 (fun r r' =>
                  Latitude r' = Latitude r /\ Longitude r' = Longitude r
                  /\ (if selected r then Country r' <> None else r' = r))
               todo todo'
    /\ exists evs, trace s' = (trace s ++ evs)%list.
Proof.
  intros Hun. induction todo as [|r todo IH]; intros done n s.
  - exists [], s. cbn. rewrite !app_nil_r.
    split; [reflexivity|]. split; [apply List.Forall2_nil|]. exists []. now rewrite app_nil_r.
  - cbn [Advanced.process_rows]. destruct (selected r) eqn:Hsel.
    + unfold bind at 1.
      pose proof (adv_coordinates_trace E (Latitude r) (Longitude r) s)
        as (evs0 & Htr0 & _).
      destruct (adv_coordinates_returns E (Latitude r) (Longitude r) s Hun)
        as (label & s1 & Hrun).
      rewrite Hrun in *. cbn [snd] in Htr0. cbn zeta. unfold bind at 1.
      destruct ((S n mod 1000 =? 0)%nat && ug).
      * cbn [emit].
        match goal with
        | |- context [Advanced.process_rows _ _ _ _ ?d todo ?m ?s2] =>
            destruct (IH d m s2) as (todo' & s' & Heq & Hall & evs & Htr)
        end.
        exists (Row (Latitude r) (Longitude r) (Some label) :: todo'), s'.
        rewrite Heq, <- app_assoc. split; [reflexivity|]. split.
        -- apply List.Forall2_cons; [|exact Hall]. rewrite Hsel. cbn. now split_and!.
        -- rewrite Htr. cbn [trace]. rewrite Htr0, <- !app_assoc. eauto.
      * cbn [ret].
        match goal with
        | |- context [Advanced.process_rows _ _ _ _ ?d todo ?m ?s2] =>
            destruct (IH d m s2) as (todo' & s' & Heq & Hall & evs & Htr)
        end.
        exists (Row (Latitude r) (Longitude r) (Some label) :: todo'), s'.
        rewrite Heq, <- app_assoc. split; [reflexivity|]. split.
        -- apply List.Forall2_cons; [|exact Hall]. rewrite Hsel. cbn. now split_and!.
        -- rewrite Htr, Htr0, <- !app_assoc. eauto.
    + destruct (IH (done ++ [r])%list n s) as (todo' & s' & Heq & Hall & Hevs).
      exists (r :: todo'), s'. rewrite Heq, <- app_assoc.
      split; [reflexivity|]. split; [|exact Hevs].
      apply List.Forall2_cons; [|exact Hall]. rewrite Hsel. now split_and!.
Qed.

Lemma Forall2_set_country_unknown (P : row -> row -> Prop) (l l' : list row) :
  Forall2 P (set_country_unknown l) l' ->
  Forall2 (fun r r' =>
             P (Row (Latitude r) (Longitude r) (Some "Unknown")) r') l l'.
Proof.
  revert l'. induction l as [|r l IH]; intros l' H; inversion H; subst.
  - apply List.Forall2_nil.
  - apply List.Forall2_cons; [assumption | now apply IH].
Qed.

(** X12: whatever an uninterrupted service answers, with or without
    geocoding, [process_earthquake_database] returns a table with the
    rows of its (sampled) input in the same order and with the same
    coordinates; a row that the mask does not select is returned as it
    was, every [Country] cell holds a label afterwards, and the table
    returned is the one that the final [to_csv] wrote, which only the
    dump of the geocoding cache may follow. *)
Theorem X12_advanced_batch_keeps_rows E df inp out ug ss :
  uninterrupted E ->
  exists rows1 s',
    Advanced.process_earthquake_database E df inp out ug ss
    = (Ok (DataFrame true rows1), s')
    /\ Forall2 (row_labelled (has_country df) Advanced.mask)
               (sample ss (rows df)) rows1
    /\ exists tr tail,
         trace s'
         = (tr ++ EvToCsv (match out with
                           | Some f => f
                           | None => str_replace inp ".csv" "_with_countries.csv"
                           end) rows1 :: tail)%list
         /\ (tail = [] \/ exists f c, tail = [EvSaveCache f c]).
Proof.
  intros Hun.
  unfold Advanced.process_earthquake_database,
    Advanced.process_earthquake_database_from.
  set (outfile := match out with
                  | Some f => f
                  | None => str_replace inp ".csv" "_with_countries.csv"
                  end).
  assert (Hfinish : forall rows1 s1,
    exists s',
      (do! emit (EvToCsv outfile rows1) in
       let! s := get_state in
       do! (if ug && negb (bool_decide (geocoding_cache s = ∅))
            then emit (EvSaveCache
                         (str_replace outfile ".csv" "_geocoding_cache.json")
                         (geocoding_cache s))
            else ret tt) in
       ret (DataFrame true rows1)) s1
      = (Ok (DataFrame true rows1), s')
      /\ exists tail,
           trace s' = (trace s1 ++ EvToCsv outfile rows1 :: tail)%list
           /\ (tail = [] \/ exists f c, tail = [EvSaveCache f c])).
  { intros rows1 s1. unfold bind, emit, get_state, ret.
    cbn [geocoding_cache trace].
    destruct (ug && negb (bool_decide (geocoding_cache s1 = ∅))).
    - eexists. split; [reflexivity|]. cbn [trace].
      exists [EvSaveCache (str_replace outfile ".csv" "_geocoding_cache.json")
                (geocoding_cache s1)].
      split; [now rewrite <- app_assoc | right; eauto].
    - eexists. split; [reflexivity|]. cbn [trace]. exists []. now split; [|left]. }
  destruct (has_country df) eqn:Hcol; unfold bind at 1.
  - destruct (adv_process_rows_shape E outfile ug Advanced.mask Hun
                (sample ss (rows df)) [] 0 (Advanced.init E ug))
      as (rows1 & s1 & Heq & Hall & evs & Htr).
    rewrite Heq. cbn [app].
    destruct (Hfinish rows1 s1) as (s' & Hrun & tail & Htail & Hshape).
    exists rows1, s'. split; [exact Hrun|]. split.
    + eapply Forall2_impl; [exact Hall|].
      intros r r' (Hla & Hlo & Hsel). unfold row_labelled, row_kept.
      destruct (Advanced.mask r) eqn:Hm.
      * split_and!; try assumption. intros _ H. discriminate.
      * subst r'. split_and!; try reflexivity.
        unfold Advanced.mask in Hm. destruct (Country r); [discriminate|discriminate].
    + exists (trace s1), tail. now split.
  - destruct (adv_process_rows_shape E outfile ug (fun _ => true) Hun
                (set_country_unknown (sample ss (rows df))) [] 0
                (Advanced.init E ug))
      as (rows1 & s1 & Heq & Hall & evs & Htr).
    rewrite Heq. cbn [app].
    destruct (Hfinish rows1 s1) as (s' & Hrun & tail & Htail & Hshape).
    exists rows1, s'. split; [exact Hrun|]. split.
    + apply Forall2_set_country_unknown in Hall.
      eapply Forall2_impl; [exact Hall|].
      intros r r' (Hla & Hlo & Hsel). cbn in *.
      unfold row_labelled, row_kept. split_and!; try assumption.
      intros H. discriminate.
    + exists (trace s1), tail. now split.
Qed.

Lemma X12_witness_service_down :
  uninterrupted always_down
  /\ exists rows1,
       fst (Advanced.process_earthquake_database always_down sample_frame
              "database.csv" None true None)
       = Ok (DataFrame true rows1)
       /\ length rows1 = 3.
Proof.
  assert (Hun : uninterrupted always_down) by (intros n lat lon; discriminate).
  split; [exact Hun|].
  destruct (X12_advanced_batch_keeps_rows always_down sample_frame
              "database.csv" None true None Hun)
    as (rows1 & s' & Hrun & Hall & _).
  exists rows1. rewrite Hrun. split; [reflexivity|].
  apply Forall2_length in Hall. rewrite <- Hall. reflexivity.
Defined.

Lemma comp_coordinates_raise E lat lon s e :
  fst (Comprehensive.get_country_from_coordinates E lat lon s) = Raise e ->
  e = Interrupt.
Proof.
  destruct (comp_coordinates_cases E lat lon s)
    as [[label ->]|(flat & flon & _ & _ & _ & _ & _ & _ & ->)]; [discriminate|].
  destruct (geocoding_cache s !! cache_key 2 flat flon) as [v|] eqn:Hc.
  - rewrite (comp_geocoding_hit _ _ _ _ _ _ Hc). discriminate.
  - destruct (comp_geocoding_miss E flat flon 2 s 2 Hc (or_introl (le_n 2)))
      as (c' & _ & Hres).
    destruct (Comprehensive.get_country_with_geocoding E flat flon 2 s)
      as [[r|e'] s1]; cbn [fst] in *; [discriminate|].
    intros [= <-]. tauto.
Qed.




Lemma length_filter_selected (selected : row -> bool) (l : list row) :
  length (filter (fun r => selected r = true) l)
  = length (List.filter selected l).
Proof.
  induction l as [|r l IH]; [reflexivity|].
  rewrite filter_cons. cbn [List.filter].
  destruct (decide (selected r = true)) as [H|H].
  - rewrite H. cbn. now rewrite IH.
  - apply not_true_is_false in H. now rewrite H.
Qed.

Lemma length_filter_all (l : list row) :
  length (filter (fun _ : row => true = true) l) = length l.
Proof.
  induction l as [|r l IH]; [reflexivity|].
  rewrite filter_cons. destruct (decide (true = true)); [|congruence].
  cbn. now rewrite IH.
Qed.

Lemma adv_batch_offline_run E df inp out ss :
  exists rows1,
    Advanced.process_earthquake_database E df inp out false ss
    = (Ok (DataFrame true rows1),
       State false None ∅ 0
         [EvToCsv (match out with
                   | Some f => f
                   | None => str_replace inp ".csv" "_with_countries.csv"
                   end) rows1]).
Proof.
  unfold Advanced.process_earthquake_database,
    Advanced.process_earthquake_database_from, Advanced.init.
  cbn [andb]. unfold bind at 1.
  destruct (has_country df);
    rewrite adv_process_rows_no_network by reflexivity;
    eexists; reflexivity.
Qed.



(** X15: without [geopy] the name [time] is unbound in
    [comprehensive_country_detector.py], and
    [analyze_and_update_database] raises as soon as one row is to be
    processed, before any row is labelled and before anything is
    written; only a table with nothing to process is returned. *)
Theorem X15_comprehensive_batch_without_geopy
    E df inp out ug ss force stored :
  GEOPY_AVAILABLE E = false ->
  fst (Comprehensive.analyze_and_update_database E df inp out ug ss force stored)
  = match (if has_country df && negb force
           then List.filter Comprehensive.missing_mask (sample ss (rows df))
           else sample ss (rows df)) with
    | [] =>
        Ok (DataFrame true
              (if has_country df && negb force
               then sample ss (rows df) else []))
    | _ :: _ => Raise OtherException
    end
  /\ trace (snd (Comprehensive.analyze_and_update_database E df inp out ug ss
                   force stored))
     = [].
Proof.
  intros Hgeopy.
  unfold Comprehensive.analyze_and_update_database,
    Comprehensive.analyze_and_update_database_from, Comprehensive.init,
    Comprehensive.time_time.
  rewrite Hgeopy. cbn zeta.
  destruct (has_country df && negb force) eqn:Hmask.
  - assert (Hc : has_country df = true)
      by (now apply andb_true_iff in Hmask as [-> _]).
    rewrite length_filter_selected.
    destruct (List.filter Comprehensive.missing_mask (sample ss (rows df)))
      as [|r0 l0]; cbn [length Nat.eqb].
    + rewrite Hc. split; reflexivity.
    + split; reflexivity.
  - rewrite length_filter_all. unfold set_country_unknown at 1.
    rewrite length_map.
    destruct (sample ss (rows df)) as [|r0 l0]; cbn [length Nat.eqb].
    + rewrite orb_true_r. split; reflexivity.
    + split; reflexivity.
Qed.

Lemma X15_witness_no_geopy :
  GEOPY_AVAILABLE offline = false
  /\ fst (Comprehensive.analyze_and_update_database offline sample_frame
            "database.csv" None false None false None)
     = Raise OtherException.
Proof.
  split; [reflexivity|].
  exact (proj1 (X15_comprehensive_batch_without_geopy offline sample_frame
                  "database.csv" None false None false None eq_refl)).
Defined.

(** * Paths *)

Lemma prefix_refl (s : string) : String.prefix s s = true.
Proof.
  induction s as [|c s IH]; [reflexivity|]. cbn.
  destruct (Ascii.ascii_dec c c); [exact IH | congruence].
Qed.

Lemma str_replace_skip_all old new (t : string) :
  str_replace_from old new (String.length t) t = "".
Proof. induction t as [|c t IH]; [reflexivity | exact IH]. Qed.

Lemma string_app_nil_r (s : string) : s ++ "" = s.
Proof.
  induction s as [|c s IH]; [reflexivity|].
  change (String c (s ++ "") = String c s). now f_equal.
Qed.

Lemma str_replace_absent old new (s : string) :
  occurs old s = false -> str_replace s old new = s.
Proof.
  unfold str_replace. induction s as [|c s IH]; [reflexivity|].
  cbn [occurs str_replace_from]. intros H.
  apply orb_false_iff in H as [Hp Ho].
  rewrite Hp, andb_false_r. now rewrite IH.
Qed.

Lemma str_replace_suffix old new (stem : string) :
  old <> "" -> occurs_before old stem = false ->
  str_replace (stem ++ old) old new = stem ++ new.
Proof.
  intros Hne. unfold str_replace. induction stem as [|c stem IH].
  - intros _. change ("" ++ old) with old. change ("" ++ new) with new.
    destruct old as [|c rest]; [congruence|].
    cbn [str_replace_from]. rewrite prefix_refl.
    change (negb (String c rest =? "")) with true. cbn [andb].
    replace (String.length (String c rest) - 1) with (String.length rest)
      by (cbn [String.length]; lia).
    rewrite str_replace_skip_all. apply string_app_nil_r.
  - cbn [occurs_before]. intros H. apply orb_false_iff in H as [Hp Ho].
    change (String c stem ++ old) with (String c (stem ++ old)) in *.
    change (String c stem ++ new) with (String c (stem ++ new)).
    cbn [str_replace_from]. rewrite Hp, andb_false_r.
    now rewrite IH.
Qed.

(** X16: the derived output path.  [str.replace] leaves a path without
    ".csv" as it is, so for such an input the batch writes its table
    over the input file; for a path that ends in ".csv" and holds no
    other occurrence, the extension is replaced by the suffix. *)
Theorem X16_default_output_path :
  (forall s old new, occurs old s = false -> str_replace s old new = s)
  /\ (forall stem old new,
        old <> "" -> occurs_before old stem = false ->
        str_replace (stem ++ old) old new = stem ++ new)
  /\ (forall E df inp ss,
        occurs ".csv" inp = false ->
        exists rows1,
          Advanced.process_earthquake_database E df inp None false ss
          = (Ok (DataFrame true rows1),
             State false None ∅ 0 [EvToCsv inp rows1]))
  /\ (forall E df stem ss,
        occurs_before ".csv" stem = false ->
        exists rows1,
          Advanced.process_earthquake_database E df (stem ++ ".csv") None
            false ss
          = (Ok (DataFrame true rows1),
             State false None ∅ 0
               [EvToCsv (stem ++ "_with_countries.csv") rows1])).
Proof.
  split_and!.
  - intros. now apply str_replace_absent.
  - intros. now apply str_replace_suffix.
  - intros E df inp ss Hno.
    destruct (adv_batch_offline_run E df inp None ss) as (rows1 & Hrun).
    exists rows1. rewrite Hrun. now rewrite str_replace_absent.
  - intros E df stem ss Hno.
    destruct (adv_batch_offline_run E df (stem ++ ".csv") None ss)
      as (rows1 & Hrun).
    exists rows1. rewrite Hrun.
    now rewrite str_replace_suffix by (discriminate || assumption).
Qed.

Lemma X16_witness_paths :
  occurs ".csv" "database.txt" = false
  /\ str_replace "database.txt" ".csv" "_with_countries.csv" = "database.txt"
  /\ occurs_before ".csv" "data/database" = false
  /\ str_replace ("data/database" ++ ".csv") ".csv" "_geocoding_cache.json"
     = "data/database" ++ "_geocoding_cache.json"
  /\ exists rows1,
       Advanced.process_earthquake_database offline sample_frame "database.txt"
         None false None
       = (Ok (DataFrame true rows1),
          State false None ∅ 0 [EvToCsv "database.txt" rows1]).
Proof.
  destruct X16_default_output_path as (Habsent & Hsuffix & Hover & _).
  split; [reflexivity|]. split; [now apply Habsent|].
  split; [reflexivity|]. split.
  - apply Hsuffix; [discriminate | reflexivity].
  - apply Hover. reflexivity.
Defined.

(** * Samples *)

Lemma take_min_length (k : nat) (l : list row) :
  take (Nat.min k (length l)) l = take k l.
Proof.
  destruct (Nat.le_gt_cases k (length l)) as [H|H].
  - now rewrite Nat.min_l.
  - rewrite Nat.min_r by lia. rewrite !take_ge by lia. reflexivity.
Qed.

(** X17: [sample_size] keeps a prefix of the table.  A positive size
    keeps that many rows, or all when there are fewer; no size and the
    size 0 keep all; a negative size, which [head] reads from the end,
    drops that many of the last rows. *)
Theorem X17_sample_is_a_prefix (l : list row) :
  (forall ss, sample ss l = take (length (sample ss l)) l)
  /\ (forall n, (0 < n)%Z ->
        length (sample (Some n) l) = Nat.min (Z.to_nat n) (length l))
  /\ sample (Some 0%Z) l = l
  /\ sample None l = l
  /\ (forall n, (n < 0)%Z ->
        length (sample (Some n) l) = length l - Z.to_nat (- n)).
Proof.
  split_and!.
  - intros [n|]; unfold sample, head; [|now rewrite firstn_all].
    destruct (negb (n =? 0)%Z && (n <? Z.of_nat (length l))%Z);
      [|now rewrite firstn_all].
    destruct (0 <=? n)%Z; rewrite length_take; now rewrite take_min_length.
  - intros n Hn. unfold sample, head.
    destruct (n =? 0)%Z eqn:H0; [apply Z.eqb_eq in H0; lia|]. cbn [negb andb].
    destruct (n <? Z.of_nat (length l))%Z eqn:Hlt.
    + apply Z.ltb_lt in Hlt.
      destruct (0 <=? n)%Z eqn:Hle; [|apply Z.leb_gt in Hle; lia].
      rewrite length_take. lia.
    + apply Z.ltb_ge in Hlt. lia.
  - reflexivity.
  - reflexivity.
  - intros n Hn. unfold sample, head.
    destruct (n =? 0)%Z eqn:H0; [apply Z.eqb_eq in H0; lia|]. cbn [negb andb].
    destruct (n <? Z.of_nat (length l))%Z eqn:Hlt;
      [|apply Z.ltb_ge in Hlt; lia].
    destruct (0 <=? n)%Z eqn:Hle; [apply Z.leb_le in Hle; lia|].
    rewrite length_take. lia.
Qed.

Lemma X17_witness_sample_sizes :
  length (sample (Some 100%Z) (rows sample_frame)) = 3
  /\ length (sample (Some 2%Z) (rows sample_frame)) = 2
  /\ length (sample (Some (-1)%Z) (rows sample_frame)) = 2.
Proof.
  destruct (X17_sample_is_a_prefix (rows sample_frame)) as (_ & Hpos & _ & _ & Hneg).
  split_and!.
  - rewrite Hpos by lia. reflexivity.
  - rewrite Hpos by lia. reflexivity.
  - rewrite Hneg by lia. reflexivity.
Defined.

(** * Keys *)

Lemma no_comma_app (a b : string) :
  no_comma (a ++ b) = no_comma a && no_comma b.
Proof.
  induction a as [|c a IH]; [reflexivity|].
  change (String c a ++ b) with (String c (a ++ b)).
  cbn [no_comma]. rewrite IH. now rewrite andb_assoc.
Qed.

Lemma pretty_N_char_no_comma (x : N) :
  (String (pretty_N_char x) "" =? ",") = false.
Proof.
  destruct x as [|p]; [reflexivity|].
  do 4 (try (destruct p as [p|p|]; try reflexivity)).
Qed.

Lemma pretty_N_go_no_comma (x : N) :
  forall s, no_comma s = true -> no_comma (pretty_N_go x s) = true.
Proof.
  induction (N.lt_wf_0 x) as [x _ IH]. intros s Hs.
  destruct (decide (0 < x)%N) as [Hx|Hx].
  - rewrite pretty_N_go_step by assumption.
    apply IH; [now apply N.div_lt|].
    cbn [no_comma]. now rewrite pretty_N_char_no_comma, Hs.
  - assert (x = 0%N) by lia. subst x. now rewrite pretty_N_go_0.
Qed.

Lemma pretty_N_no_comma (x : N) : no_comma (pretty x) = true.
Proof.
  unfold pretty, pretty_N. destruct (decide (x = 0%N)); [reflexivity|].
  now apply pretty_N_go_no_comma.
Qed.

Lemma fixed_digits_no_comma (d : nat) : forall n, no_comma (fixed_digits d n) = true.
Proof.
  induction d as [|d IH]; intros n; [reflexivity|].
  cbn [fixed_digits]. rewrite no_comma_app, IH.
  unfold digit_char. now rewrite pretty_N_no_comma.
Qed.

Lemma format_fixed_no_comma (d : nat) (x : pyfloat) :
  no_comma (format_fixed d x) = true.
Proof.
  destruct x as [|[]| |q]; cbn [format_fixed]; try reflexivity.
  - rewrite no_comma_app. now rewrite fixed_digits_no_comma.
  - rewrite !no_comma_app, pretty_N_no_comma, fixed_digits_no_comma.
    now destruct (Qle_bool 0 q).
Qed.

Lemma comma_separates (a a' b b' : string) :
  no_comma a = true -> no_comma a' = true ->
  a ++ "," ++ b = a' ++ "," ++ b' -> a = a' /\ b = b'.
Proof.
  assert (Hnil : forall x : string, "" ++ x = x) by reflexivity.
  assert (Hcons : forall c (x y : string), String c x ++ y = String c (x ++ y))
    by reflexivity.
  revert a'. induction a as [|c a IH]; intros [|c' a'] Ha Ha' H;
    rewrite ?Hcons, ?Hnil in H.
  - injection H as ->. now split.
  - injection H as <- _. cbn in Ha'. discriminate.
  - injection H as -> _. cbn in Ha. discriminate.
  - injection H as -> H. cbn [no_comma] in Ha, Ha'.
    apply andb_true_iff in Ha as [_ Ha]. apply andb_true_iff in Ha' as [_ Ha'].
    destruct (IH a' Ha Ha' H) as [-> ->]. now split.
Qed.

(** X18: a cache key holds its two rounded coordinates apart.  Two
    points have the same key exactly when their latitudes print the same
    and their longitudes print the same at the precision of the key;
    the printed numbers hold no comma, so the separator cannot be taken
    for a part of either. *)
Theorem X18_cache_key_separates (d : nat) (lat lon lat' lon' : pyfloat) :
  cache_key d lat lon = cache_key d lat' lon'
  <-> format_fixed d lat = format_fixed d lat'
      /\ format_fixed d lon = format_fixed d lon'.
Proof.
  unfold cache_key. split.
  - apply comma_separates; apply format_fixed_no_comma.
  - intros [-> ->]. reflexivity.
Qed.

Lemma X18_witness_nearby_points :
  format_fixed 2 (fl 4501 128) = format_fixed 2 (fl 9001 256)
  /\ cache_key 2 (fl 4501 128) (fz 139) = cache_key 2 (fl 9001 256) (fz 139)
  /\ cache_key 2 (fz 1) (fz 23) <> cache_key 2 (fz 12) (fz 3).
Proof.
  split; [vm_compute; reflexivity|]. split.
  - apply (proj2 (X18_cache_key_separates 2 (fl 4501 128) (fz 139)
                    (fl 9001 256) (fz 139))).
    split; vm_compute; reflexivity.
  - intros H.
    apply (proj1 (X18_cache_key_separates 2 (fz 1) (fz 23) (fz 12) (fz 3))) in H.
    destruct H as [H _]. vm_compute in H. discriminate.
Defined.

(** * Interrupted lookups *)



(** * Writes of the cache file *)

Lemma comp_for_attempts_saves E lat lon R (attempts : list nat) :
  forall s,
    forallb saved_in_tens (trace s) = true ->
    forallb saved_in_tens
      (trace (snd (for_attempts
                     (Comprehensive.attempt_body E (cache_key 2 lat lon) lat lon R)
                     attempts s))) = true.
Proof.
  induction attempts as [|a attempts IH]; intros s Hs; [exact Hs|].
  rewrite for_attempts_cons, comp_attempt_body_cases. cbn zeta.
  destruct (reverse E (requests s) lat lon) as [[]|loc].
  1,2: destruct (Z.of_nat a <? Z.of_nat R - 1)%Z;
       [apply IH|]; cbn [snd advance trace];
       rewrite forallb_app, Hs; reflexivity.
  1,2: cbn [snd advance trace]; rewrite forallb_app, Hs; reflexivity.
  destruct (found_country loc) as [c|]; cbn [snd advance trace];
    rewrite forallb_app, Hs; [|reflexivity].
  destruct (truthy (cache_file s) && _) eqn:Hsave; [|reflexivity].
  apply andb_true_iff in Hsave as [_ Hsize].
  cbn [app forallb saved_in_tens andb]. now rewrite Hsize.
Qed.

Lemma comp_coordinates_saves E lat lon s :
  forallb saved_in_tens (trace s) = true ->
  forallb saved_in_tens
    (trace (snd (Comprehensive.get_country_from_coordinates E lat lon s))) = true.
Proof.
  intros Hs.
  destruct (comp_coordinates_cases E lat lon s)
    as [[label ->]|(flat & flon & _ & _ & _ & _ & _ & _ & ->)]; [exact Hs|].
  assert (H : forallb saved_in_tens
                (trace (snd (Comprehensive.get_country_with_geocoding E flat flon 2 s)))
              = true).
  { destruct (geocoding_cache s !! cache_key 2 flat flon) as [v|] eqn:Hc.
    - now rewrite (comp_geocoding_hit _ _ _ _ _ _ Hc).
    - rewrite (comp_geocoding_miss_eq _ _ _ _ _ Hc).
      pose proof (comp_for_attempts_saves E flat flon 2 (seq 0 2) s Hs) as H.
      destruct (for_attempts _ _ s) as [[[c|]|e] s1]; exact H. }
  destruct (Comprehensive.get_country_with_geocoding E flat flon 2 s) as [[]?];
    exact H.
Qed.

Lemma comp_process_rows_saves E out ug (selected : row -> bool) :
  forall todo done n s,
    forallb saved_in_tens (trace s) = true ->
    forallb saved_in_tens
      (trace (snd (Comprehensive.process_rows E out ug selected done todo n s)))
    = true.
Proof.
  induction todo as [|r todo IH]; intros done n s Hs; [exact Hs|].
  cbn [Comprehensive.process_rows]. destruct (selected r); [|now apply IH].
  unfold bind at 1, try_except. unfold bind at 1.
  pose proof (comp_coordinates_saves E (Latitude r) (Longitude r) s Hs) as H1.
  pose proof (comp_coordinates_raise E (Latitude r) (Longitude r) s) as Hraise.
  destruct (Comprehensive.get_country_from_coordinates E (Latitude r)
              (Longitude r) s) as [[label|e] s1]; cbn [fst snd] in *.
  - cbn zeta. unfold bind at 1, Comprehensive.time_time.
    destruct (ug && (S n mod 100 =? 0)%nat).
    + unfold bind at 1. cbn [emit].
      destruct (GEOPY_AVAILABLE E); cbn [ret raise].
      * apply IH. cbn [trace]. rewrite forallb_app, H1. reflexivity.
      * cbn [snd trace]. rewrite forallb_app, H1. reflexivity.
    + cbn [ret]. now apply IH.
  - rewrite (Hraise e eq_refl). exact H1.
Qed.

(** X20: the cache file of the comprehensive script is written in tens.
    Over a whole run of [analyze_and_update_database], whatever the
    service does, every write of the cache file, in a lookup as at the
    end of the batch, has a content whose number of entries is a
    multiple of ten: [save_cache] writes a cache of no other size, the
    "final" save included. *)
Theorem X20_cache_file_written_in_tens E df inp out ug ss force stored :
  forallb saved_in_tens
    (trace (snd (Comprehensive.analyze_and_update_database E df inp out ug ss
                   force stored)))
  = true.
Proof.
  unfold Comprehensive.analyze_and_update_database,
    Comprehensive.analyze_and_update_database_from.
  cbn zeta.
  match goal with
  | |- context [Comprehensive.init E ug ?cf stored] =>
      assert (H0 : forallb saved_in_tens
                     (trace (Comprehensive.init E ug cf stored)) = true)
        by reflexivity;
      revert H0; generalize (Comprehensive.init E ug cf stored)
  end.
  match goal with
  | |- context [Comprehensive.process_rows E ?o _ _ _ _ _] => generalize o
  end.
  intros outfile s0 H0.
  destruct (length _ =? 0)%nat; [exact H0|].
  unfold bind at 1, Comprehensive.time_time at 1.
  destruct (GEOPY_AVAILABLE E) eqn:Hgeopy; [|exact H0]. cbn [ret].
  unfold bind at 1.
  match goal with
  | |- context [Comprehensive.process_rows E outfile ug ?sel [] ?l 0 s0] =>
      pose proof (comp_process_rows_saves E outfile ug sel l [] 0 s0 H0) as H1;
      destruct (Comprehensive.process_rows E outfile ug sel [] l 0 s0)
        as [[[rows2 n']|e] s1]; cbn [snd] in H1; [|exact H1]
  end.
  unfold Comprehensive.save_cache, Comprehensive.time_time.
  unfold bind, emit, get_state, ret. rewrite Hgeopy.
  destruct ug; cbn beta iota zeta; cbn [cache_file geocoding_cache trace].
  - destruct (truthy (cache_file s1) && _) eqn:Hsave.
    + apply andb_true_iff in Hsave as [_ Hsize].
      destruct (0 <? n')%nat; cbn [snd trace];
        rewrite !forallb_app, H1; cbn [app forallb saved_in_tens andb];
        now rewrite Hsize.
    + destruct (0 <? n')%nat; cbn [snd trace];
        rewrite forallb_app, H1; reflexivity.
  - destruct (0 <? n')%nat; cbn [snd trace];
      rewrite forallb_app, H1; reflexivity.
Qed.

(** * Labels and cache entries *)

(** X21: with geocoding on, a label of
    [CountryDetector.get_country_from_coordinates] can be read off the
    cache the call leaves behind.  The cache then has an entry for the
    point; when the entry names a country the label is that country,
    whatever the coordinate rules say about the point, and when the entry
    is [None] (or an empty name) the label is the one of the rules. *)
Theorem X21_advanced_label_follows_cache E lat lon flat flon s label :
  isna lat = false -> isna lon = false ->
  py_float E lat = Some flat -> py_float E lon = Some flon ->
  use_geocoding s = true ->
  fst (Advanced.get_country_from_coordinates E lat lon s) = Ok label ->
  exists entry,
    geocoding_cache (snd (Advanced.get_country_from_coordinates E lat lon s))
      !! cache_key 3 flat flon = Some entry
    /\ label = if truthy entry then default "" entry
               else Advanced.get_country_from_geography flat flon.
Proof.
  intros Hlat Hlon Hflat Hflon Hg.
  rewrite (adv_coordinates_online E lat lon flat flon s Hlat Hlon Hflat Hflon Hg).
  pose proof (adv_geocoding_caches E flat flon 3 s) as Hc.
  destruct (Advanced.get_country_with_geocoding E flat flon 3 s)
    as [[entry|e] s1]; cbn [fst snd] in *; [|discriminate].
  intros [= <-]. exists entry. split; [now apply Hc|reflexivity].
Qed.

Lemma X21_witness_service_overrides_rules :
  Advanced.get_country_from_geography (fz 40) (fz (-100)) = "United States"
  /\ exists entry,
       geocoding_cache
         (snd (Advanced.get_country_from_coordinates online_japan
                 (VFloat (fz 40)) (VFloat (fz (-100)))
                 (Advanced.init online_japan true)))
         !! cache_key 3 (fz 40) (fz (-100)) = Some entry
       /\ "Japan" = if truthy entry then default "" entry
                    else Advanced.get_country_from_geography (fz 40) (fz (-100)).
Proof.
  split; [vm_compute; reflexivity|].
  apply (X21_advanced_label_follows_cache online_japan
           (VFloat (fz 40)) (VFloat (fz (-100))) (fz 40) (fz (-100))
           (Advanced.init online_japan true) "Japan");
    vm_compute; reflexivity.
Defined.

(** X22: the same for
    [ComprehensiveCountryDetector.get_country_from_coordinates] at a point
    that the high-confidence rules leave ['Uncertain'], with geocoding
    on: the cache has an entry for the point afterwards; when the entry
    names a country the label is that name passed through
    [standardize_country_name] once more, otherwise it is the label of
    the detailed rules. *)
Theorem X22_comprehensive_label_follows_cache E lat lon flat flon s label :
  isna lat = false -> isna lon = false ->
  py_float E lat = Some flat -> py_float E lon = Some flon ->
  Comprehensive.get_high_confidence_country flat flon = "Uncertain" ->
  use_geocoding s = true ->
  fst (Comprehensive.get_country_from_coordinates E lat lon s) = Ok label ->
  exists entry,
    geocoding_cache (snd (Comprehensive.get_country_from_coordinates E lat lon s))
      !! cache_key 2 flat flon = Some entry
    /\ label = if truthy entry
               then default "" (Comprehensive.standardize_country_name E entry)
               else Comprehensive.get_detailed_geographical_country flat flon.
Proof.
  intros Hlat Hlon Hflat Hflon Hu Hg.
  rewrite (comp_coordinates_online E lat lon flat flon s Hlat Hlon Hflat Hflon
             Hu Hg).
  pose proof (comp_geocoding_caches E flat flon 2 s) as Hc.
  destruct (Comprehensive.get_country_with_geocoding E flat flon 2 s)
    as [[entry|e] s1]; cbn [fst snd] in *; [|discriminate].
  intros [= <-]. exists entry. split; [now apply Hc|reflexivity].
Qed.

Lemma X22_witness_failed_lookup :
  exists entry,
    geocoding_cache
      (snd (Comprehensive.get_country_from_coordinates always_down
              (VFloat (fz 0)) (VFloat (fz (-150)))
              (Comprehensive.init always_down true None None)))
      !! cache_key 2 (fz 0) (fz (-150)) = Some entry
    /\ "North Pacific Ocean" =
       if truthy entry
       then default "" (Comprehensive.standardize_country_name always_down entry)
       else Comprehensive.get_detailed_geographical_country (fz 0) (fz (-150)).
Proof.
  apply (X22_comprehensive_label_follows_cache always_down
           (VFloat (fz 0)) (VFloat (fz (-150))) (fz 0) (fz (-150))
           (Comprehensive.init always_down true None None) "North Pacific Ocean");
    vm_compute; reflexivity.
Defined.
